(** * GridLAB-D TMY3 reader: a shallow embedding of [tmy3.py]

    The development follows the module top to bottom: the Python values and
    exceptions the code manipulates, the string and calendar primitives of
    the standard library that it calls ([str.split], [str.strip], [int],
    [float], [datetime.strptime], [datetime.replace]), the configuration
    bootstrap, the content cache ([get_data]), the station index
    ([get_index]) and the [TMY3] container built on [pandas.read_table]. *)

From Stdlib Require Import ZArith Lia List Ascii String.
From stdpp Require Import base option list strings gmap sorting.

Local Open Scope string_scope.
Local Open Scope Z_scope.

(** ** Exceptions and results *)

(** The exceptions that can leave the functions of the module.  In Python 3
    [OSError(2, msg, path)] is an instance of [FileNotFoundError]: the errno
    [2] is [ENOENT]. *)
Inductive exn : Type :=
| NameError (name : string)
| KeyError (key : string)
| ValueError (msg : string)
| OverflowError (msg : string)
| TypeError (msg : string)
| AttributeError (msg : string)
| OSError (errno : Z) (strerror : string) (filename : string)
| ParserError (msg : string)
| EmptyDataError
| TransportError.

Inductive result (A : Type) : Type :=
| Ok (a : A)
| Raise (e : exn).
Arguments Ok {A} a.
Arguments Raise {A} e.

Global Instance exn_eq_dec : EqDecision exn.
Proof. solve_decision. Defined.
Global Instance result_eq_dec `{EqDecision A} : EqDecision (result A).
Proof. solve_decision. Defined.

Global Instance result_ret : MRet result := @Ok.
Global Instance result_bind : MBind result := fun A B f m =>
  match m with
  | Ok a => f a
  | Raise e => Raise e
  end.
Global Instance result_fmap : FMap result := fun A B f m =>
  match m with
  | Ok a => Ok (f a)
  | Raise e => Raise e
  end.

Definition is_ok {A} (r : result A) : bool :=
  match r with Ok _ => true | Raise _ => false end.

(** [mapM] in column order: the first failing element decides the exception. *)
Fixpoint mapR {A B} (f : A -> result B) (l : list A) : result (list B) :=
  match l with
  | [] => Ok []
  | x :: l' => y ← f x; ys ← mapR f l'; Ok (y :: ys)
  end.

(** ** Strings *)

(** Strings are sequences of 8-bit code points.  [str.isspace] restricted to
    that range. *)
Definition py_isspace (a : ascii) : bool :=
  let n := N_of_ascii a in
  ((9 <=? n) && (n <=? 13) || (28 <=? n) && (n <=? 32)
   || (n =? 133) || (n =? 160))%N.

Fixpoint lstrip (s : string) : string :=
  match s with
  | String a s' => if py_isspace a then lstrip s' else s
  | EmptyString => EmptyString
  end.

Fixpoint rstrip (s : string) : string :=
  match s with
  | EmptyString => EmptyString
  | String a s' =>
      match rstrip s' with
      | EmptyString => if py_isspace a then EmptyString else String a EmptyString
      | r => String a r
      end
  end.

(** [s.strip()] *)
Definition strip (s : string) : string := rstrip (lstrip s).

(** [s.split(c)] for a one-character separator: never the empty list. *)
Fixpoint split_on (c : ascii) (s : string) : list string :=
  match s with
  | EmptyString => [EmptyString]
  | String a s' =>
      if Ascii.eqb a c then EmptyString :: split_on c s'
      else match split_on c s' with
           | x :: xs => String a x :: xs
           | [] => [String a EmptyString]
           end
  end.

Definition lower_ascii (a : ascii) : ascii :=
  let n := N_of_ascii a in
  if ((65 <=? n) && (n <=? 90))%N then ascii_of_N (n + 32) else a.

Fixpoint lower (s : string) : string :=
  match s with
  | EmptyString => EmptyString
  | String a s' => String (lower_ascii a) (lower s')
  end.

(** ** Numbers: [int(str)] and [float(str)] *)

Definition digit_of (a : ascii) : option Z :=
  let n := N_of_ascii a in
  if ((48 <=? n) && (n <=? 57))%N then Some (Z.of_N n - 48) else None.

Definition is_underscore (a : ascii) : bool := Ascii.eqb a "_".

(** Reads the longest prefix [digit (["_"] digit)*], continuing the value
    [acc]; [n] counts the digits read so far (an underscore is only allowed
    between two digits). Returns the value, the count and the rest. *)
Fixpoint scan_digits (acc : Z) (n : nat) (s : string) : Z * nat * string :=
  match s with
  | EmptyString => (acc, n, s)
  | String d s' =>
      match digit_of d with
      | Some v => scan_digits (10 * acc + v) (S n) s'
      | None =>
          if is_underscore d && negb (Nat.eqb n 0) then
            match s' with
            | String d2 s'' =>
                match digit_of d2 with
                | Some v => scan_digits (10 * acc + v) (S n) s''
                | None => (acc, n, s)
                end
            | EmptyString => (acc, n, s)
            end
          else (acc, n, s)
      end
  end.

Definition scan_sign (s : string) : bool * string :=
  match s with
  | String "-" r => (true, r)
  | String "+" r => (false, r)
  | _ => (false, s)
  end.

(** [int(s)], base ten. *)
Definition py_int (s : string) : result Z :=
  let '(neg, u) := scan_sign (strip s) in
  match scan_digits 0 0 u with
  | (v, S _, EmptyString) => Ok (if neg then - v else v)
  | _ => Raise (ValueError "invalid literal for int() with base 10")
  end.

(** A float is kept as the decimal number its literal denotes,
    [(-1)^neg * mantissa * 10^exp10]; rounding to binary64 plays no part in
    what follows. *)
Inductive pyfloat : Type :=
| Finite (neg : bool) (mantissa : Z) (exp10 : Z)
| Inf (neg : bool)
| FNaN.

Global Instance pyfloat_eq_dec : EqDecision pyfloat.
Proof. solve_decision. Defined.

Definition is_exp_mark (a : ascii) : bool := Ascii.eqb a "e" || Ascii.eqb a "E".

(** [float(s)] *)
Definition py_float (s : string) : result pyfloat :=
  let bad := Raise (ValueError "could not convert string to float") in
  let '(neg, u) := scan_sign (strip s) in
  let lu := lower u in
  if String.eqb lu "inf" || String.eqb lu "infinity" then Ok (Inf neg)
  else if String.eqb lu "nan" then Ok FNaN
  else
    let '(ip, ni, r1) := scan_digits 0 0 u in
    let '(m, nf, r2) :=
      match r1 with
      | String "." r => scan_digits ip 0 r
      | _ => (ip, 0%nat, r1)
      end in
    if Nat.eqb (ni + nf) 0 then bad
    else match r2 with
         | EmptyString => Ok (Finite neg m (- Z.of_nat nf))
         | String e r3 =>
             if is_exp_mark e then
               let '(eneg, r4) := scan_sign r3 in
               match scan_digits 0 0 r4 with
               | (ev, S _, EmptyString) =>
                   Ok (Finite neg m ((if eneg then - ev else ev) - Z.of_nat nf))
               | _ => bad
               end
             else bad
         end.

(** ** Calendar: [datetime.date], [datetime.time], [datetime.datetime] *)

Record date : Type := mk_date { year : Z; month : Z; day : Z }.
Record time : Type := mk_time { hour : Z; minute : Z }.
Record datetime : Type := mk_datetime { dt_date : date; dt_time : time }.

Global Instance date_eq_dec : EqDecision date.
Proof. solve_decision. Defined.
Global Instance time_eq_dec : EqDecision time.
Proof. solve_decision. Defined.
Global Instance datetime_eq_dec : EqDecision datetime.
Proof. solve_decision. Defined.

Definition MINYEAR : Z := 1.
Definition MAXYEAR : Z := 9999.

Definition is_leap (y : Z) : bool :=
  (y mod 4 =? 0) && (negb (y mod 100 =? 0) || (y mod 400 =? 0)).

Definition days_in_month (y m : Z) : Z :=
  if (m =? 2) && is_leap y then 29
  else nth (Z.to_nat m) [0; 31; 28; 31; 30; 31; 30; 31; 31; 30; 31; 30; 31] 0.

Definition days_before_year (y : Z) : Z :=
  let y1 := y - 1 in y1 * 365 + y1 / 4 - y1 / 100 + y1 / 400.

Definition days_before_month (y m : Z) : Z :=
  nth (Z.to_nat m) [0; 0; 31; 59; 90; 120; 151; 181; 212; 243; 273; 304; 334] 0
  + (if (2 <? m) && is_leap y then 1 else 0).

(** [date.toordinal()] *)
Definition toordinal (d : date) : Z :=
  days_before_year (year d) + days_before_month (year d) (month d) + day d.

(** Minutes since the start of the proleptic Gregorian calendar; the
    difference of two of them is the [timedelta] between the datetimes. *)
Definition minutes_of (dt : datetime) : Z :=
  (toordinal (dt_date dt) * 24 + hour (dt_time dt)) * 60 + minute (dt_time dt).

(** The field checks of the [date] constructor. *)
Definition check_date (y m d : Z) : result date :=
  if negb ((MINYEAR <=? y) && (y <=? MAXYEAR)) then
    Raise (ValueError "year is out of range")
  else if negb ((1 <=? m) && (m <=? 12)) then
    Raise (ValueError "month must be in 1..12")
  else if negb ((1 <=? d) && (d <=? days_in_month y m)) then
    Raise (ValueError "day is out of range for month")
  else Ok (mk_date y m d).

(** The constructors of [datetime] are written in C and take their fields
    as C [int]s: an argument that does not fit one is refused with
    [OverflowError] while the arguments are parsed, before any field is
    checked.  An [int] is 32 bits wide and a [long] 64. *)
Definition as_c_int (n : Z) : result Z :=
  if (n <? - 2 ^ 63) || (2 ^ 63 - 1 <? n) then
    Raise (OverflowError "Python int too large to convert to C long")
  else if 2 ^ 31 - 1 <? n then
    Raise (OverflowError "signed integer is greater than maximum")
  else if n <? - 2 ^ 31 then
    Raise (OverflowError "signed integer is less than minimum")
  else Ok n.

(** The field check of the [time] constructor. *)
Definition check_hour (h : Z) : result Z :=
  if (0 <=? h) && (h <=? 23) then Ok h
  else Raise (ValueError "hour must be in 0..23").

(** [datetime.time(hour=h)] *)
Definition new_time (h : Z) : result time :=
  h ← as_c_int h;
  h ← check_hour h;
  Ok (mk_time h 0).

(** [datetime.datetime(y, m, d, h)] *)
Definition new_datetime (y m d h : Z) : result datetime :=
  y ← as_c_int y;
  m ← as_c_int m;
  d ← as_c_int d;
  h ← as_c_int h;
  dd ← check_date y m d;
  h ← check_hour h;
  Ok (mk_datetime dd (mk_time h 0)).

(** [dt.replace(year=y)] *)
Definition replace_year (dt : datetime) (y : Z) : result datetime :=
  y ← as_c_int y;
  dd ← check_date y (month (dt_date dt)) (day (dt_date dt));
  Ok (mk_datetime dd (dt_time dt)).

(** ** [datetime.datetime.strptime(s, "%m/%d/%Y")]

    [strptime] compiles the format to the regular expression
    [(1[0-2]|0[1-9]|[1-9])/(3[01]|[12]\d|0[1-9]|[1-9]| [1-9])/(\d\d\d\d)],
    matches it at the start of the string and then refuses unconverted
    trailing data.  The matcher below is written in continuation style: an
    alternative that matches but whose continuation fails is abandoned for
    the next one, as the backtracking engine does. *)

Definition orelse {A} (x y : option A) : option A :=
  match x with Some _ => x | None => y end.

Definition in_range (lo hi : Z) (a : ascii) : option Z :=
  match digit_of a with
  | Some v => if (lo <=? v) && (v <=? hi) then Some v else None
  | None => None
  end.

(** One character in [lo-hi]. *)
Definition re_digit {A} (lo hi : Z) (k : Z -> string -> option A) (s : string)
  : option A :=
  match s with
  | String a r => match in_range lo hi a with Some v => k v r | None => None end
  | EmptyString => None
  end.

(** The literal character [c]. *)
Definition re_lit {A} (c : ascii) (k : string -> option A) (s : string)
  : option A :=
  match s with
  | String a r => if Ascii.eqb a c then k r else None
  | EmptyString => None
  end.

(** [%m]: [1[0-2]|0[1-9]|[1-9]] *)
Definition re_m {A} (k : Z -> string -> option A) (s : string) : option A :=
  orelse (re_digit 1 1 (fun a => re_digit 0 2 (fun b => k (10 * a + b))) s)
  (orelse (re_digit 0 0 (fun a => re_digit 1 9 (fun b => k (10 * a + b))) s)
          (re_digit 1 9 k s)).

(** [%d]: [3[0-1]|[1-2]\d|0[1-9]|[1-9]| [1-9]] *)
Definition re_d {A} (k : Z -> string -> option A) (s : string) : option A :=
  orelse (re_digit 3 3 (fun a => re_digit 0 1 (fun b => k (10 * a + b))) s)
  (orelse (re_digit 1 2 (fun a => re_digit 0 9 (fun b => k (10 * a + b))) s)
  (orelse (re_digit 0 0 (fun a => re_digit 1 9 (fun b => k (10 * a + b))) s)
  (orelse (re_digit 1 9 k s)
          (re_lit " " (re_digit 1 9 k) s)))).

(** [%Y]: [\d\d\d\d] *)
Definition re_Y {A} (k : Z -> string -> option A) (s : string) : option A :=
  re_digit 0 9 (fun a => re_digit 0 9 (fun b => re_digit 0 9 (fun c =>
  re_digit 0 9 (fun d => k (1000 * a + 100 * b + 10 * c + d))))) s.

(** The first match of the compiled format: month, day, year and what is
    left of the string. *)
Definition match_mdY (s : string) : option (Z * Z * Z * string) :=
  re_m (fun m => re_lit "/" (re_d (fun d => re_lit "/"
       (re_Y (fun y rest => Some (m, d, y, rest)))))) s.

Definition strptime_mdY (s : string) : result datetime :=
  match match_mdY s with
  | None => Raise (ValueError "time data does not match format")
  | Some (m, d, y, rest) =>
      if String.eqb rest EmptyString then new_datetime y m d 0
      else Raise (ValueError "unconverted data remains")
  end.

(** ** The two converters local to [TMY3.__init__] *)

(** [if coerce_year:] — [None] and [0] are both false. *)
Definition truthy (coerce_year : option Z) : bool :=
  match coerce_year with
  | Some y => negb (y =? 0)
  | None => false
  end.

Definition get_date (coerce_year : option Z) (dt : string) : result date :=
  if truthy coerce_year then
    d ← strptime_mdY dt;
    d' ← replace_year d (default 0 coerce_year);
    Ok (dt_date d')
  else
    d ← strptime_mdY dt;
    Ok (dt_date d).

Definition get_time (dt : string) : result time :=
  h ← py_int (hd EmptyString (split_on ":" dt));
  new_time (h - 1).

(** ** The process environment: files, directories, network *)

Definition LF : ascii := "010"%char.
Definition CR : ascii := "013"%char.

Record response : Type := mk_response { status_code : Z; text : string }.

(** [files] maps a path to the characters stored there, [dirs] is the set of
    existing directories, [requests] is the log of the URLs fetched so far,
    oldest first.  Paths are compared as strings; permissions are not
    modelled (every existing directory is writable). *)
Record world : Type := mk_world {
  files : gmap string string;
  dirs : gset string;
  requests : list string
}.

Definition io (A : Type) : Type := world -> result A * world.

Definition io_ret {A} (a : A) : io A := fun w => (Ok a, w).
Definition io_raise {A} (e : exn) : io A := fun w => (Raise e, w).
Definition io_bind {A B} (m : io A) (f : A -> io B) : io B := fun w =>
  match m w with
  | (Ok a, w') => f a w'
  | (Raise e, w') => (Raise e, w')
  end.
Definition io_lift {A} (r : result A) : io A := fun w => (r, w).

Global Instance io_mret : MRet io := @io_ret.
Global Instance io_mbind : MBind io := fun A B f m => io_bind m f.

(** Text mode on input ([newline=None]): every ["\r\n"] and every remaining
    ["\r"] is read as ["\n"]. *)
Fixpoint universal_newlines (s : string) : string :=
  match s with
  | EmptyString => EmptyString
  | String a r =>
      if Ascii.eqb a CR then
        match r with
        | String b r' =>
            if Ascii.eqb b LF then String LF (universal_newlines r')
            else String LF (universal_newlines r)
        | EmptyString => String LF EmptyString
        end
      else String a (universal_newlines r)
  end.

Fixpoint has_CR (s : string) : bool :=
  match s with
  | EmptyString => false
  | String a r => Ascii.eqb a CR || has_CR r
  end.

(** [os.path.dirname] *)
Fixpoint up_to_last_sep (p : string) : option string :=
  match p with
  | EmptyString => None
  | String a r =>
      match up_to_last_sep r with
      | Some h => Some (String a h)
      | None => if Ascii.eqb a "/" then Some (String a EmptyString) else None
      end
  end.

Fixpoint rstrip_sep (s : string) : string :=
  match s with
  | EmptyString => EmptyString
  | String a s' =>
      match rstrip_sep s' with
      | EmptyString => if Ascii.eqb a "/" then EmptyString else String a EmptyString
      | r => String a r
      end
  end.

Definition dirname (p : string) : string :=
  match up_to_last_sep p with
  | None => EmptyString
  | Some h => match rstrip_sep h with EmptyString => h | t => t end
  end.

Definition is_file (p : string) (w : world) : bool :=
  bool_decide (is_Some (files w !! p)).
Definition is_dir (p : string) (w : world) : bool :=
  bool_decide (p ∈ dirs w).

(** [os.path.exists(p)] *)
Definition path_exists (p : string) (w : world) : bool :=
  is_file p w || is_dir p w.

(** [with open(p, "rt") as f: f.read()] *)
Definition read_text (p : string) : io string := fun w =>
  match files w !! p with
  | Some s => (Ok (universal_newlines s), w)
  | None =>
      if is_dir p w then (Raise (OSError 21 "Is a directory" p), w)
      else (Raise (OSError 2 "No such file or directory" p), w)
  end.

(** [with open(p, "wt") as f: f.write(s)] on a POSIX system, where
    ["\n"] is written as it is.  The empty directory name is the current
    directory. *)
Definition write_text (p : string) (s : string) : io unit := fun w =>
  if is_dir p w then (Raise (OSError 21 "Is a directory" p), w)
  else if is_file (dirname p) w then (Raise (OSError 20 "Not a directory" p), w)
  else if String.eqb (dirname p) EmptyString || is_dir (dirname p) w then
    (Ok tt, mk_world (<[p := s]> (files w)) (dirs w) (requests w))
  else (Raise (OSError 2 "No such file or directory" p), w).

(** ** JSON output of [json.dump(config, f, indent=4)] *)

Definition hex_digit (n : N) : ascii :=
  if (n <? 10)%N then ascii_of_N (48 + n) else ascii_of_N (87 + n).

Definition QUOTE : ascii := ascii_of_N 34.
Definition BACKSLASH : ascii := ascii_of_N 92.

Definition json_escape_char (a : ascii) : string :=
  let n := N_of_ascii a in
  if Ascii.eqb a QUOTE then String BACKSLASH (String QUOTE EmptyString)
  else if Ascii.eqb a BACKSLASH then String BACKSLASH (String BACKSLASH EmptyString)
  else if (n =? 10)%N then "\n"
  else if (n =? 13)%N then "\r"
  else if (n =? 9)%N then "\t"
  else if (n =? 8)%N then "\b"
  else if (n =? 12)%N then "\f"
  else if ((n <? 32) || (126 <? n))%N then
    "\u00" +:+ String (hex_digit (n / 16)) (String (hex_digit (n mod 16)) EmptyString)
  else String a EmptyString.

Fixpoint json_escape (s : string) : string :=
  match s with
  | EmptyString => EmptyString
  | String a r => json_escape_char a +:+ json_escape r
  end.

Definition json_string (s : string) : string :=
  String QUOTE (json_escape s) +:+ String QUOTE EmptyString.

Fixpoint join (sep : string) (l : list string) : string :=
  match l with
  | [] => EmptyString
  | [x] => x
  | x :: l' => x +:+ sep +:+ join sep l'
  end.

(** A configuration is a dictionary of strings; insertion order is the order
    in which [json.dump] writes the items. *)
Definition config_t : Type := list (string * string).

Definition json_dump (cfg : config_t) : string :=
  match cfg with
  | [] => "{}"
  | _ =>
      "{" +:+ String LF EmptyString +:+
      join ("," +:+ String LF EmptyString)
        (map (fun kv => "    " +:+ json_string (fst kv) +:+ ": " +:+ json_string (snd kv)) cfg)
      +:+ String LF EmptyString +:+ "}"
  end.

Fixpoint assoc {V} (k : string) (l : list (string * V)) : option V :=
  match l with
  | [] => None
  | (k', v) :: l' => if String.eqb k k' then Some v else assoc k l'
  end.

(** [d[k]] *)
Definition getitem {V} (d : list (string * V)) (k : string) : result V :=
  match assoc k d with
  | Some v => Ok v
  | None => Raise (KeyError k)
  end.

(** ** Module level: configuration *)

(** Values a name can be bound to, as far as the configuration code can
    tell them apart. *)
Inductive pyval : Type :=
| PStr (s : string)
| PObj (what : string).

Definition scope : Type := list (string * pyval).

(** Name resolution inside a function body: locals, then module globals.
    (The built-in namespace binds no name [filename].) *)
Definition lookup_name (locals globals : scope) (name : string) : result pyval :=
  match assoc name locals with
  | Some v => Ok v
  | None =>
      match assoc name globals with
      | Some v => Ok v
      | None => Raise (NameError name)
      end
  end.

Definition as_path (v : pyval) : result string :=
  match v with
  | PStr s => Ok s
  | PObj _ => Raise (TypeError "expected str, bytes or os.PathLike object")
  end.

Definition default_config : config_t :=
  [ ("server", "https://github.com/");
    ("organization", "slacgismo");
    ("repository", "gridlabd-weather");
    ("branch", "master");
    ("country", "US");
    ("index_name", ".index") ].

Section Module.

(** [os.getenv('HOME')]; an unset variable formats as [None]. *)
Variable HOME : option string.
(** [json.load] applied to the text of a file. *)
Variable json_load : string -> result config_t.
(** The network: the answer to the request for a URL, given how many
    requests were made before it; [None] when the transport fails. *)
Variable remote : nat -> string -> option response.

Definition config_dir : string := default "None" HOME +:+ "/.gridlabd-weather".
Definition cache_dir : string := config_dir +:+ "/data".
Definition config_path : string := config_dir +:+ "/config.json".

(** The module namespace when line 42 runs. *)
Definition globals_at_import : scope :=
  [ ("os", PObj "module"); ("sys", PObj "module"); ("json", PObj "module");
    ("pandas", PObj "module"); ("datetime", PObj "module");
    ("requests", PObj "module");
    ("config_dir", PStr config_dir); ("cache_dir", PStr cache_dir);
    ("load_config", PObj "function"); ("save_config", PObj "function") ].

(** The module namespace once the module is loaded. *)
Definition module_globals : scope :=
  (globals_at_import ++
   [ ("config", PObj "dict"); ("get_index", PObj "function");
     ("get_tmy3", PObj "function"); ("get_data", PObj "function");
     ("TMY3", PObj "class"); ("unittest", PObj "module");
     ("_unittest", PObj "class") ])%list.

(** The parameter is [pathname]; the body opens [filename]. *)
Definition load_config (globals : scope) (pathname : string) : io config_t :=
  let locals := [("pathname", PStr pathname)] in
  filename ← io_lift (lookup_name locals globals "filename");
  p ← io_lift (as_path filename);
  s ← read_text p;
  config ← io_lift (json_load s);
  mret config.

Definition save_config (config : config_t) (filename : string) : io unit :=
  write_text filename (json_dump config).

(** Lines 41-52: the value of the global [config] afterwards.  The bare
    [except:] catches every exception of [load_config]; one raised by
    [save_config] inside the handler leaves the module. *)
Definition bootstrap : io config_t := fun w =>
  match load_config globals_at_import config_path w with
  | (Ok config, w') => (Ok config, w')
  | (Raise _, w') =>
      (_ ← save_config default_config config_path; mret default_config) w'
  end.

(** ** Content cache *)

(** [requests.get(url)] *)
Definition requests_get (url : string) : io response := fun w =>
  let w' := mk_world (files w) (dirs w) ((requests w ++ [url])%list) in
  match remote (length (requests w)) url with
  | Some r => (Ok r, w')
  | None => (Raise TransportError, w')
  end.

Definition data_url (config : config_t) (filename : string) : result string :=
  server ← getitem config "server";
  organization ← getitem config "organization";
  repository ← getitem config "repository";
  branch ← getitem config "branch";
  country ← getitem config "country";
  Ok (server +:+ organization +:+ "/" +:+ repository +:+ "/raw/" +:+ branch
      +:+ "/" +:+ country +:+ "/" +:+ filename).

Definition cache_file_of (filename : string) : string :=
  cache_dir +:+ "/" +:+ filename.

Definition get_data (config : config_t) (filename : string)
    (cache_filename_only : bool) : io string := fun w =>
  let cache_file := cache_file_of filename in
  if path_exists cache_file w then
    if cache_filename_only then (Ok cache_file, w)
    else read_text cache_file w
  else
    (url ← io_lift (data_url config filename);
     r ← requests_get url;
     if status_code r =? 200 then
       _ ← write_text cache_file (text r);
       if cache_filename_only then mret cache_file
       else mret (text r)
     else io_raise (OSError 2 "file not found" cache_file)) w.

(** ** Station index *)

(** [sorted] on strings: code-point order.  The order is total and
    antisymmetric, so the sorted list is unique and stability is moot. *)
Definition sorted (l : list string) : list string := merge_sort String.le l.

Definition get_index (config : config_t) : io (list string) :=
  index_name ← io_lift (getitem config "index_name");
  data ← get_data config index_name false;
  mret (sorted (split_on LF (strip data))).

End Module.

(** ** pandas: cells, series, data frames *)

(** What a cell of a data frame holds.  A column without converter has its
    dtype inferred by pandas, which never raises: the lexeme is kept
    ([CRaw]), or the cell is missing ([CNA]). *)
Inductive cell : Type :=
| CRaw (s : string)
| CNA
| CStr (s : string)
| CInt (z : Z)
| CFloat (f : pyfloat)
| CDate (d : date)
| CTime (t : time)
| CDateTime (dt : datetime).

Global Instance cell_eq_dec : EqDecision cell.
Proof. solve_decision. Defined.

Definition Series : Type := list cell.

(** [df_index] holds the leading unnamed columns that pandas turns into the
    index when the records are wider than the labels; [df_len] is the
    number of rows. *)
Record DataFrame : Type := mk_df {
  df_index_name : option string;
  df_index : list Series;
  df_len : nat;
  df_columns : list (string * Series)
}.

Definition converter : Type := string -> result cell.

Definition conv_date (coerce_year : option Z) : converter :=
  fun s => CDate <$> get_date coerce_year s.
Definition conv_time : converter := fun s => CTime <$> get_time s.
Definition conv_float : converter := fun s => CFloat <$> py_float s.
Definition conv_int : converter := fun s => CInt <$> py_int s.
Definition conv_str : converter := fun s => Ok (CStr s).

(** Where the column labels come from: [header=n] (a row of the file) or
    [header=None, names=[...]]. *)
Inductive labels_from : Type :=
| header_row (n : nat)
| given_names (names : list string).

(** The strings pandas reads as a missing value in a column without
    converter. *)
Definition na_values : list string :=
  [ EmptyString; "#N/A"; "#N/A N/A"; "#NA"; "-1.#IND"; "-1.#QNAN"; "-NaN";
    "-nan"; "1.#IND"; "1.#QNAN"; "<NA>"; "N/A"; "NA"; "NULL"; "NaN"; "None";
    "n/a"; "nan"; "null" ].

Definition infer (s : string) : cell :=
  if bool_decide (s ∈ na_values) then CNA else CRaw s.

(** A record shorter than the table is padded with empty fields. *)
Definition field (row : list string) (i : nat) : string := nth i row EmptyString.

(** After the first data record, a record with more fields than the table
    is an error. *)
Fixpoint check_widths (w : nat) (rows : list (list string)) : result unit :=
  match rows with
  | [] => Ok tt
  | r :: rows' =>
      if (w <? length r)%nat then Raise (ParserError "Error tokenizing data")
      else check_widths w rows'
  end.

(** [pandas.read_table(file, delimiter=",", skiprows=.., nrows=..,
    header=.., names=.., converters=..)] on the records of the file, as the
    tokenizer delivers them (blank lines dropped, one list of fields per
    line).  Labels are taken to be distinct.  Converters are applied column
    by column, in column order. *)
Definition read_table (recs : list (list string)) (skiprows nrows : nat)
    (labels : labels_from) (converters : list (string * converter))
  : result DataFrame :=
  let recs1 := drop skiprows recs in
  '(labels, body) ←
    match labels with
    | header_row n =>
        match drop n recs1 with
        | h :: b => Ok (h, b)
        | [] => Raise EmptyDataError
        end
    | given_names names =>
        match recs1 with
        | [] => Raise EmptyDataError
        | _ => Ok (names, recs1)
        end
    end;
  let data := take nrows body in
  let w := match data with
           | [] => length labels
           | r :: _ => Nat.max (length r) (length labels)
           end in
  _ ← check_widths w (tail data);
  let lead := (w - length labels)%nat in
  cols ← mapR (fun '(j, label) =>
                 let raw := map (fun row => field row (lead + j)) data in
                 match assoc label converters with
                 | Some f => s ← mapR f raw; Ok (label, s)
                 | None => Ok (label, map infer raw)
                 end)
              (zip (seq 0 (length labels)) labels);
  Ok (mk_df None
        (map (fun i => map (fun row => infer (field row i)) data) (seq 0 lead))
        (length data) cols).

(** [df[column]] *)
Definition df_getitem (df : DataFrame) (column : string) : result Series :=
  getitem (df_columns df) column.

(** [df.insert(0, column, values)] *)
Definition df_insert0 (df : DataFrame) (column : string) (values : Series)
  : result DataFrame :=
  match assoc column (df_columns df) with
  | Some _ => Raise (ValueError "cannot insert, already exists")
  | None =>
      if Nat.eqb (length values) (df_len df) then
        Ok (mk_df (df_index_name df) (df_index df) (df_len df)
              ((column, values) :: df_columns df))
      else Raise (ValueError "Length of values does not match length of index")
  end.

Definition set_index_name (df : DataFrame) (name : string) : DataFrame :=
  mk_df (Some name) (df_index df) (df_len df) (df_columns df).

(** ** The [TMY3] container *)

(** [nrows=8760] *)
Definition nrows_year : nat := Z.to_nat 8760.

Definition info_names : list string :=
  [ "station"; "name"; "state"; "tzoffset"; "latitude"; "longitude"; "elevation" ].

Definition converters (coerce_year : option Z) : list (string * converter) :=
  [ ("Date (MM/DD/YYYY)", conv_date coerce_year);
    ("Time (HH:MM)", conv_time);
    ("ETR (W/m^2)", conv_float);
    ("ETRN (W/m^2)", conv_float);
    ("GHI (W/m^2)", conv_float);
    ("GHI source", conv_float);
    ("GHI uncert (%)", conv_float);
    ("DNI (W/m^2)", conv_float);
    ("DNI source", conv_str);
    ("DNI uncert (%)", conv_float);
    ("DHI (W/m^2)", conv_float);
    ("DHI source", conv_str);
    ("DHI uncert (%)", conv_float);
    ("GH illum (lx)", conv_float);
    ("GH illum source", conv_str);
    ("Global illum uncert (%)", conv_float);
    ("DN illum (lx)", conv_float);
    ("DN illum source", conv_str);
    ("DN illum uncert (%)", conv_float);
    ("DH illum (lx)", conv_float);
    ("DH illum source", conv_str);
    ("DH illum uncert (%)", conv_float);
    ("Zenith lum (cd/m^2)", conv_float);
    ("Zenith lum source", conv_str);
    ("Zenith lum uncert (%)", conv_float);
    ("TotCld (tenths)", conv_float);
    ("TotCld source", conv_str);
    ("TotCld uncert (code)", conv_int);
    ("OpqCld (tenths)", conv_float);
    ("OpqCld source", conv_str);
    ("OpqCld uncert (code)", conv_int);
    ("Dry-bulb (C)", conv_float);
    ("Dry-bulb source", conv_str);
    ("Dry-bulb uncert (code)", conv_int);
    ("Dew-point (C)", conv_float);
    ("Dew-point source", conv_str);
    ("Dew-point uncert (code)", conv_int);
    ("RHum (%)", conv_float);
    ("RHum source", conv_str);
    ("RHum uncert (code)", conv_int);
    ("Pressure (mbar)", conv_float);
    ("Pressure source", conv_str);
    ("Pressure uncert (code)", conv_int);
    ("Wdir (degrees)", conv_float);
    ("Wdir source", conv_str);
    ("Wdir uncert (code)", conv_int);
    ("Wspd (m/s)", conv_float);
    ("Wspd source", conv_str);
    ("Wspd uncert (code)", conv_int);
    ("Hvis (m)", conv_float);
    ("Hvis source", conv_str);
    ("Hvis uncert (code)", conv_int);
    ("CeilHgt (m)", conv_float);
    ("CeilHgt source", conv_str);
    ("CeilHgt uncert (code)", conv_int);
    ("Pwat (cm)", conv_float);
    ("Pwat source", conv_str);
    ("Pwat uncert (code)", conv_int);
    ("AOD (unitless)", conv_float);
    ("AOD source", conv_str);
    ("AOD uncert (code)", conv_int);
    ("Alb (unitless)", conv_float);
    ("Alb source", conv_str);
    ("Alb uncert (code)", conv_int);
    ("Lprecip depth (mm)", conv_float);
    ("Lprecip quantity (hr)", conv_float);
    ("Lprecip source", conv_str);
    ("Lprecip uncert (code)", conv_int);
    ("PresWth (METAR code)", conv_int);
    ("PresWth source", conv_str);
    ("PresWth uncert (code)", conv_int) ].

Definition series_names : list (string * string) :=
  [ ("DateTime", "datetime");
    ("Date (MM/DD/YYYY)", "date");
    ("Time (HH:MM)", "hour");
    ("ETR (W/m^2)", "etr");
    ("ETRN (W/m^2)", "etrn");
    ("GHI (W/m^2)", "ghi");
    ("DNI (W/m^2)", "dni");
    ("DHI (W/m^2)", "dhi");
    ("GH illum (lx)", "ghillum");
    ("DN illum (lx)", "dnillum");
    ("DH illum (lx)", "dhillum");
    ("Zenith lum (cd/m^2)", "zenlu ");
    ("TotCld (tenths)", "totcld");
    ("OpqCld (tenths)", "opqcld");
    ("Dry-bulb (C)", "drybulb");
    ("Dew-point (C)", "dewpoint");
    ("RHum (%)", "rhum");
    ("Pressure (mbar)", "pressure");
    ("Wdir (degrees)", "wdir");
    ("Wspd (m/s)", "wspd");
    ("Hvis (m)", "hvis");
    ("CeilHgt (m)", "ceilhgt");
    ("Pwat (cm)", "pwat");
    ("AOD (unitless)", "aod");
    ("Alb (unitless)", "alb");
    ("Lprecip depth (mm)", "lprecipdepth");
    ("Lprecip quantity (hr)", "lprecipquantity") ].

Definition units_items : list (string * string) :=
  [ ("etr", "W/m^2");
    ("etrn", "W/m^2");
    ("ghi", "W/m^2");
    ("dni", "W/m^2");
    ("dhi", "W/m^2");
    ("ghillum", "lx");
    ("ghillum", "lx");
    ("dnillum", "lx");
    ("zenlu", "cd/m^2 ");
    ("totcld", "0.1unit");
    ("opqcld", "0.1unit");
    ("drybulb", "degC");
    ("dewpoint", "degC");
    ("rhum", "%");
    ("pressure", "mbar");
    ("wdir", "deg");
    ("wspd", "m/s");
    ("hvis", "m");
    ("ceilhgt", "m");
    ("pwat", "cm");
    ("aod", "unit");
    ("alb", "unit");
    ("lprecipdepth", "mm");
    ("lprecipquantity", "hr") ].

(** A dictionary display: a later item with the same key replaces the
    earlier one. *)
Definition dict_of_items (items : list (string * string)) : gmap string string :=
  foldl (fun d kv => <[kv.1 := kv.2]> d) ∅ items.

(** The instance: the attributes created by [setattr], keyed by their name,
    the data frame and the units dictionary. *)
Record TMY3 : Type := mk_TMY3 {
  attrs : gmap string Series;
  dataframe : DataFrame;
  units : gmap string string
}.

Definition setattr (self : gmap string Series) (name : string) (v : Series)
  : gmap string Series := <[name := v]> self.

Fixpoint foldR {A S} (f : S -> A -> result S) (s : S) (l : list A) : result S :=
  match l with
  | [] => Ok s
  | x :: l' => s' ← f s x; foldR f s' l'
  end.

(** [lambda x, y: datetime.datetime(x.year, x.month, x.day, y.hour)] *)
Definition combine (xy : cell * cell) : result cell :=
  match xy with
  | (CDate x, CTime y) =>
      CDateTime <$> new_datetime (year x) (month x) (day x) (hour y)
  | _ => Raise (AttributeError "year")
  end.

(** Lines 156-163: the station header, one attribute per name. *)
Definition TMY3_info (recs : list (list string)) : result (gmap string Series) :=
  info ← read_table recs 0 1 (given_names info_names) [];
  foldR (fun self item => v ← df_getitem info item; Ok (setattr self item v))
        ∅ (map fst (df_columns info)).

(** Lines 171-246: the data frame with its [DateTime] column. *)
Definition TMY3_dataframe (recs : list (list string)) (coerce_year : option Z)
  : result DataFrame :=
  df ← read_table recs 1 nrows_year (header_row 0) (converters coerce_year);
  let df := set_index_name df "Hour" in
  dates ← df_getitem df "Date (MM/DD/YYYY)";
  times ← df_getitem df "Time (HH:MM)";
  dts ← mapR combine (zip dates times);
  df_insert0 df "DateTime" dts.

(** Lines 247-276: one attribute per named column. *)
Definition TMY3_series (df : DataFrame) (self : gmap string Series)
  : result (gmap string Series) :=
  foldR (fun self cn => v ← df_getitem df cn.1; Ok (setattr self cn.2 v))
        self series_names.

(** [TMY3.__init__] on the records of the station file. *)
Definition TMY3_init (recs : list (list string)) (coerce_year : option Z)
  : result TMY3 :=
  self ← TMY3_info recs;
  df ← TMY3_dataframe recs coerce_year;
  self ← TMY3_series df self;
  Ok (mk_TMY3 self df (dict_of_items units_items)).

Section Loader.
Variable HOME : option string.
Variable remote : nat -> string -> option response.
(** The tokenizer of [pandas.read_table]: from the characters of a file to
    its records. *)
Variable tokenize : string -> list (list string).

(** [TMY3(filename, coerce_year)]: pandas opens the file itself. *)
Definition TMY3_open (filename : string) (coerce_year : option Z) : io TMY3 :=
  fun w =>
    match files w !! filename with
    | Some s => (TMY3_init (tokenize s) coerce_year, w)
    | None => (Raise (OSError 2 "No such file or directory" filename), w)
    end.

Definition get_tmy3 (config : config_t) (tmy3_name : string)
    (coerce_year : option Z) : io TMY3 :=
  filename ← get_data HOME remote config tmy3_name true;
  TMY3_open filename coerce_year.
End Loader.

(** ** The cell formats of a station file *)

Definition digit_char (d : Z) : ascii := ascii_of_N (48 + Z.to_N d).

(** [HH], [MM], [DD]: two decimal digits. *)
Definition two_digits (n : Z) : string :=
  String (digit_char (n / 10)) (String (digit_char (n mod 10)) EmptyString).

(** [YYYY]: four decimal digits. *)
Definition four_digits (n : Z) : string :=
  String (digit_char (n / 1000)) (String (digit_char (n / 100 mod 10))
    (two_digits (n mod 100))).

(** The date cell [MM/DD/YYYY]. *)
Definition date_cell (m d y : Z) : string :=
  two_digits m +:+ "/" +:+ two_digits d +:+ "/" +:+ four_digits y.

(** The time cell [HH:MM], with whatever follows the colon. *)
Definition time_cell (hh : Z) (mm : string) : string :=
  two_digits hh +:+ ":" +:+ mm.

(** ** Station files *)

Definition DATE : string := "Date (MM/DD/YYYY)".
Definition TIME : string := "Time (HH:MM)".

(** The cell a column holds for the field [s] once its converter, if it has
    one, has returned. *)
Definition convert (convs : list (string * converter)) (label s : string) : cell :=
  match assoc label convs with
  | Some f => match f s with Ok c => c | Raise _ => CNA end
  | None => infer s
  end.

Definition cell_ok (convs : list (string * converter)) (label s : string) : bool :=
  match assoc label convs with
  | Some f => is_ok (f s)
  | None => true
  end.

(** Every field of the record, the date and the time apart, is accepted by
    the converter of its column. *)
Definition row_ok (convs : list (string * converter)) (labels r : list string)
  : bool :=
  forallb (fun ls => String.eqb ls.1 DATE || String.eqb ls.1 TIME
                     || cell_ok convs ls.1 ls.2)
          (zip labels r).

(** The columns of a table all of whose fields convert. *)
Definition table_columns (convs : list (string * converter))
    (labels : list string) (data : list (list string)) : list (string * Series) :=
  imap (fun j l => (l, map (fun r => convert convs l (field r j)) data)) labels.

(** The station attributes when the first [lead] fields of the station line
    go to the index. *)
Definition info_attrs_at (lead : nat) (first : list string) : gmap string Series :=
  foldl (fun self iname =>
           setattr self iname.2 [infer (field first (lead + iname.1))])
        ∅ (zip (seq 0 7) info_names).

Definition info_attrs (first : list string) : gmap string Series :=
  info_attrs_at (length first - 7) first.

(** The [DateTime] cell of a record whose date is in column [jd] and whose
    time is in column [jt]. *)
Definition row_datetime (coerce_year : option Z) (jd jt : nat) (r : list string)
  : cell :=
  match get_date coerce_year (field r jd), get_time (field r jt) with
  | Ok d, Ok t => CDateTime (mk_datetime d t)
  | _, _ => CNA
  end.

(** What [TMY3.__init__] needs of a record to convert it: as many fields as
    there are labels, each accepted by the converter of its column. *)
Definition record_ok (coerce_year : option Z) (labels : list string)
    (jd jt : nat) (r : list string) : bool :=
  Nat.eqb (length r) (length labels)
  && is_ok (get_date coerce_year (field r jd))
  && is_ok (get_time (field r jt))
  && row_ok (converters coerce_year) labels r.

(** The data frame of a table all of whose records convert. *)
Definition loaded_frame (coerce_year : option Z) (labels : list string)
    (jd jt : nat) (data : list (list string)) : DataFrame :=
  mk_df (Some "Hour") [] (length data)
    (("DateTime", map (row_datetime coerce_year jd jt) data)
     :: table_columns (converters coerce_year) labels data).

(** The year a decoded date carries. *)
Definition effective_year (coerce_year : option Z) (y : Z) : Z :=
  if truthy coerce_year then default 0 coerce_year else y.

(** Month and day of the [n]-th day, counted from 0, of a year of 365
    days. *)
Fixpoint month_day_from (lengths : list Z) (m n : Z) : Z * Z :=
  match lengths with
  | [] => (m, n + 1)
  | len :: rest =>
      if n <? len then (m, n + 1) else month_day_from rest (m + 1) (n - len)
  end.

Definition month_day (n : Z) : Z * Z :=
  month_day_from [31; 28; 31; 30; 31; 30; 31; 31; 30; 31; 30; 31] 1 n.

(** The date and time cells of the [i]-th hour of such a year, the date
    being written with the year [y]: hours are labelled 01:00 to 24:00. *)
Definition hour_date_cell (y : Z) (i : nat) : string :=
  let md := month_day ((Z.of_nat i / 24) mod 365) in date_cell md.1 md.2 y.
Definition hour_time_cell (i : nat) : string :=
  time_cell (Z.of_nat i mod 24 + 1) "00".

(** The labels [TMY3.__init__] relies on: distinct, the date in column [jd],
    the time in column [jt], every column that becomes an attribute
    present, and no column called [DateTime] yet. *)
Definition station_labels (labels : list string) (jd jt : nat) : Prop :=
  NoDup labels
  /\ labels !! jd = Some DATE
  /\ labels !! jt = Some TIME
  /\ Forall (fun cn => cn.1 ∈ labels) (tail series_names)
  /\ "DateTime" ∉ labels.

(** The data block of a station file that follows the calendar: one record
    per hour of a year of 365 days, in order, the date of record [i] written
    with the year [ys i], and every other field accepted by its converter. *)
Definition hourly_records (coerce_year : option Z) (labels : list string)
    (jd jt : nat) (ys : nat -> Z) (rows : list (list string)) : Prop :=
  forall i r, rows !! i = Some r ->
    length r = length labels
    /\ field r jd = hour_date_cell (ys i) i
    /\ field r jt = hour_time_cell i
    /\ 1 <= ys i <= 9999
    /\ row_ok (converters coerce_year) labels r = true.

(** ** Sample inputs *)

Definition sample_home : option string := Some "/home/user".

Definition sample_dirs : gset string :=
  {[ "/home/user"; config_dir sample_home; cache_dir sample_home ]}.

(** A process with its directories, nothing cached, no request made. *)
Definition empty_cache : world := mk_world ∅ sample_dirs [].

(** The same with one cached file. *)
Definition cached (name contents : string) : world :=
  mk_world {[ cache_file_of sample_home name := contents ]} sample_dirs [].

(** A server that gives the same answer to every request. *)
Definition remote_always (r : response) : nat -> string -> option response :=
  fun _ _ => Some r.

Definition not_found : response := mk_response 404 "Not Found".

Definition sample_url (name : string) : string :=
  "https://github.com/slacgismo/gridlabd-weather/raw/master/US/" +:+ name.

(** A text with a carriage return before its line feed, and what text mode
    reads back from it. *)
Definition crlf_text : string :=
  "AK-Adak_Nas.tmy3" +:+ String CR (String LF EmptyString).
Definition lf_text : string :=
  "AK-Adak_Nas.tmy3" +:+ String LF EmptyString.

(** A saved configuration other than the default one, the file that holds
    it and a [json.load] that reads it back. *)
Definition saved_config : config_t :=
  [ ("server", "https://github.com/");
    ("organization", "arras-energy");
    ("repository", "gridlabd-weather");
    ("branch", "develop");
    ("country", "US");
    ("index_name", ".index") ].

Definition configured : world :=
  mk_world {[ config_path sample_home := json_dump saved_config ]} sample_dirs [].

Definition load_saved : string -> result config_t := fun _ => Ok saved_config.

(** The header row of a station file, a station line and a data record. *)
Definition tmy3_labels : list string := map fst (converters None).

Definition sample_info : list string :=
  split_on "," "704540,ADAK NAS,AK,-10.0,51.883,-176.650,5".

Definition sample_row : list string :=
  split_on ","
    "01/01/1996,01:00,0,0,0,1,0,0,1,0,0,1,0,0,1,0,0,1,0,0,1,0,0,1,0,10,A,7,10,A,7,0.2,A,7,-0.3,A,7,96,A,7,992,A,7,70,A,7,6.7,A,7,4000,A,7,305,A,7,0.7,E,8,0.062,F,8,0.000,F,8,0,1,D,9,0,C,8".

(** The record of the [i]-th hour: the sample record with its date, written
    with the year [ys i], and its time replaced. *)
Definition hour_row (ys : nat -> Z) (i : nat) : list string :=
  hour_date_cell (ys i) i :: hour_time_cell i :: drop 2 sample_row.

(** A station file of [n] hourly records. *)
Definition station_file (ys : nat -> Z) (n : nat) : list (list string) :=
  sample_info :: tmy3_labels :: map (hour_row ys) (seq 0 n).

(** A typical year whose January comes from 1996 and whose other months
    come from 1988. *)
Definition mixed_years (i : nat) : Z := if (i <? 744)%nat then 1996 else 1988.

(** ** Membership of a character *)

Fixpoint has_char (c : ascii) (s : string) : bool :=
  match s with
  | EmptyString => false
  | String a r => Ascii.eqb a c || has_char c r
  end.

(** The date cell [M/D/YYYY] whose month and day are written with one
    digit. *)
Definition short_date_cell (m d y : Z) : string :=
  String (digit_char m) ("/" +:+ String (digit_char d) ("/" +:+ four_digits y)).

(** The exceptions a converter of the table can raise on a field:
    [ValueError] from [int], [float], [strptime] and the field checks of
    [datetime], [OverflowError] from the [datetime] constructors when an
    hour or a coerced year does not fit a C [int]. *)
Definition conversion_error (e : exn) : Prop :=
  (exists msg, e = ValueError msg) \/ (exists msg, e = OverflowError msg).

(** Every field of the record is accepted by the converter of its column,
    and there are as many fields as labels. *)
Definition fields_ok (convs : list (string * converter)) (labels r : list string)
  : bool :=
  Nat.eqb (length r) (length labels)
  && forallb (fun ls => cell_ok convs ls.1 ls.2) (zip labels r).

(** ** Module level: the cache directory *)

(** [os.path.split(p)[1]]: what follows the last separator. *)
Fixpoint basename (p : string) : string :=
  match p with
  | EmptyString => EmptyString
  | String a r =>
      match up_to_last_sep r with
      | Some _ => basename r
      | None => if Ascii.eqb a "/" then r else p
      end
  end.

(** [os.mkdir(p)] *)
Definition mkdir (p : string) : io unit := fun w =>
  if path_exists p w then (Raise (OSError 17 "File exists" p), w)
  else if String.eqb p EmptyString then
    (Raise (OSError 2 "No such file or directory" p), w)
  else if is_file (dirname p) w then (Raise (OSError 20 "Not a directory" p), w)
  else if String.eqb (dirname p) EmptyString || is_dir (dirname p) w then
    (Ok tt, mk_world (files w) ({[ p ]} ∪ dirs w) (requests w))
  else (Raise (OSError 2 "No such file or directory" p), w).

Definition is_file_exists (e : exn) : bool :=
  match e with
  | OSError errno _ _ => errno =? 17
  | _ => false
  end.

(** [os.makedirs(name, exist_ok=exist_ok)].  The function calls itself on
    the head of the path, which is shorter than the path: [fuel] bounds
    these calls, and the length of the path is enough of it. *)
Fixpoint makedirs_from (fuel : nat) (name : string) (exist_ok : bool) : io unit :=
  fun w =>
    let '(head, tail) :=
      if String.eqb (basename name) EmptyString
      then (dirname (dirname name), basename (dirname name))
      else (dirname name, basename name) in
    let missing_head :=
      negb (String.eqb head EmptyString) && negb (String.eqb tail EmptyString)
      && negb (path_exists head w) in
    let make (w1 : world) : result unit * world :=
      match mkdir name w1 with
      | (Ok _, w2) => (Ok tt, w2)
      | (Raise e, w2) =>
          if negb exist_ok || negb (is_dir name w2) then (Raise e, w2)
          else (Ok tt, w2)
      end in
    if missing_head then
      let '(r, w1) :=
        match fuel with
        | O => (Ok tt, w)
        | S fuel' => makedirs_from fuel' head exist_ok w
        end in
      match r with
      | Raise e =>
          if is_file_exists e then
            if String.eqb tail "." then (Ok tt, w1) else make w1
          else (Raise e, w1)
      | Ok _ => if String.eqb tail "." then (Ok tt, w1) else make w1
      end
    else make w.

Definition makedirs (name : string) (exist_ok : bool) : io unit :=
  makedirs_from (String.length name) name exist_ok.

Section ModuleInit.
Variable HOME : option string.
Variable json_load : string -> result config_t.

(** Lines 41-55: the bootstrap of the configuration, then the creation of
    the cache directory when it does not exist. *)
Definition module_init : io config_t :=
  config ← bootstrap HOME json_load;
  ((fun w =>
      if negb (path_exists (cache_dir HOME) w) then
        (_ ← makedirs (cache_dir HOME) true; mret config) w
      else (Ok config, w)) : io config_t).
End ModuleInit.

(** * Properties *)

(** ** Finite case analysis on small integers *)

Lemma Z_of_small_nat (z lo : Z) (n : nat) :
  lo <= z < lo + Z.of_nat n -> exists k : nat, (k < n)%nat /\ z = lo + Z.of_nat k.
Proof. intros H. exists (Z.to_nat (z - lo)). lia. Qed.

Ltac small_cases z lo n :=
  let k := fresh "k" in
  let Hk := fresh "Hk" in
  let H := fresh "H" in
  assert (H : exists k : nat, (k < n)%nat /\ z = lo + Z.of_nat k)
    by (apply Z_of_small_nat; simpl; lia);
  destruct H as (k & Hk & ->);
  repeat (destruct k as [|k]; [ | apply (proj2 (Nat.succ_lt_mono _ _)) in Hk ]);
  try (exfalso; clear -Hk; lia); clear Hk.

(** ** The time converter *)

Lemma get_time_two_digits (hh : Z) (mm : string) :
  1 <= hh <= 24 -> get_time (time_cell hh mm) = Ok (mk_time (hh - 1) 0).
Proof.
  intros H. small_cases hh 1 24%nat; vm_compute; reflexivity.
Qed.

(** C9. A time cell [HH:MM] with hour-ending label [HH] in 1..24 decodes to
    the hour-starting label [HH - 1] in 0..23 with minutes 0, whatever
    follows the colon; the converter installed for the column
    [Time (HH:MM)] is this one for every [coerce_year]. *)
Theorem time_hour_shifted_by_one (coerce_year : option Z) (hh : Z) (mm : string) :
  1 <= hh <= 24 ->
  get_time (time_cell hh mm) = Ok (mk_time (hh - 1) 0)
  /\ 0 <= hh - 1 <= 23
  /\ exists f, assoc "Time (HH:MM)" (converters coerce_year) = Some f
       /\ f (time_cell hh mm) = Ok (CTime (mk_time (hh - 1) 0)).
Proof.
  intros H. split; [by apply get_time_two_digits|]. split; [lia|].
  exists conv_time. split; [reflexivity|].
  unfold conv_time. by rewrite get_time_two_digits.
Qed.

Lemma time_hour_shifted_by_one_witness :
  get_time "24:00" = Ok (mk_time 23 0)
  /\ 0 <= 24 - 1 <= 23
  /\ exists f, assoc "Time (HH:MM)" (converters (Some 2020)) = Some f
       /\ f "24:00" = Ok (CTime (mk_time 23 0)).
Proof.
  apply (time_hour_shifted_by_one (Some 2020) 24 "00"). lia.
Defined.

(** ** The date converter *)

Lemma as_c_int_ok (n : Z) :
  - 2 ^ 31 <= n <= 2 ^ 31 - 1 -> as_c_int n = Ok n.
Proof.
  intros H. unfold as_c_int.
  destruct (Z.ltb_spec n (- 2 ^ 63)); [lia|].
  destruct (Z.ltb_spec (2 ^ 63 - 1) n); [lia|]. cbn [orb].
  destruct (Z.ltb_spec (2 ^ 31 - 1) n); [lia|].
  destruct (Z.ltb_spec n (- 2 ^ 31)); [lia|]. reflexivity.
Qed.

Lemma as_c_int_inv (n n' : Z) :
  as_c_int n = Ok n' -> n' = n /\ - 2 ^ 31 <= n <= 2 ^ 31 - 1.
Proof.
  unfold as_c_int.
  destruct (Z.ltb_spec n (- 2 ^ 63)); [done|].
  destruct (Z.ltb_spec (2 ^ 63 - 1) n); [done|]. cbn [orb].
  destruct (Z.ltb_spec (2 ^ 31 - 1) n); [done|].
  destruct (Z.ltb_spec n (- 2 ^ 31)); [done|]. intros [= <-]. lia.
Qed.

Lemma check_hour_ok (h : Z) : 0 <= h <= 23 -> check_hour h = Ok h.
Proof.
  intros H. unfold check_hour.
  by replace ((0 <=? h) && (h <=? 23)) with true
    by (symmetry; apply andb_true_intro; lia).
Qed.

Lemma check_hour_inv (h h' : Z) :
  check_hour h = Ok h' -> h' = h /\ 0 <= h <= 23.
Proof.
  unfold check_hour. destruct (_ && _) eqn:E; [|done].
  intros [= <-]. apply andb_prop in E. lia.
Qed.

Lemma in_range_digit_char (q : Z) :
  0 <= q <= 9 -> in_range 0 9 (digit_char q) = Some q.
Proof. intros H. small_cases q 0 10%nat; reflexivity. Qed.

Lemma orelse_None_r {A} (x : option A) : orelse x None = x.
Proof. by destruct x. Qed.

Lemma re_m_two_digits {A} (K : Z -> string -> option A) (m : Z) (rest : string) :
  1 <= m <= 12 ->
  re_m (fun v => re_lit "/" (K v)) (two_digits m +:+ String "/" rest) = K m rest.
Proof.
  intros H. small_cases m 1 12%nat; vm_compute; by destruct (K _ _).
Qed.

Lemma re_d_two_digits {A} (K : Z -> string -> option A) (d : Z) (rest : string) :
  1 <= d <= 31 ->
  re_d (fun v => re_lit "/" (K v)) (two_digits d +:+ String "/" rest) = K d rest.
Proof.
  intros H. small_cases d 1 31%nat; vm_compute; by destruct (K _ _).
Qed.

Lemma re_Y_four_digits {A} (K : Z -> string -> option A) (y : Z) :
  0 <= y <= 9999 -> re_Y K (four_digits y) = K y EmptyString.
Proof.
  intros H. unfold re_Y, four_digits, two_digits, re_digit.
  rewrite !in_range_digit_char by (Z.to_euclidean_division_equations; lia).
  f_equal. Z.to_euclidean_division_equations; lia.
Qed.

Lemma match_mdY_date_cell (m d y : Z) :
  1 <= m <= 12 -> 1 <= d <= 31 -> 0 <= y <= 9999 ->
  match_mdY (date_cell m d y) = Some (m, d, y, EmptyString).
Proof.
  intros Hm Hd Hy. unfold match_mdY, date_cell.
  change (two_digits m +:+ "/" +:+ two_digits d +:+ "/" +:+ four_digits y)
    with (two_digits m +:+ String "/" (two_digits d +:+ String "/" (four_digits y))).
  rewrite (re_m_two_digits
    (fun m => re_d (fun d => re_lit "/" (re_Y (fun y rest => Some (m, d, y, rest))))))
    by done.
  rewrite (re_d_two_digits (fun d => re_Y (fun y rest => Some (m, d, y, rest))))
    by done.
  by rewrite re_Y_four_digits.
Qed.

Lemma days_in_month_le_31 (y m : Z) : days_in_month y m <= 31.
Proof.
  unfold days_in_month. destruct (_ && _); [lia|].
  destruct (Z.to_nat m) as [|k]; simpl; [lia|].
  do 12 (destruct k as [|k]; simpl; [lia|]). destruct k; simpl; lia.
Qed.

Lemma check_date_valid (y m d : Z) :
  1 <= y <= 9999 -> 1 <= m <= 12 -> 1 <= d <= days_in_month y m ->
  check_date y m d = Ok (mk_date y m d).
Proof.
  intros Hy Hm Hd. unfold check_date, MINYEAR, MAXYEAR.
  replace ((1 <=? y) && (y <=? 9999)) with true by (symmetry; apply andb_true_intro; lia).
  replace ((1 <=? m) && (m <=? 12)) with true by (symmetry; apply andb_true_intro; lia).
  replace ((1 <=? d) && (d <=? days_in_month y m)) with true
    by (symmetry; apply andb_true_intro; lia).
  reflexivity.
Qed.

Lemma strptime_date_cell (m d y : Z) :
  1 <= y <= 9999 -> 1 <= m <= 12 -> 1 <= d <= days_in_month y m ->
  strptime_mdY (date_cell m d y) = Ok (mk_datetime (mk_date y m d) (mk_time 0 0)).
Proof.
  intros Hy Hm Hd. unfold strptime_mdY.
  pose proof (days_in_month_le_31 y m).
  rewrite match_mdY_date_cell by lia. simpl.
  unfold new_datetime. rewrite !as_c_int_ok by lia.
  cbn [mbind result_bind]. by rewrite check_date_valid.
Qed.

Lemma get_date_uncoerced (coerce_year : option Z) (m d y : Z) :
  truthy coerce_year = false ->
  1 <= y <= 9999 -> 1 <= m <= 12 -> 1 <= d <= days_in_month y m ->
  get_date coerce_year (date_cell m d y) = Ok (mk_date y m d).
Proof.
  intros Hc Hy Hm Hd. unfold get_date. rewrite Hc.
  by rewrite strptime_date_cell.
Qed.

Lemma get_date_replaced (Y m d y : Z) :
  1 <= y <= 9999 -> 1 <= m <= 12 -> 1 <= d <= days_in_month y m ->
  1 <= Y <= 9999 -> d <= days_in_month Y m ->
  get_date (Some Y) (date_cell m d y) = Ok (mk_date Y m d).
Proof.
  intros Hy Hm Hd HY HdY. unfold get_date, truthy.
  replace (Y =? 0) with false by lia. simpl.
  rewrite strptime_date_cell by done. simpl.
  unfold replace_year. rewrite as_c_int_ok by lia. simpl.
  by rewrite check_date_valid by lia.
Qed.

Lemma december_31_no_rollover (Y y : Z) :
  1 <= y <= 9999 -> 1 <= Y <= 9999 ->
  get_date (Some Y) (date_cell 12 31 y) = Ok (mk_date Y 12 31).
Proof.
  intros Hy HY. apply get_date_replaced; try lia; unfold days_in_month; simpl; lia.
Qed.

(** C4 (amended). For a date cell [MM/DD/YYYY] that denotes a calendar date
    and a coerced year [Y] in 1..9999 in which that month and day exist
    (every day of the year but February 29 when [Y] is not a leap year),
    the decoded date is year [Y] with the month and day of the cell, December
    31 included.  With no coerced year, or with the coerced year [0], which
    the test [if coerce_year:] takes for none, the year of the cell is
    kept. *)
Theorem year_coercion_keeps_month_and_day (m d y Y : Z) :
  1 <= y <= 9999 -> 1 <= m <= 12 -> 1 <= d <= days_in_month y m ->
  1 <= Y <= 9999 -> d <= days_in_month Y m ->
  get_date (Some Y) (date_cell m d y) = Ok (mk_date Y m d)
  /\ get_date None (date_cell m d y) = Ok (mk_date y m d)
  /\ get_date (Some 0) (date_cell m d y) = Ok (mk_date y m d).
Proof.
  intros Hy Hm Hd HY HdY. split; [by apply get_date_replaced|].
  split; by apply get_date_uncoerced.
Qed.

Lemma year_coercion_keeps_month_and_day_witness :
  get_date (Some 2020) (date_cell 12 31 1996) = Ok (mk_date 2020 12 31)
  /\ get_date None (date_cell 12 31 1996) = Ok (mk_date 1996 12 31)
  /\ get_date (Some 0) (date_cell 12 31 1996) = Ok (mk_date 1996 12 31).
Proof.
  apply (year_coercion_keeps_month_and_day 12 31 1996 2020);
    first [lia | vm_compute; first [split; congruence | congruence]].
Defined.

(** C4 as stated fails: the cell [02/29/2000] is a date of the file's year,
    yet with the coerced year 2001 no date is decoded ([replace] raises);
    and with the coerced year 0 the decoded year is the cell's, not 0. *)
Lemma year_coercion_counterexample :
  get_date None "02/29/2000" = Ok (mk_date 2000 2 29)
  /\ get_date (Some 2001) "02/29/2000"
     = Raise (ValueError "day is out of range for month")
  /\ get_date (Some 0) "12/31/1996" = Ok (mk_date 1996 12 31).
Proof. repeat split; vm_compute; reflexivity. Qed.

(** ** Paths *)

Lemma up_to_last_sep_app (p name : string) :
  up_to_last_sep name = None ->
  up_to_last_sep (p +:+ String "/" name) = Some (p +:+ String "/" EmptyString).
Proof.
  intros Hn. induction p as [|a p IH]; simpl.
  - unfold String.app. simpl. by rewrite Hn.
  - unfold String.app in *. simpl. by rewrite IH.
Qed.

Lemma rstrip_sep_app (p q : string) :
  rstrip_sep q <> EmptyString -> rstrip_sep (p +:+ q) = p +:+ rstrip_sep q.
Proof.
  intros Hq. induction p as [|a p IH]; unfold String.app in *; simpl; [done|].
  rewrite IH. destruct (rstrip_sep q) eqn:E; [done|]. by destruct p.
Qed.

Lemma rstrip_sep_slash (p : string) :
  rstrip_sep (p +:+ String "/" EmptyString) = rstrip_sep p.
Proof.
  induction p as [|a p IH]; unfold String.app in *; simpl; [done|]. by rewrite IH.
Qed.

Section ModuleProperties.
Variable HOME : option string.
Variable json_load : string -> result config_t.
Variable remote : nat -> string -> option response.

Lemma dirname_config_path : dirname (config_path HOME) = config_dir HOME.
Proof.
  unfold dirname, config_path.
  change (config_dir HOME +:+ "/config.json")
    with (config_dir HOME +:+ String "/" "config.json").
  rewrite up_to_last_sep_app by reflexivity.
  rewrite rstrip_sep_slash. unfold config_dir.
  rewrite rstrip_sep_app by (vm_compute; congruence).
  change (rstrip_sep "/.gridlabd-weather") with "/.gridlabd-weather".
  by destruct (default "None" HOME).
Qed.

(** ** Configuration bootstrap *)

Lemma lookup_filename_at_import (pathname : string) :
  lookup_name [("pathname", PStr pathname)] (globals_at_import HOME) "filename"
  = Raise (NameError "filename").
Proof. reflexivity. Qed.

Lemma lookup_filename_loaded (pathname : string) :
  lookup_name [("pathname", PStr pathname)] (module_globals HOME) "filename"
  = Raise (NameError "filename").
Proof. reflexivity. Qed.

Lemma save_config_writes (config : config_t) (w : world) :
  is_dir (config_dir HOME) w = true ->
  is_dir (config_path HOME) w = false ->
  is_file (config_dir HOME) w = false ->
  save_config config (config_path HOME) w
  = (Ok tt, mk_world (<[config_path HOME := json_dump config]> (files w))
              (dirs w) (requests w)).
Proof.
  intros Hd Hp Hf. unfold save_config, write_text.
  rewrite Hp, dirname_config_path, Hf, Hd. by rewrite orb_true_r.
Qed.

(** C10. Every call of [load_config] raises [NameError] for [filename]
    before any file is read, at import time and afterwards alike; the
    bootstrap therefore always runs its handler: the configuration is the
    default one and [save_config] is run on it, so that a saved
    configuration file, valid or not, is overwritten with the default
    one. *)
Theorem load_config_always_unbound (pathname saved : string) (w : world) :
  load_config json_load (globals_at_import HOME) pathname w
    = (Raise (NameError "filename"), w)
  /\ load_config json_load (module_globals HOME) pathname w
    = (Raise (NameError "filename"), w)
  /\ bootstrap HOME json_load w
    = (_ ← save_config default_config (config_path HOME); mret default_config) w
  /\ (files w !! config_path HOME = Some saved ->
      is_dir (config_dir HOME) w = true ->
      is_dir (config_path HOME) w = false ->
      is_file (config_dir HOME) w = false ->
      bootstrap HOME json_load w
      = (Ok default_config,
         mk_world (<[config_path HOME := json_dump default_config]> (files w))
           (dirs w) (requests w))).
Proof.
  split; [reflexivity|]. split; [reflexivity|]. split; [reflexivity|].
  intros _ Hd Hp Hf. unfold bootstrap.
  change (load_config json_load (globals_at_import HOME) (config_path HOME) w)
    with (@Raise config_t (NameError "filename"), w).
  cbv beta iota. unfold mbind, io_mbind, io_bind.
  by rewrite save_config_writes.
Qed.

(** ** Content cache *)

Lemma get_data_cache_hit (config : config_t) (filename s : string)
    (only : bool) (w : world) :
  files w !! cache_file_of HOME filename = Some s ->
  get_data HOME remote config filename only w
  = (Ok (if only then cache_file_of HOME filename else universal_newlines s), w).
Proof.
  intros Hs. unfold get_data, path_exists, is_file.
  rewrite bool_decide_eq_true_2 by (rewrite Hs; eauto). simpl.
  destruct only; [done|]. unfold read_text. by rewrite Hs.
Qed.

(** C6. An uncached logical name whose fetch answers with a status other
    than 200 makes [get_data] raise [OSError(2, "file not found",
    cache_file)], the not-found error carrying the cache path; the request
    is logged, and the files and directories are what they were. *)
Theorem get_data_not_found (config : config_t) (filename url : string)
    (only : bool) (r : response) (w : world) :
  path_exists (cache_file_of HOME filename) w = false ->
  data_url config filename = Ok url ->
  remote (length (requests w)) url = Some r ->
  status_code r <> 200 ->
  get_data HOME remote config filename only w
  = (Raise (OSError 2 "file not found" (cache_file_of HOME filename)),
     mk_world (files w) (dirs w) (requests w ++ [url])).
Proof.
  intros He Hu Hr Hs. unfold get_data. rewrite He, Hu.
  unfold mbind, io_mbind, io_bind, io_lift, requests_get. rewrite Hr.
  by rewrite (proj2 (Z.eqb_neq _ _) Hs).
Qed.

Lemma universal_newlines_no_CR (s : string) :
  has_CR s = false -> universal_newlines s = s.
Proof.
  induction s as [|a s IH]; simpl; [done|].
  destruct (Ascii.eqb a CR); [done|]. intros H. by rewrite IH.
Qed.

Lemma universal_newlines_has_CR (s : string) :
  has_CR (universal_newlines s) = false.
Proof.
  assert (H : forall n s, (String.length s < n)%nat ->
                has_CR (universal_newlines s) = false).
  { clear s. induction n as [|n IH]; intros s Hn; [lia|].
    destruct s as [|a s]; simpl; [done|].
    destruct (Ascii.eqb a CR) eqn:Ea.
    - destruct s as [|b s]; simpl; [done|].
      destruct (Ascii.eqb b LF) eqn:Eb; simpl.
      + apply IH. simpl in Hn. lia.
      + apply (IH (String b s)). simpl in *. lia.
    - simpl. rewrite Ea. apply IH. simpl in Hn. lia. }
  apply (H (S (String.length s))). lia.
Qed.

Lemma universal_newlines_idemp (s : string) :
  universal_newlines (universal_newlines s) = universal_newlines s.
Proof. apply universal_newlines_no_CR, universal_newlines_has_CR. Qed.

Lemma get_data_then_hit (config : config_t) (filename r1 : string)
    (only : bool) (w w1 : world) :
  get_data HOME remote config filename only w = (Ok r1, w1) ->
  (path_exists (cache_file_of HOME filename) w = true -> w1 = w)
  /\ (length (requests w1) <= length (requests w) + 1)%nat
  /\ get_data HOME remote config filename only w1
     = (Ok (if only then r1 else universal_newlines r1), w1).
Proof.
  unfold get_data at 1.
  destruct (path_exists (cache_file_of HOME filename) w) eqn:He.
  - assert (Hw :
      (if only then (Ok (cache_file_of HOME filename), w)
       else read_text (cache_file_of HOME filename) w) = (Ok r1, w1) ->
      w1 = w /\
      get_data HOME remote config filename only w
      = (Ok (if only then r1 else universal_newlines r1), w)).
    { destruct only.
      - intros [= <- <-]. split; [done|]. unfold get_data. by rewrite He.
      - unfold read_text.
        destruct (files w !! cache_file_of HOME filename) as [s|] eqn:Hs.
        + intros [= <- <-]. split; [done|].
          rewrite (get_data_cache_hit _ _ s) by done.
          by rewrite universal_newlines_idemp.
        + by destruct (is_dir _ _). }
    intros H. destruct (Hw H) as [-> Hg]. split; [done|]. split; [lia|]. done.
  - unfold mbind, io_mbind, io_bind, io_lift, requests_get.
    destruct (data_url config filename) as [url|]; [|done].
    destruct (remote _ url) as [r|]; [|done].
    destruct (status_code r =? 200); [|done].
    destruct (write_text _ _ _) as [[[]|e] w2] eqn:Hw; [|by destruct only].
    unfold write_text in Hw. simpl in Hw.
    destruct (is_dir (cache_file_of HOME filename) _); [done|].
    destruct (is_file _ _); [done|].
    destruct (_ || _); [|done]. injection Hw as <-.
    intros H. assert (w1 = mk_world
        (<[cache_file_of HOME filename := text r]> (files w)) (dirs w)
        (requests w ++ [url]) /\ r1 = if only then cache_file_of HOME filename else text r)
      as [-> ->] by (destruct only; by injection H as <- <-).
    split; [done|]. split; [simpl; rewrite length_app; simpl; lia|].
    rewrite (get_data_cache_hit _ _ (text r)) by (simpl; apply lookup_insert_eq).
    by destruct only.
Qed.

(** C5 (amended). If the cache file of a logical name exists, the call
    returns without network access: the path itself, or the text of the
    file as text mode reads it.  If a call returns, calling again makes
    no further request, so the two calls make at most one; the second
    returns the same path, or the first call's text read back in text
    mode, which is that text whenever it holds no carriage return. *)
Theorem get_data_idempotent (config : config_t) (filename : string)
    (only : bool) (w : world) :
  (forall s, files w !! cache_file_of HOME filename = Some s ->
     get_data HOME remote config filename only w
     = (Ok (if only then cache_file_of HOME filename else universal_newlines s), w))
  /\ (forall r1 w1,
       get_data HOME remote config filename only w = (Ok r1, w1) ->
       (length (requests w1) <= length (requests w) + 1)%nat
       /\ get_data HOME remote config filename only w1
          = (Ok (if only then r1 else universal_newlines r1), w1)
       /\ (only = true \/ has_CR r1 = false ->
           get_data HOME remote config filename only w1 = (Ok r1, w1))).
Proof.
  split; [intros s Hs; by apply get_data_cache_hit|].
  intros r1 w1 H. destruct (get_data_then_hit _ _ _ _ _ _ H) as (_ & Hl & H2).
  split; [done|]. split; [done|]. rewrite H2.
  intros [-> | Hc]; [done|]. destruct only; [done|].
  by rewrite universal_newlines_no_CR.
Qed.
End ModuleProperties.

Lemma load_config_always_unbound_witness :
  files configured !! config_path sample_home = Some (json_dump saved_config)
  /\ load_saved (json_dump saved_config) = Ok saved_config
  /\ bootstrap sample_home load_saved configured
     = (Ok default_config,
        mk_world (<[config_path sample_home := json_dump default_config]>
                    (files configured))
          (dirs configured) (requests configured)).
Proof.
  split; [vm_compute; reflexivity|]. split; [reflexivity|].
  apply (load_config_always_unbound sample_home load_saved
           (config_path sample_home) (json_dump saved_config) configured);
    vm_compute; reflexivity.
Defined.

Lemma get_data_not_found_witness :
  get_data sample_home (remote_always not_found) default_config
    "AK-Adak_Nas.tmy3" true empty_cache
  = (Raise (OSError 2 "file not found"
              (cache_file_of sample_home "AK-Adak_Nas.tmy3")),
     mk_world (files empty_cache) (dirs empty_cache)
       (requests empty_cache ++ [sample_url "AK-Adak_Nas.tmy3"])).
Proof.
  apply (get_data_not_found sample_home (remote_always not_found) default_config
           "AK-Adak_Nas.tmy3" (sample_url "AK-Adak_Nas.tmy3") true not_found
           empty_cache);
    vm_compute; congruence.
Defined.

Lemma get_data_idempotent_witness :
  get_data sample_home (remote_always not_found) default_config
    ".index" false (cached ".index" lf_text)
  = (Ok lf_text, cached ".index" lf_text)
  /\ (let w1 := mk_world {[ cache_file_of sample_home ".index" := lf_text ]}
                 sample_dirs [sample_url ".index"] in
      (length (requests w1) <= length (requests empty_cache) + 1)%nat
      /\ get_data sample_home (remote_always (mk_response 200 lf_text))
           default_config ".index" false w1
         = (Ok lf_text, w1)).
Proof.
  split.
  - apply (proj1 (get_data_idempotent sample_home (remote_always not_found)
                    default_config ".index" false (cached ".index" lf_text))
             lf_text).
    vm_compute; reflexivity.
  - intros w1.
    destruct (proj2 (get_data_idempotent sample_home
                       (remote_always (mk_response 200 lf_text))
                       default_config ".index" false empty_cache)
                lf_text w1) as (Hl & _ & H2); [vm_compute; reflexivity|].
    split; [exact Hl|]. apply H2. right. vm_compute; reflexivity.
Defined.

(** C5 as stated fails on both counts.  With a server that answers 404, two
    calls for the same uncached name make two requests.  With a server that
    answers 200 with a text that holds a carriage return, the first call
    returns that text and the second, a cache hit, returns another. *)
Lemma get_data_idempotent_counterexample :
  (let '(r1, w1) := get_data sample_home (remote_always not_found)
                      default_config ".index" false empty_cache in
   let '(r2, w2) := get_data sample_home (remote_always not_found)
                      default_config ".index" false w1 in
   requests w2 = [sample_url ".index"; sample_url ".index"])
  /\ (let '(r1, w1) := get_data sample_home
                         (remote_always (mk_response 200 crlf_text))
                         default_config ".index" false empty_cache in
      let '(r2, w2) := get_data sample_home
                         (remote_always (mk_response 200 crlf_text))
                         default_config ".index" false w1 in
      r1 = Ok crlf_text /\ r2 = Ok lf_text /\ r1 <> r2
      /\ requests w2 = [sample_url ".index"]).
Proof.
  split; [vm_compute; reflexivity|].
  vm_compute. repeat split; congruence.
Qed.

(** ** Results and association lists *)

Lemma mapR_ok {A B} (f : A -> result B) (g : A -> B) (l : list A) :
  (forall x, x ∈ l -> f x = Ok (g x)) -> mapR f l = Ok (map g l).
Proof.
  induction l as [|x l IH]; intros H; simpl; [done|].
  rewrite (H x) by left. simpl. rewrite IH; [done|].
  intros y Hy. apply H. by right.
Qed.

Lemma assoc_imap_None {V} (G : nat -> string -> V) (labels : list string)
    (label : string) :
  label ∉ labels -> assoc label (imap (fun j l => (l, G j l)) labels) = None.
Proof.
  revert G. induction labels as [|l labels IH]; intros G Hn; simpl; [done|].
  destruct (String.eqb label l) eqn:E.
  - apply String.eqb_eq in E as ->. exfalso. apply Hn. left.
  - apply IH. intros ?. apply Hn. by right.
Qed.

Lemma assoc_imap_Some {V} (G : nat -> string -> V) (labels : list string)
    (label : string) (j : nat) :
  NoDup labels -> labels !! j = Some label ->
  assoc label (imap (fun j l => (l, G j l)) labels) = Some (G j label).
Proof.
  revert G j. induction labels as [|l labels IH]; intros G j Hnd Hj; [done|].
  apply NoDup_cons in Hnd as [Hl Hnd]. simpl. destruct j as [|j]; simpl in Hj.
  - injection Hj as ->. by rewrite String.eqb_refl.
  - destruct (String.eqb label l) eqn:E.
    + apply String.eqb_eq in E as ->. exfalso. apply Hl.
      by eapply list_elem_of_lookup_2.
    + by apply (IH (fun j => G (S j))).
Qed.

(** ** [read_table] on a rectangular table *)

Lemma check_widths_ok (w : nat) (rows : list (list string)) :
  Forall (fun r => (length r <= w)%nat) rows -> check_widths w rows = Ok tt.
Proof.
  induction 1 as [|r rows Hr _ IH]; simpl; [done|].
  by rewrite (proj2 (Nat.ltb_ge _ _) Hr).
Qed.

Lemma mapR_columns (F : nat * string -> result (string * Series))
    (G : nat -> string -> Series) (labels : list string) (k : nat) :
  (forall j label, labels !! j = Some label -> F ((k + j)%nat, label) = Ok (label, G (k + j)%nat label)) ->
  mapR F (zip (seq k (length labels)) labels)
  = Ok (imap (fun j l => (l, G (k + j)%nat l)) labels).
Proof.
  revert k G. induction labels as [|l labels IH]; intros k G H; simpl; [done|].
  specialize (H 0%nat l eq_refl) as H0. rewrite Nat.add_0_r in H0.
  rewrite H0. simpl. rewrite (IH (S k) G).
  - simpl. rewrite Nat.add_0_r. do 2 f_equal. apply imap_ext. intros j x _. simpl.
    by rewrite Nat.add_succ_r.
  - intros j label Hj. specialize (H (S j) label Hj).
    by rewrite Nat.add_succ_r in H.
Qed.

Lemma read_table_rectangular (first labels : list string)
    (rows : list (list string)) (n : nat) (convs : list (string * converter)) :
  Forall (fun r => length r = length labels) (take n rows) ->
  (forall j label r, labels !! j = Some label -> r ∈ take n rows ->
     cell_ok convs label (field r j) = true) ->
  read_table (first :: labels :: rows) 1 n (header_row 0) convs
  = Ok (mk_df None [] (length (take n rows)) (table_columns convs labels (take n rows))).
Proof.
  intros Hrect Hok. unfold read_table. simpl drop. cbv beta iota. simpl mbind.
  unfold mbind, result_bind.
  set (data := take n rows) in *. clearbody data.
  assert (Hw : match data with
               | [] => length labels
               | r :: _ => Nat.max (length r) (length labels)
               end = length labels).
  { destruct Hrect as [|r ? Hr _]; [done|]. rewrite Hr. apply Nat.max_id. }
  rewrite Hw. rewrite check_widths_ok.
  2:{ apply Forall_tail. eapply Forall_impl; [exact Hrect|].
      intros r Hr. simpl in Hr. rewrite Hr. apply Nat.le_refl. }
  rewrite Nat.sub_diag. simpl seq. simpl map at 2.
  rewrite (mapR_columns _ (fun j l => map (fun r => convert convs l (field r j)) data) labels 0).
  - done.
  - intros j label Hj. simpl. unfold convert.
    destruct (assoc label convs) as [f|] eqn:Ef; [|by rewrite map_map].
    rewrite (mapR_ok f (fun s => match f s with Ok c => c | Raise _ => CNA end)).
    + simpl. by rewrite map_map.
    + intros s Hs. apply list_elem_of_fmap in Hs as (r & -> & Hr).
      specialize (Hok j label r Hj Hr). unfold cell_ok in Hok. rewrite Ef in Hok.
      by destruct (f (field r j)).
Qed.

Lemma table_columns_lookup (convs : list (string * converter))
    (labels : list string) (data : list (list string)) (label : string) (j : nat) :
  NoDup labels -> labels !! j = Some label ->
  assoc label (table_columns convs labels data)
  = Some (map (fun r => convert convs label (field r j)) data).
Proof. intros Hnd Hj. unfold table_columns. by rewrite (assoc_imap_Some _ _ _ j). Qed.

Lemma table_columns_fresh (convs : list (string * converter))
    (labels : list string) (data : list (list string)) (label : string) :
  label ∉ labels -> assoc label (table_columns convs labels data) = None.
Proof. intros H. unfold table_columns. by rewrite assoc_imap_None. Qed.

(** ** The station header *)

Lemma TMY3_info_at (first : list string) (rest : list (list string)) :
  TMY3_info (first :: rest)
  = Ok (info_attrs_at (Nat.max (length first) 7 - 7) first).
Proof. cbv -[setattr field infer Nat.max Nat.sub]. reflexivity. Qed.

Lemma TMY3_info_ok (first : list string) (rest : list (list string)) :
  TMY3_info (first :: rest) = Ok (info_attrs first).
Proof.
  rewrite TMY3_info_at. unfold info_attrs. do 2 f_equal. lia.
Qed.

Lemma info_attrs_lookup (first : list string) (i : nat) (name : string) :
  info_names !! i = Some name ->
  info_attrs first !! name = Some [infer (field first (length first - 7 + i))].
Proof.
  intros H. unfold info_attrs. generalize (length first - 7)%nat. intros lead.
  unfold info_attrs_at. simpl foldl. unfold setattr.
  do 7 (destruct i as [|i]; [injection H as <-; by simplify_map_eq|]).
  done.
Qed.

(** ** Decoded dates and times are well formed *)

Lemma check_date_inv (y m d : Z) (dd : date) :
  check_date y m d = Ok dd ->
  dd = mk_date y m d /\ 1 <= y <= 9999 /\ 1 <= m <= 12 /\ 1 <= d <= days_in_month y m.
Proof.
  unfold check_date, MINYEAR, MAXYEAR.
  destruct ((1 <=? y) && (y <=? 9999)) eqn:E1; simpl; [|done].
  destruct ((1 <=? m) && (m <=? 12)) eqn:E2; simpl; [|done].
  destruct ((1 <=? d) && (d <=? days_in_month y m)) eqn:E3; simpl; [|done].
  intros [= <-]. apply andb_prop in E1. apply andb_prop in E2. apply andb_prop in E3.
  split; [reflexivity|]. lia.
Qed.

Lemma new_datetime_ok (y m d h : Z) (dd : date) :
  check_date y m d = Ok dd -> 0 <= h <= 23 ->
  new_datetime y m d h = Ok (mk_datetime dd (mk_time h 0)).
Proof.
  intros Hd Hh. destruct (check_date_inv _ _ _ _ Hd) as (_ & Hy & Hm & Hdd).
  pose proof (days_in_month_le_31 y m).
  unfold new_datetime. rewrite !as_c_int_ok by lia. cbn [mbind result_bind].
  rewrite Hd. cbn [mbind result_bind]. by rewrite check_hour_ok.
Qed.

Lemma new_datetime_inv (y m d h : Z) (dt : datetime) :
  new_datetime y m d h = Ok dt ->
  dt = mk_datetime (mk_date y m d) (mk_time h 0) /\ 0 <= h <= 23
  /\ check_date y m d = Ok (mk_date y m d).
Proof.
  unfold new_datetime.
  destruct (as_c_int y) as [y'|] eqn:Ey; [|done].
  destruct (as_c_int m) as [m'|] eqn:Em; [|done].
  destruct (as_c_int d) as [d'|] eqn:Ed; [|done].
  destruct (as_c_int h) as [h'|] eqn:Eh; [|done].
  apply as_c_int_inv in Ey as [-> _]. apply as_c_int_inv in Em as [-> _].
  apply as_c_int_inv in Ed as [-> _]. apply as_c_int_inv in Eh as [-> _].
  cbn [mbind result_bind].
  destruct (check_date y m d) as [dd|] eqn:E; [|done]. cbn [mbind result_bind].
  destruct (check_hour h) as [h'|] eqn:E'; [|done].
  apply check_hour_inv in E' as [-> Hh]. cbn [mbind result_bind].
  intros [= <-]. by destruct (check_date_inv _ _ _ _ E) as (-> & _).
Qed.

Lemma replace_year_inv (dt dt' : datetime) (y : Z) :
  replace_year dt y = Ok dt' ->
  exists dd, check_date y (month (dt_date dt)) (day (dt_date dt)) = Ok dd
    /\ dt' = mk_datetime dd (dt_time dt).
Proof.
  unfold replace_year. destruct (as_c_int y) as [y'|] eqn:Ey; [|done].
  apply as_c_int_inv in Ey as [-> _]. cbn [mbind result_bind].
  destruct (check_date _ _ _) as [dd|] eqn:E; [|done]. cbn [mbind result_bind].
  intros [= <-]. by exists dd.
Qed.

Lemma check_date_again (y m d : Z) (dd : date) :
  check_date y m d = Ok dd -> check_date (year dd) (month dd) (day dd) = Ok dd.
Proof.
  intros H. destruct (check_date_inv _ _ _ _ H) as (-> & _). exact H.
Qed.

Lemma strptime_mdY_checked (s : string) (dt : datetime) :
  strptime_mdY s = Ok dt ->
  check_date (year (dt_date dt)) (month (dt_date dt)) (day (dt_date dt))
  = Ok (dt_date dt).
Proof.
  unfold strptime_mdY.
  destruct (match_mdY s) as [[[[m d] y] rest]|]; [|done].
  destruct (String.eqb rest EmptyString); [|done].
  by intros (-> & _ & E0)%new_datetime_inv.
Qed.

Lemma get_date_checked (coerce_year : option Z) (s : string) (dd : date) :
  get_date coerce_year s = Ok dd ->
  check_date (year dd) (month dd) (day dd) = Ok dd.
Proof.
  unfold get_date.
  destruct (strptime_mdY s) as [dt|] eqn:E; simpl;
    [|by destruct (truthy coerce_year)].
  destruct (truthy coerce_year); simpl.
  - destruct (replace_year _ _) as [dt'|] eqn:E'; simpl; [|done].
    apply replace_year_inv in E' as (d1 & E1 & ->).
    intros [= <-]. by apply check_date_again in E1.
  - intros [= <-]. by apply (strptime_mdY_checked s).
Qed.

Lemma get_time_checked (s : string) (t : time) :
  get_time s = Ok t -> 0 <= hour t <= 23 /\ t = mk_time (hour t) 0.
Proof.
  unfold get_time, new_time. destruct (py_int _) as [h|]; simpl; [|done].
  destruct (as_c_int _) as [h1|] eqn:E1; [|done].
  apply as_c_int_inv in E1 as [-> _]. cbn [mbind result_bind].
  destruct (check_hour _) as [h2|] eqn:E2; [|done].
  apply check_hour_inv in E2 as [-> Hh]. cbn [mbind result_bind].
  intros [= <-]. simpl. split; [lia|done].
Qed.

Lemma combine_ok (coerce_year : option Z) (sd st : string) (d : date) (t : time) :
  get_date coerce_year sd = Ok d -> get_time st = Ok t ->
  combine (convert (converters coerce_year) DATE sd,
           convert (converters coerce_year) TIME st)
  = Ok (CDateTime (mk_datetime d t)).
Proof.
  intros Hd Ht.
  change (convert (converters coerce_year) DATE sd)
    with (match conv_date coerce_year sd with Ok c => c | Raise _ => CNA end).
  change (convert (converters coerce_year) TIME st)
    with (match conv_time st with Ok c => c | Raise _ => CNA end).
  unfold conv_date, conv_time. rewrite Hd, Ht. simpl.
  destruct (get_time_checked _ _ Ht) as [Hh Het].
  rewrite (new_datetime_ok _ _ _ _ d (get_date_checked _ _ _ Hd) Hh).
  by rewrite <- Het.
Qed.

(** ** Loading a well-formed table *)

Lemma is_ok_fmap {A B} (f : A -> B) (r : result A) : is_ok (f <$> r) = is_ok r.
Proof. by destruct r. Qed.

Lemma foldR_cons {A S} (f : S -> A -> result S) (s : S) (x : A) (l : list A) :
  foldR f s (x :: l) = s' ← f s x; foldR f s' l.
Proof. reflexivity. Qed.

Lemma foldR_setattr_ok (df : DataFrame)
    (names : list (string * string)) (self : gmap string Series) :
  Forall (fun cn => is_Some (assoc cn.1 (df_columns df))) names ->
  exists self',
    foldR (fun self cn => v ← df_getitem df cn.1; Ok (setattr self cn.2 v))
      self names = Ok self'
    /\ forall name, name ∉ map snd names -> self' !! name = self !! name.
Proof.
  intros H. revert self. induction H as [|[c n] names [v Hv] _ IH]; intros self.
  - exists self. by split.
  - simpl in Hv. assert (Hg : df_getitem df c = Ok v)
      by (unfold df_getitem, getitem; by rewrite Hv).
    simpl. rewrite Hg. simpl.
    destruct (IH (setattr self n v)) as (self' & -> & Hl).
    exists self'. split; [done|]. intros name Hn.
    rewrite Hl by (intros ?; apply Hn; by right).
    unfold setattr. apply lookup_insert_ne. intros ->. apply Hn. left.
Qed.

Lemma datetimes_of_records (coerce_year : option Z) (jd jt : nat)
    (l : list (list string)) :
  Forall (fun r => is_ok (get_date coerce_year (field r jd)) = true
                   /\ is_ok (get_time (field r jt)) = true) l ->
  mapR combine
    (zip (map (fun r => convert (converters coerce_year) DATE (field r jd)) l)
         (map (fun r => convert (converters coerce_year) TIME (field r jt)) l))
  = Ok (map (row_datetime coerce_year jd jt) l).
Proof.
  induction 1 as [|r l [Hd Ht] _ IH]; [done|].
  destruct (get_date coerce_year (field r jd)) as [d|] eqn:Ed; [|done].
  destruct (get_time (field r jt)) as [t|] eqn:Et; [|done].
  cbn [map zip_with mapR]. rewrite (combine_ok _ _ _ _ _ Ed Et).
  rewrite IH. cbn [mbind result_bind].
  unfold row_datetime at 2. by rewrite Ed, Et.
Qed.

Section Load.
Variables (first labels : list string) (rows : list (list string)).
Variables (coerce_year : option Z) (jd jt : nat).

Hypothesis Hnd : NoDup labels.
Hypothesis Hjd : labels !! jd = Some DATE.
Hypothesis Hjt : labels !! jt = Some TIME.
Hypothesis Hcols : Forall (fun cn => cn.1 ∈ labels) (tail series_names).
Hypothesis Hfresh : "DateTime" ∉ labels.
Hypothesis Hrows :
  Forall (fun r => record_ok coerce_year labels jd jt r = true)
         (take nrows_year rows).

Local Abbreviation data := (take nrows_year rows).
Local Abbreviation convs := (converters coerce_year).
Local Abbreviation frame := (loaded_frame coerce_year labels jd jt data).

Lemma record_ok_inv (r : list string) :
  r ∈ data ->
  length r = length labels
  /\ (exists d, get_date coerce_year (field r jd) = Ok d)
  /\ (exists t, get_time (field r jt) = Ok t)
  /\ row_ok convs labels r = true.
Proof.
  intros Hr. pose proof (proj1 (Forall_forall _ _) Hrows r Hr) as H.
  unfold record_ok in H. apply andb_prop in H as [H H4].
  apply andb_prop in H as [H H3]. apply andb_prop in H as [H1 H2].
  apply Nat.eqb_eq in H1. split; [done|].
  split; [destruct (get_date _ _); [eauto|done]|].
  split; [destruct (get_time _); [eauto|done]|done].
Qed.

Lemma cells_ok (j : nat) (label : string) (r : list string) :
  labels !! j = Some label -> r ∈ data ->
  cell_ok convs label (field r j) = true.
Proof.
  intros Hj Hr. destruct (record_ok_inv r Hr) as (Hlen & [d Hd] & [t Ht] & Hrow).
  destruct (String.eqb label DATE) eqn:Ed.
  { apply String.eqb_eq in Ed as ->.
    assert (j = jd) as -> by (eapply NoDup_lookup; eauto).
    change (cell_ok convs DATE (field r jd))
      with (is_ok (conv_date coerce_year (field r jd))).
    unfold conv_date. by rewrite is_ok_fmap, Hd. }
  destruct (String.eqb label TIME) eqn:Et.
  { apply String.eqb_eq in Et as ->.
    assert (j = jt) as -> by (eapply NoDup_lookup; eauto).
    change (cell_ok convs TIME (field r jt))
      with (is_ok (conv_time (field r jt))).
    unfold conv_time. by rewrite is_ok_fmap, Ht. }
  unfold row_ok in Hrow. rewrite forallb_forall in Hrow.
  destruct (lookup_lt_is_Some_2 r j) as [x Hx].
  { rewrite Hlen. by eapply lookup_lt_Some. }
  assert (Hf : field r j = x).
  { unfold field. apply nth_lookup_Some with (d := EmptyString) in Hx. exact Hx. }
  specialize (Hrow (label, x)). simpl in Hrow. rewrite Ed, Et in Hrow. simpl in Hrow.
  rewrite Hf. apply Hrow. apply list_elem_of_In.
  apply list_elem_of_lookup. exists j. rewrite lookup_zip_with, Hj. simpl.
  by rewrite Hx.
Qed.

Lemma datetimes_ok :
  mapR combine (zip (map (fun r => convert convs DATE (field r jd)) data)
                    (map (fun r => convert convs TIME (field r jt)) data))
  = Ok (map (row_datetime coerce_year jd jt) data).
Proof.
  apply datetimes_of_records. apply Forall_forall. intros r Hr.
  destruct (record_ok_inv r Hr) as (_ & [d Hd] & [t Ht] & _).
  by rewrite Hd, Ht.
Qed.

Lemma datetime_set_once : "datetime" ∉ map snd (tail series_names).
Proof.
  rewrite list_elem_of_In. simpl. intuition discriminate.
Qed.

Lemma TMY3_dataframe_loads :
  TMY3_dataframe (first :: labels :: rows) coerce_year = Ok frame.
Proof.
  unfold TMY3_dataframe, loaded_frame.
  rewrite read_table_rectangular.
  2:{ eapply Forall_impl; [exact Hrows|]. intros r Hr. unfold record_ok in Hr.
      apply andb_prop in Hr as [Hr _]. apply andb_prop in Hr as [Hr _].
      apply andb_prop in Hr as [Hr _]. by apply Nat.eqb_eq. }
  2:{ exact cells_ok. }
  cbn [mbind result_bind]. unfold df_getitem, getitem, set_index_name.
  cbn [df_columns df_index df_len df_index_name].
  change "Date (MM/DD/YYYY)" with DATE. change "Time (HH:MM)" with TIME.
  rewrite (table_columns_lookup _ _ _ _ jd Hnd Hjd). cbn [mbind result_bind].
  rewrite (table_columns_lookup _ _ _ _ jt Hnd Hjt). cbn [mbind result_bind].
  rewrite datetimes_ok. cbn [mbind result_bind].
  unfold df_insert0. cbn [df_columns df_index df_len df_index_name].
  rewrite (table_columns_fresh _ _ _ _ Hfresh).
  by rewrite length_map, Nat.eqb_refl.
Qed.

Lemma TMY3_series_loads (self : gmap string Series) :
  exists self',
    TMY3_series frame self = Ok self'
    /\ self' !! "datetime" = Some (map (row_datetime coerce_year jd jt) data).
Proof.
  unfold TMY3_series.
  assert (Hsn : series_names = ("DateTime", "datetime") :: tail series_names)
    by reflexivity.
  rewrite Hsn. clear Hsn. revert Hcols. generalize (tail series_names) datetime_set_once.
  intros rest Hdt Hc. rewrite foldR_cons.
  change (df_getitem frame ("DateTime", "datetime").1)
    with (@Ok Series (map (row_datetime coerce_year jd jt) data)).
  cbn [mbind result_bind snd].
  destruct (foldR_setattr_ok frame rest
              (setattr self "datetime" (map (row_datetime coerce_year jd jt) data)))
    as (self' & Hs & Hl).
  { eapply Forall_impl; [exact Hc|]. intros [c n] Hcn. simpl in *.
    destruct (String.eqb c "DateTime"); [eauto|].
    apply list_elem_of_lookup in Hcn as [j Hj].
    rewrite (table_columns_lookup _ _ _ _ j Hnd Hj). eauto. }
  exists self'. split; [exact Hs|]. rewrite Hl by exact Hdt.
  unfold setattr. apply lookup_insert_eq.
Qed.

Lemma TMY3_init_loads :
  exists t,
    TMY3_init (first :: labels :: rows) coerce_year = Ok t
    /\ dataframe t = frame
    /\ attrs t !! "datetime" = Some (map (row_datetime coerce_year jd jt) data)
    /\ units t = dict_of_items units_items.
Proof.
  unfold TMY3_init. rewrite TMY3_info_ok, TMY3_dataframe_loads.
  cbn [mbind result_bind].
  destruct (TMY3_series_loads (info_attrs first)) as (self & -> & Hdt).
  cbn [mbind result_bind]. eexists. split; [reflexivity|]. by simpl.
Qed.
End Load.

(** ** The calendar of a year of 365 days *)

Lemma month_day_table (n : Z) :
  0 <= n < 365 ->
  let m := (month_day n).1 in
  let d := (month_day n).2 in
  1 <= m <= 12 /\ 1 <= d <= days_in_month 1 m
  /\ days_before_month 1 m + d = n + 1.
Proof.
  intros H.
  assert (Hall : forallb (fun k => let n := Z.of_nat k in
            let m := (month_day n).1 in
            let d := (month_day n).2 in
            (1 <=? m) && (m <=? 12) && (1 <=? d) && (d <=? days_in_month 1 m)
            && (days_before_month 1 m + d =? n + 1)) (seq 0 365) = true)
    by (vm_compute; reflexivity).
  rewrite forallb_forall in Hall. specialize (Hall (Z.to_nat n)).
  rewrite Z2Nat.id in Hall by lia. cbv zeta in Hall.
  specialize (Hall ltac:(apply in_seq; lia)).
  repeat (apply andb_prop in Hall as [Hall ?]). cbv zeta. lia.
Qed.

Lemma days_in_month_common (y m : Z) : days_in_month 1 m <= days_in_month y m.
Proof.
  unfold days_in_month. change (is_leap 1) with false. rewrite andb_false_r.
  destruct (m =? 2) eqn:E; simpl; [|lia].
  apply Z.eqb_eq in E as ->. destruct (is_leap y); simpl; lia.
Qed.

Lemma days_in_month_nonleap (y m : Z) :
  is_leap y = false -> days_in_month y m = days_in_month 1 m.
Proof.
  intros H. unfold days_in_month. rewrite H. change (is_leap 1) with false.
  by rewrite !andb_false_r.
Qed.

Lemma days_before_month_nonleap (y m : Z) :
  is_leap y = false -> days_before_month y m = days_before_month 1 m.
Proof.
  intros H. unfold days_before_month. rewrite H. change (is_leap 1) with false.
  by rewrite !andb_false_r.
Qed.

Lemma month_day_valid (y n : Z) :
  0 <= n < 365 ->
  1 <= (month_day n).1 <= 12
  /\ 1 <= (month_day n).2 <= days_in_month y (month_day n).1.
Proof.
  intros H. destruct (month_day_table n H) as (Hm & Hd & _).
  pose proof (days_in_month_common y (month_day n).1). lia.
Qed.

Lemma month_day_ordinal (y n : Z) :
  0 <= n < 365 -> is_leap y = false ->
  days_before_month y (month_day n).1 + (month_day n).2 = n + 1.
Proof.
  intros H Hl. rewrite days_before_month_nonleap by done.
  by destruct (month_day_table n H) as (_ & _ & ?).
Qed.

(** ** The records of an hourly year *)

Lemma hour_of_year (i : nat) :
  (i < nrows_year)%nat ->
  0 <= (Z.of_nat i / 24) mod 365 < 365
  /\ (Z.of_nat i / 24) mod 365 = Z.of_nat i / 24
  /\ 0 <= Z.of_nat i mod 24 < 24.
Proof.
  unfold nrows_year. intros H.
  assert (0 <= Z.of_nat i < 8760) by lia.
  assert (0 <= Z.of_nat i / 24 < 365) by (Z.to_euclidean_division_equations; lia).
  rewrite Z.mod_small by lia. split; [lia|]. split; [done|].
  apply Z.mod_pos_bound. lia.
Qed.

Lemma get_date_hour_cell (coerce_year : option Z) (y : Z) (i : nat) :
  (i < nrows_year)%nat -> 1 <= y <= 9999 ->
  1 <= effective_year coerce_year y <= 9999 ->
  let md := month_day (Z.of_nat i / 24) in
  get_date coerce_year (hour_date_cell y i)
  = Ok (mk_date (effective_year coerce_year y) md.1 md.2).
Proof.
  intros Hi Hy He md. destruct (hour_of_year i Hi) as (Hn & Hn' & _).
  unfold hour_date_cell. rewrite Hn'. fold md. rewrite Hn' in Hn.
  destruct (month_day_valid y _ Hn) as [Hm Hd]. fold md in Hm, Hd.
  unfold effective_year in *. destruct (truthy coerce_year) eqn:Et.
  - destruct coerce_year as [Y|]; [|done]. simpl in *.
    destruct (month_day_valid Y _ Hn) as [_ HdY]. fold md in HdY.
    apply get_date_replaced; lia.
  - by apply get_date_uncoerced.
Qed.

Lemma get_time_hour_cell (i : nat) :
  (i < nrows_year)%nat ->
  get_time (hour_time_cell i) = Ok (mk_time (Z.of_nat i mod 24) 0).
Proof.
  intros Hi. destruct (hour_of_year i Hi) as (_ & _ & Hh).
  unfold hour_time_cell. rewrite get_time_two_digits by lia.
  do 2 f_equal. lia.
Qed.

Lemma minutes_of_hour (y0 : Z) (i : nat) :
  (i < nrows_year)%nat -> is_leap y0 = false ->
  let md := month_day (Z.of_nat i / 24) in
  minutes_of (mk_datetime (mk_date y0 md.1 md.2) (mk_time (Z.of_nat i mod 24) 0))
  = (days_before_year y0 + 1) * 1440 + 60 * Z.of_nat i.
Proof.
  intros Hi Hl md. destruct (hour_of_year i Hi) as (Hn & Hn' & Hh).
  rewrite Hn' in Hn. unfold minutes_of, toordinal. simpl.
  pose proof (month_day_ordinal y0 _ Hn Hl) as Ho. fold md in Ho.
  pose proof (Z.div_mod (Z.of_nat i) 24 ltac:(lia)) as Hdm.
  remember (Z.of_nat i / 24) as q. remember (Z.of_nat i mod 24) as h.
  remember (days_before_month y0 md.1) as dbm. remember (md.2) as d. lia.
Qed.

Lemma row_datetime_hourly (coerce_year : option Z) (jd jt : nat) (y : Z)
    (i : nat) (r : list string) :
  (i < nrows_year)%nat -> 1 <= y <= 9999 ->
  1 <= effective_year coerce_year y <= 9999 ->
  field r jd = hour_date_cell y i -> field r jt = hour_time_cell i ->
  let md := month_day (Z.of_nat i / 24) in
  row_datetime coerce_year jd jt r
  = CDateTime (mk_datetime (mk_date (effective_year coerce_year y) md.1 md.2)
                 (mk_time (Z.of_nat i mod 24) 0)).
Proof.
  intros Hi Hy He Hd Ht md. unfold row_datetime. rewrite Hd, Ht.
  rewrite get_date_hour_cell by done. by rewrite get_time_hour_cell.
Qed.

Lemma hourly_record_ok (coerce_year : option Z) (labels : list string)
    (jd jt : nat) (y : Z) (i : nat) (r : list string) :
  (i < nrows_year)%nat -> 1 <= y <= 9999 ->
  1 <= effective_year coerce_year y <= 9999 ->
  length r = length labels ->
  field r jd = hour_date_cell y i -> field r jt = hour_time_cell i ->
  row_ok (converters coerce_year) labels r = true ->
  record_ok coerce_year labels jd jt r = true.
Proof.
  intros Hi Hy He Hl Hd Ht Hr. unfold record_ok.
  rewrite Hl, Nat.eqb_refl, Hd, Ht, Hr.
  rewrite get_date_hour_cell by done. by rewrite get_time_hour_cell.
Qed.

(** C1 (amended). For a station file whose labels are those the loader
    relies on and whose 8760 data records follow the calendar of a year of
    365 days hour by hour, the years written in the date cells and the
    years the decoded dates carry (the coerced year when one is supplied
    and is not 0, else the year written in the cell) being in 1..9999,
    loading returns a data set of exactly 8760 rows, whether the years are
    leap years or not.  If moreover the year the decoded dates carry is one
    and the same non-leap year [y0], the [DateTime] column increases by
    exactly one hour from each row to the next. *)
Theorem hourly_datetimes (first labels : list string)
    (rows : list (list string)) (coerce_year : option Z) (ys : nat -> Z)
    (jd jt : nat) :
  station_labels labels jd jt ->
  length rows = nrows_year ->
  hourly_records coerce_year labels jd jt ys rows ->
  (forall i, 1 <= effective_year coerce_year (ys i) <= 9999) ->
  exists t dts,
    TMY3_init (first :: labels :: rows) coerce_year = Ok t
    /\ df_len (dataframe t) = nrows_year
    /\ df_getitem (dataframe t) "DateTime" = Ok dts
    /\ attrs t !! "datetime" = Some dts
    /\ length dts = nrows_year
    /\ forall y0, is_leap y0 = false ->
         (forall i, effective_year coerce_year (ys i) = y0) ->
         forall i, (S i < nrows_year)%nat ->
           exists a b, dts !! i = Some (CDateTime a)
                       /\ dts !! S i = Some (CDateTime b)
                       /\ minutes_of b = minutes_of a + 60.
Proof.
  intros (Hnd & Hjd & Hjt & Hcols & Hfresh) Hlen Hrec Hrange.
  assert (Htake : take nrows_year rows = rows) by (apply take_ge; lia).
  assert (Hok : Forall (fun r => record_ok coerce_year labels jd jt r = true)
                  (take nrows_year rows)).
  { rewrite Htake. apply Forall_lookup. intros i r Hi.
    destruct (Hrec i r Hi) as (Hl & Hd & Ht & Hy & Hr).
    apply (hourly_record_ok _ _ _ _ (ys i) i); try done.
    rewrite <- Hlen. by eapply lookup_lt_Some. }
  destruct (TMY3_init_loads first labels rows coerce_year jd jt
              Hnd Hjd Hjt Hcols Hfresh Hok) as (t & Ht & Hdf & Hattr & _).
  rewrite Htake in *.
  exists t, (map (row_datetime coerce_year jd jt) rows).
  split; [done|]. rewrite Hdf. split; [done|]. split; [reflexivity|].
  split; [done|]. split; [by rewrite length_map|].
  intros y0 Hleap Heff i Hi.
  assert (Hrow : forall k, (k < nrows_year)%nat ->
            map (row_datetime coerce_year jd jt) rows !! k
            = Some (CDateTime (mk_datetime
                (mk_date y0 (month_day (Z.of_nat k / 24)).1
                            (month_day (Z.of_nat k / 24)).2)
                (mk_time (Z.of_nat k mod 24) 0)))).
  { intros k Hk. destruct (lookup_lt_is_Some_2 rows k) as [r Hr]; [lia|].
    destruct (Hrec k r Hr) as (_ & Hd & Htm & Hy & _).
    rewrite list_lookup_fmap, Hr. simpl. f_equal.
    rewrite (row_datetime_hourly _ _ _ (ys k) k) by done.
    by rewrite Heff. }
  eexists _, _. split; [apply Hrow; lia|]. split; [by apply Hrow|].
  rewrite !minutes_of_hour by (done || lia). lia.
Qed.

(** ** Sample station files *)

Lemma tmy3_station_labels : station_labels tmy3_labels 0 1.
Proof.
  split; [apply (bool_decide_unpack _); vm_compute; exact I|].
  split; [reflexivity|]. split; [reflexivity|].
  split; apply (bool_decide_unpack _); vm_compute; exact I.
Qed.

Lemma station_file_hourly (coerce_year : option Z) (ys : nat -> Z) (n : nat) :
  (forall i, 1 <= ys i <= 9999) ->
  hourly_records coerce_year tmy3_labels 0 1 ys (map (hour_row ys) (seq 0 n)).
Proof.
  intros Hys i r Hr. rewrite list_lookup_fmap in Hr.
  destruct (seq 0 n !! i) as [k|] eqn:Hk; [|done].
  apply lookup_seq in Hk as [-> _]. injection Hr as <-. simpl.
  split; [reflexivity|]. split; [reflexivity|]. split; [reflexivity|].
  split; [apply Hys|]. vm_compute. reflexivity.
Qed.

Lemma station_file_records_ok (coerce_year : option Z) (ys : nat -> Z) (n : nat) :
  (forall i, 1 <= ys i <= 9999) ->
  (forall i, 1 <= effective_year coerce_year (ys i) <= 9999) ->
  Forall (fun r => record_ok coerce_year tmy3_labels 0 1 r = true)
         (take nrows_year (map (hour_row ys) (seq 0 n))).
Proof.
  intros Hys Heff. apply Forall_lookup. intros i r Hi.
  apply lookup_take_Some in Hi as [Hi Hlt].
  destruct (station_file_hourly coerce_year ys n Hys i r Hi) as (Hl & Hd & Ht & Hy & Hr).
  by apply (hourly_record_ok _ _ _ _ (ys i) i).
Qed.

Lemma station_file_loads (coerce_year : option Z) (ys : nat -> Z) (n : nat) :
  (forall i, 1 <= ys i <= 9999) ->
  (forall i, 1 <= effective_year coerce_year (ys i) <= 9999) ->
  let data := take nrows_year (map (hour_row ys) (seq 0 n)) in
  exists t,
    TMY3_init (station_file ys n) coerce_year = Ok t
    /\ dataframe t = loaded_frame coerce_year tmy3_labels 0 1 data
    /\ attrs t !! "datetime" = Some (map (row_datetime coerce_year 0 1) data)
    /\ units t = dict_of_items units_items.
Proof.
  intros Hys Heff data. destruct tmy3_station_labels as (Hnd & Hjd & Hjt & Hc & Hf).
  apply TMY3_init_loads; try done. by apply station_file_records_ok.
Qed.

Lemma mixed_years_range (i : nat) : 1 <= mixed_years i <= 9999.
Proof. unfold mixed_years. destruct (_ <? _)%nat; lia. Qed.

Lemma hourly_datetimes_witness :
  (exists t dts,
     TMY3_init (station_file mixed_years nrows_year) (Some 2021) = Ok t
     /\ df_len (dataframe t) = nrows_year
     /\ df_getitem (dataframe t) "DateTime" = Ok dts
     /\ attrs t !! "datetime" = Some dts
     /\ length dts = nrows_year
     /\ forall i, (S i < nrows_year)%nat ->
          exists a b, dts !! i = Some (CDateTime a)
                      /\ dts !! S i = Some (CDateTime b)
                      /\ minutes_of b = minutes_of a + 60)
  /\ (exists t dts,
     TMY3_init (station_file (fun _ => 1996) nrows_year) (Some 2020) = Ok t
     /\ df_len (dataframe t) = nrows_year
     /\ attrs t !! "datetime" = Some dts
     /\ length dts = nrows_year).
Proof.
  split.
  - destruct (hourly_datetimes sample_info tmy3_labels
                (map (hour_row mixed_years) (seq 0 nrows_year)) (Some 2021)
                mixed_years 0 1)
      as (t & dts & Ht & Hn & Hg & Ha & Hl & Hstep).
    + exact tmy3_station_labels.
    + by rewrite length_map, length_seq.
    + apply station_file_hourly, mixed_years_range.
    + intros i. vm_compute. split; congruence.
    + exists t, dts. split; [exact Ht|]. split; [exact Hn|].
      split; [exact Hg|]. split; [exact Ha|]. split; [exact Hl|].
      apply (Hstep 2021); reflexivity.
  - destruct (hourly_datetimes sample_info tmy3_labels
                (map (hour_row (fun _ => 1996)) (seq 0 nrows_year)) (Some 2020)
                (fun _ => 1996) 0 1)
      as (t & dts & Ht & Hn & _ & Ha & Hl & _).
    + exact tmy3_station_labels.
    + by rewrite length_map, length_seq.
    + apply station_file_hourly. intros i. lia.
    + intros i. vm_compute. split; congruence.
    + exists t, dts. split; [exact Ht|]. split; [exact Hn|].
      split; [exact Ha|]. exact Hl.
Defined.

(** C1 as stated fails.  A file of 8760 hourly records written with the
    year 1996 and loaded with the coerced year 2020, a leap year, has its
    [DateTime] step from February 28, 23:00 to March 1, 00:00: 25 hours.
    A typical year whose January comes from 1996 and whose February comes
    from 1988, loaded without a coerced year, steps back in time from
    January 31, 23:00 to February 1, 00:00. *)
Lemma hourly_datetimes_counterexample :
  (exists t dts,
     TMY3_init (station_file (fun _ => 1996) nrows_year) (Some 2020) = Ok t
     /\ attrs t !! "datetime" = Some dts
     /\ dts !! 1415%nat
        = Some (CDateTime (mk_datetime (mk_date 2020 2 28) (mk_time 23 0)))
     /\ dts !! 1416%nat
        = Some (CDateTime (mk_datetime (mk_date 2020 3 1) (mk_time 0 0)))
     /\ minutes_of (mk_datetime (mk_date 2020 3 1) (mk_time 0 0))
        = minutes_of (mk_datetime (mk_date 2020 2 28) (mk_time 23 0)) + 25 * 60)
  /\ (exists t dts,
     TMY3_init (station_file mixed_years nrows_year) None = Ok t
     /\ attrs t !! "datetime" = Some dts
     /\ dts !! 743%nat
        = Some (CDateTime (mk_datetime (mk_date 1996 1 31) (mk_time 23 0)))
     /\ dts !! 744%nat
        = Some (CDateTime (mk_datetime (mk_date 1988 2 1) (mk_time 0 0)))
     /\ minutes_of (mk_datetime (mk_date 1988 2 1) (mk_time 0 0))
        < minutes_of (mk_datetime (mk_date 1996 1 31) (mk_time 23 0))).
Proof.
  split.
  - destruct (station_file_loads (Some 2020) (fun _ => 1996) nrows_year)
      as (t & Ht & _ & Hattr & _); [lia | intros; vm_compute; split; congruence |].
    exists t. eexists. split; [exact Ht|]. split; [exact Hattr|].
    repeat split; vm_compute; reflexivity.
  - destruct (station_file_loads None mixed_years nrows_year)
      as (t & Ht & _ & Hattr & _); [apply mixed_years_range.. |].
    exists t. eexists. split; [exact Ht|]. split; [exact Hattr|].
    repeat split; vm_compute; reflexivity.
Qed.

(** C2 (amended). Loading does not fail on account of the number of data
    rows: when the first 8760 data records, or all of them if there are
    fewer, are accepted by the converters, loading returns a data set that
    holds exactly those records; a longer block is cut at 8760 rows and a
    shorter one is returned as it is. *)
Theorem row_count_not_checked (first labels : list string)
    (rows : list (list string)) (coerce_year : option Z) (jd jt : nat) :
  station_labels labels jd jt ->
  Forall (fun r => record_ok coerce_year labels jd jt r = true)
         (take nrows_year rows) ->
  exists t,
    TMY3_init (first :: labels :: rows) coerce_year = Ok t
    /\ dataframe t
       = loaded_frame coerce_year labels jd jt (take nrows_year rows)
    /\ df_len (dataframe t) = Nat.min nrows_year (length rows).
Proof.
  intros (Hnd & Hjd & Hjt & Hcols & Hfresh) Hok.
  destruct (TMY3_init_loads first labels rows coerce_year jd jt
              Hnd Hjd Hjt Hcols Hfresh Hok) as (t & Ht & Hdf & _).
  exists t. split; [done|]. split; [done|]. rewrite Hdf.
  unfold loaded_frame. cbn [df_len]. apply length_take.
Qed.

Lemma row_count_not_checked_witness :
  exists t,
    TMY3_init (station_file (fun _ => 1996) 3) None = Ok t
    /\ dataframe t
       = loaded_frame None tmy3_labels 0 1
           (take nrows_year (map (hour_row (fun _ => 1996)) (seq 0 3)))
    /\ df_len (dataframe t)
       = Nat.min nrows_year (length (map (hour_row (fun _ => 1996)) (seq 0 3))).
Proof.
  apply (row_count_not_checked sample_info tmy3_labels
           (map (hour_row (fun _ => 1996)) (seq 0 3)) None 0 1).
  - exact tmy3_station_labels.
  - apply station_file_records_ok; intros; vm_compute; split; congruence.
Defined.

(** C2 as stated fails: a data block of 8761 records loads, cut to 8760
    rows, and a data block of 8759 records loads with its 8759 rows. *)
Lemma row_count_counterexample :
  (length (drop 2 (station_file (fun _ => 1996) (S nrows_year))) = S nrows_year
   /\ exists t,
        TMY3_init (station_file (fun _ => 1996) (S nrows_year)) None = Ok t
        /\ df_len (dataframe t) = nrows_year)
  /\ (length (drop 2 (station_file (fun _ => 1996) (Nat.pred nrows_year)))
      = Nat.pred nrows_year
      /\ exists t,
           TMY3_init (station_file (fun _ => 1996) (Nat.pred nrows_year)) None = Ok t
           /\ df_len (dataframe t) = Nat.pred nrows_year).
Proof.
  assert (Hn : forall n, length (drop 2 (station_file (fun _ => 1996) n)) = n).
  { intros n. unfold station_file. cbn [skipn]. rewrite drop_0.
    by rewrite length_map, length_seq. }
  split; (split; [apply Hn|]).
  - destruct (station_file_loads None (fun _ => 1996) (S nrows_year))
      as (t & Ht & Hdf & _); [lia | intros; vm_compute; split; congruence |].
    exists t. split; [exact Ht|]. rewrite Hdf.
    unfold loaded_frame. cbn [df_len].
    rewrite length_take, length_map, length_seq. lia.
  - destruct (station_file_loads None (fun _ => 1996) (Nat.pred nrows_year))
      as (t & Ht & Hdf & _); [lia | intros; vm_compute; split; congruence |].
    exists t. split; [exact Ht|]. rewrite Hdf.
    unfold loaded_frame. cbn [df_len].
    rewrite length_take, length_map, length_seq. lia.
Qed.

(** ** Loading through the cache *)

Section LoaderProperties.
Variable HOME : option string.
Variable remote : nat -> string -> option response.
Variable tokenize : string -> list (list string).

(** For a cached station file [get_tmy3] is [TMY3.__init__] on the records
    of the cache file, and nothing is fetched. *)
Lemma get_tmy3_cached (config : config_t) (tmy3_name s : string)
    (coerce_year : option Z) (w : world) :
  files w !! cache_file_of HOME tmy3_name = Some s ->
  get_tmy3 HOME remote tokenize config tmy3_name coerce_year w
  = (TMY3_init (tokenize s) coerce_year, w).
Proof.
  intros Hs. unfold get_tmy3, mbind, io_mbind, io_bind.
  rewrite (get_data_cache_hit _ _ _ _ s) by done.
  unfold TMY3_open. by rewrite Hs.
Qed.
End LoaderProperties.

(** ** The station header is not validated *)

(** C7 (amended). Parsing the station header never fails, whatever the
    number of fields of the first line and whatever they hold: each of the
    seven attributes is bound by position, to the last seven fields when
    the line has seven or more (the fields before them become the index),
    to the first fields when it has fewer, the attributes left over being
    missing values; no field is required to be a number. *)
Theorem station_header_not_validated (first : list string)
    (rest : list (list string)) :
  exists self,
    TMY3_info (first :: rest) = Ok self
    /\ forall i name, info_names !! i = Some name ->
         self !! name = Some [infer (field first (length first - 7 + i))].
Proof.
  exists (info_attrs first). split; [apply TMY3_info_ok|].
  intros i name. apply info_attrs_lookup.
Qed.

(** C7 as stated fails: a first line of three fields, one of seven fields
    whose numeric fields are words and one of nine fields are all accepted;
    the first leaves attributes missing, the last binds [station] to the
    third field; and the whole file loads. *)
Lemma station_header_counterexample :
  (exists self,
     TMY3_info [["704540"; "ADAK NAS"; "AK"]] = Ok self
     /\ self !! "station" = Some [CRaw "704540"]
     /\ self !! "tzoffset" = Some [CNA]
     /\ self !! "elevation" = Some [CNA])
  /\ (exists self,
     TMY3_info [["704540"; "ADAK NAS"; "AK"; "minus ten"; "north"; "west"; "high"]]
       = Ok self
     /\ self !! "tzoffset" = Some [CRaw "minus ten"]
     /\ self !! "latitude" = Some [CRaw "north"]
     /\ self !! "elevation" = Some [CRaw "high"])
  /\ (exists self,
     TMY3_info [["x"; "y"; "704540"; "ADAK NAS"; "AK"; "-10.0"; "51.883";
                 "-176.650"; "5"]] = Ok self
     /\ self !! "station" = Some [CRaw "704540"]
     /\ self !! "elevation" = Some [CRaw "5"])
  /\ is_ok (TMY3_init [["704540"; "ADAK NAS"; "AK"]; tmy3_labels; sample_row]
              (Some 2020)) = true.
Proof.
  split; [|split; [|split]].
  - eexists. split; [apply TMY3_info_ok|].
    rewrite (info_attrs_lookup _ 0 "station"), (info_attrs_lookup _ 3 "tzoffset"),
      (info_attrs_lookup _ 6 "elevation") by reflexivity.
    repeat split.
  - eexists. split; [apply TMY3_info_ok|].
    rewrite (info_attrs_lookup _ 3 "tzoffset"), (info_attrs_lookup _ 4 "latitude"),
      (info_attrs_lookup _ 6 "elevation") by reflexivity.
    repeat split.
  - eexists. split; [apply TMY3_info_ok|].
    rewrite (info_attrs_lookup _ 0 "station"),
      (info_attrs_lookup _ 6 "elevation") by reflexivity.
    repeat split.
  - vm_compute. reflexivity.
Qed.

(** ** The units dictionary *)

Lemma TMY3_init_units (recs : list (list string)) (coerce_year : option Z)
    (t : TMY3) :
  TMY3_init recs coerce_year = Ok t -> units t = dict_of_items units_items.
Proof.
  unfold TMY3_init. destruct (TMY3_info recs); simpl; [|done].
  destruct (TMY3_dataframe _ _); simpl; [|done].
  destruct (TMY3_series _ _); simpl; [|done]. by intros [= <-].
Qed.

(** C3 fails on the code.  The loaded data set exposes the series
    [dhillum], and the units dictionary has no entry for it: its display
    names [ghillum] twice.  The series of the zenith luminance is exposed
    under the name [zenlu ] with a trailing blank, for which there is no
    entry either.  Every other series of the claim has a unit, and the unit
    of [drybulb] is [degC]. *)
Theorem units_lack_dhillum :
  exists t,
    TMY3_init (station_file (fun _ => 1996) 1) (Some 2020) = Ok t
    /\ is_Some (attrs t !! "dhillum")
    /\ units t !! "dhillum" = None
    /\ is_Some (attrs t !! "zenlu ")
    /\ units t !! "zenlu " = None
    /\ attrs t !! "zenlu" = None
    /\ units t !! "drybulb" = Some "degC"
    /\ filter (fun name => negb (bool_decide (is_Some (units t !! name))))
              (map snd (drop 3 series_names))
       = ["dhillum"; "zenlu "].
Proof.
  destruct (TMY3_init (station_file (fun _ => 1996) 1) (Some 2020)) as [t|] eqn:E;
    [|by vm_compute in E].
  exists t. split; [done|]. rewrite (TMY3_init_units _ _ _ E).
  assert (Ha : is_ok (t' ← TMY3_init (station_file (fun _ => 1996) 1) (Some 2020);
                      if bool_decide (is_Some (attrs t' !! "dhillum"))
                         && bool_decide (is_Some (attrs t' !! "zenlu "))
                         && bool_decide (attrs t' !! "zenlu" = None)
                      then Ok tt else Raise EmptyDataError) = true)
    by (vm_compute; reflexivity).
  rewrite E in Ha. simpl in Ha.
  destruct (bool_decide (is_Some (attrs t !! "dhillum"))) eqn:E1; [|done].
  destruct (bool_decide (is_Some (attrs t !! "zenlu "))) eqn:E2; [|done].
  destruct (bool_decide (attrs t !! "zenlu" = None)) eqn:E3; [|done].
  apply bool_decide_eq_true in E1, E2, E3.
  repeat split; try done; vm_compute; reflexivity.
Qed.

(** ** The station index *)

Lemma get_index_sorted (HOME : option string)
    (remote : nat -> string -> option response) (config : config_t)
    (w w' : world) (l : list string) :
  get_index HOME remote config w = (Ok l, w') -> StronglySorted String.le l.
Proof.
  unfold get_index, mbind, io_mbind, io_bind, io_lift, mret, io_mret, io_ret.
  destruct (getitem config "index_name"); [|done].
  destruct (get_data _ _ _ _ _ _) as [[data|] w1]; [|done].
  intros [= <- _]. apply StronglySorted_merge_sort; apply _.
Qed.

(** C8 fails on the code for empty content: whether the empty index comes
    from the cache or from the network, [get_index] returns the list that
    holds the empty string; so does it for content made of white space.  A
    trailing newline, present or not, adds no entry. *)
Theorem get_index_empty_content :
  get_index sample_home (remote_always not_found) default_config
    (cached ".index" EmptyString)
  = (Ok [EmptyString], cached ".index" EmptyString)
  /\ fst (get_index sample_home (remote_always (mk_response 200 EmptyString))
            default_config empty_cache)
     = Ok [EmptyString]
  /\ fst (get_index sample_home (remote_always not_found) default_config
            (cached ".index" (String LF (String LF EmptyString))))
     = Ok [EmptyString]
  /\ fst (get_index sample_home (remote_always not_found) default_config
            (cached ".index" ("b.tmy3" +:+ String LF "a.tmy3" +:+ String LF EmptyString)))
     = Ok ["a.tmy3"; "b.tmy3"]
  /\ fst (get_index sample_home (remote_always not_found) default_config
            (cached ".index" ("b.tmy3" +:+ String LF "a.tmy3")))
     = Ok ["a.tmy3"; "b.tmy3"].
Proof. repeat split; vm_compute; reflexivity. Qed.

(** * Further properties *)

(** ** The lines of a text *)

Lemma split_on_nonempty (c : ascii) (s : string) : split_on c s <> [].
Proof.
  destruct s as [|a s]; simpl; [done|].
  destruct (Ascii.eqb a c); [done|]. by destruct (split_on c s).
Qed.

Lemma split_on_no_sep (c : ascii) (s x : string) :
  x ∈ split_on c s -> has_char c x = false.
Proof.
  revert x. induction s as [|a s IH]; intros x; simpl.
  - intros ->%list_elem_of_singleton. done.
  - destruct (Ascii.eqb a c) eqn:E.
    + intros [->|H]%elem_of_cons; [done|]. by apply IH.
    + destruct (split_on c s) as [|y ys] eqn:Es.
      * intros ->%list_elem_of_singleton. simpl. by rewrite E.
      * intros [->|H]%elem_of_cons.
        -- simpl. rewrite E. simpl. apply IH. left.
        -- apply IH. by right.
Qed.

Section IndexProperties.
Variable HOME : option string.
Variable remote : nat -> string -> option response.

Lemma get_index_inv (config : config_t) (w w' : world) (l : list string) :
  get_index HOME remote config w = (Ok l, w') ->
  exists index_name data,
    getitem config "index_name" = Ok index_name
    /\ get_data HOME remote config index_name false w = (Ok data, w')
    /\ l = sorted (split_on LF (strip data)).
Proof.
  unfold get_index, mbind, io_mbind, io_bind, io_lift, mret, io_mret, io_ret.
  destruct (getitem config "index_name") as [name|]; [|done].
  destruct (get_data _ _ _ _ _ _) as [[data|] w1] eqn:E; [|done].
  intros [= <- <-]. by exists name, data.
Qed.

(** X1. When [get_index] returns, its result is the list of the lines of the
    stripped index text, rearranged in increasing order: it is sorted, it
    is a permutation of those lines, it is never empty and none of its
    entries holds a line feed. *)
Theorem get_index_sorted_lines (config : config_t) (w w' : world)
    (l : list string) :
  get_index HOME remote config w = (Ok l, w') ->
  exists index_name data,
    getitem config "index_name" = Ok index_name
    /\ get_data HOME remote config index_name false w = (Ok data, w')
    /\ StronglySorted String.le l
    /\ l ≡ₚ split_on LF (strip data)
    /\ l <> []
    /\ forall x, x ∈ l -> has_char LF x = false.
Proof.
  intros H. destruct (get_index_inv _ _ _ _ H) as (name & data & Hn & Hd & ->).
  exists name, data. split; [done|]. split; [done|].
  assert (Hp : sorted (split_on LF (strip data)) ≡ₚ split_on LF (strip data))
    by apply merge_sort_Permutation.
  split; [apply StronglySorted_merge_sort; apply _|]. split; [done|]. split.
  - intros He. rewrite He in Hp. symmetry in Hp.
    apply Permutation_nil_r in Hp. by apply split_on_nonempty in Hp.
  - intros x Hx. rewrite Hp in Hx. by apply split_on_no_sep in Hx.
Qed.

(** X2. [get_index] wraps no error.  Without the key [index_name] in the
    configuration it raises [KeyError] and touches neither cache nor
    network; an exception of [get_data] leaves [get_index] as it is, with
    the state [get_data] left. *)
Theorem get_index_propagates (config : config_t) (w : world) :
  (assoc "index_name" config = None ->
   get_index HOME remote config w = (Raise (KeyError "index_name"), w))
  /\ (forall index_name e w',
        assoc "index_name" config = Some index_name ->
        get_data HOME remote config index_name false w = (Raise e, w') ->
        get_index HOME remote config w = (Raise e, w')).
Proof.
  split.
  - intros H. unfold get_index, getitem, mbind, io_mbind, io_bind, io_lift.
    by rewrite H.
  - intros name e w' H Hd.
    unfold get_index, getitem, mbind, io_mbind, io_bind, io_lift.
    by rewrite H, Hd.
Qed.
End IndexProperties.

Lemma get_index_sorted_lines_witness :
  exists index_name data,
    getitem default_config "index_name" = Ok index_name
    /\ get_data sample_home (remote_always (mk_response 200 crlf_text))
         default_config index_name false empty_cache
       = (Ok data, mk_world {[ cache_file_of sample_home ".index" := crlf_text ]}
                     sample_dirs [sample_url ".index"])
    /\ StronglySorted String.le ["AK-Adak_Nas.tmy3"]
    /\ ["AK-Adak_Nas.tmy3"] ≡ₚ split_on LF (strip data)
    /\ ["AK-Adak_Nas.tmy3"] <> []
    /\ forall x, x ∈ ["AK-Adak_Nas.tmy3"] -> has_char LF x = false.
Proof.
  apply (get_index_sorted_lines sample_home
           (remote_always (mk_response 200 crlf_text)) default_config
           empty_cache).
  vm_compute. reflexivity.
Defined.

Lemma get_index_propagates_witness :
  get_index sample_home (remote_always not_found) [] empty_cache
  = (Raise (KeyError "index_name"), empty_cache)
  /\ get_index sample_home (remote_always not_found) default_config empty_cache
     = (Raise (OSError 2 "file not found" (cache_file_of sample_home ".index")),
        mk_world ∅ sample_dirs [sample_url ".index"]).
Proof.
  split.
  - apply (proj1 (get_index_propagates sample_home (remote_always not_found)
                    [] empty_cache)). reflexivity.
  - apply (proj2 (get_index_propagates sample_home (remote_always not_found)
                    default_config empty_cache) ".index").
    + reflexivity.
    + vm_compute. reflexivity.
Defined.

(** ** The content cache *)

Lemma string_app_assoc (a b c : string) : (a +:+ b) +:+ c = a +:+ (b +:+ c).
Proof.
  induction a as [|x a IH]; unfold String.app in *; simpl; [done|].
  by rewrite IH.
Qed.

Lemma string_app_cons (x : ascii) (a b : string) :
  String x a +:+ b = String x (a +:+ b).
Proof. reflexivity. Qed.

Section CacheProperties.
Variable HOME : option string.
Variable remote : nat -> string -> option response.

Lemma cache_dir_unfold :
  cache_dir HOME = default "None" HOME +:+ "/.gridlabd-weather/data".
Proof. unfold cache_dir, config_dir. by rewrite string_app_assoc. Qed.

Lemma dirname_cache_file (filename : string) :
  up_to_last_sep filename = None ->
  dirname (cache_file_of HOME filename) = cache_dir HOME.
Proof.
  intros Hn. unfold dirname, cache_file_of.
  change (cache_dir HOME +:+ "/" +:+ filename)
    with (cache_dir HOME +:+ String "/" filename).
  rewrite up_to_last_sep_app by done. rewrite rstrip_sep_slash.
  rewrite cache_dir_unfold.
  rewrite rstrip_sep_app by (vm_compute; congruence).
  change (rstrip_sep "/.gridlabd-weather/data") with "/.gridlabd-weather/data".
  by destruct (default "None" HOME).
Qed.

(** What [get_data] does when the cache file does not exist. *)
Lemma get_data_miss (config : config_t) (filename : string) (only : bool)
    (w : world) :
  path_exists (cache_file_of HOME filename) w = false ->
  get_data HOME remote config filename only w
  = match data_url config filename with
    | Raise e => (Raise e, w)
    | Ok url =>
        let w1 := mk_world (files w) (dirs w) (requests w ++ [url])%list in
        match remote (length (requests w)) url with
        | None => (Raise TransportError, w1)
        | Some r =>
            if status_code r =? 200 then
              match write_text (cache_file_of HOME filename) (text r) w1 with
              | (Ok _, w2) =>
                  (Ok (if only then cache_file_of HOME filename else text r), w2)
              | (Raise e, w2) => (Raise e, w2)
              end
            else (Raise (OSError 2 "file not found" (cache_file_of HOME filename)), w1)
        end
    end.
Proof.
  intros He. unfold get_data. rewrite He.
  unfold mbind, io_mbind, io_bind, io_lift, requests_get, io_raise.
  destruct (data_url config filename) as [url|]; [|done].
  destruct (remote _ url) as [r|]; [|done].
  destruct (status_code r =? 200); [|done].
  destruct (write_text _ _ _) as [[[]|e] w2]; by destruct only.
Qed.

Lemma write_text_inv (p s : string) (w w' : world) (r : result unit) :
  write_text p s w = (r, w') ->
  dirs w' = dirs w /\ requests w' = requests w
  /\ ((r = Ok tt /\ files w' = <[p := s]> (files w))
      \/ (is_ok r = false /\ w' = w)).
Proof.
  unfold write_text. destruct (is_dir p w); [intros [= <- <-]; eauto|].
  destruct (is_file _ w); [intros [= <- <-]; eauto|].
  destruct (_ || _); intros [= <- <-]; simpl; eauto.
Qed.

(** X3. A miss answered with status 200 stores the text as it is under the
    cache path and returns it (or the path); exactly one request is made,
    to the URL built from the configuration, and nothing else changes. *)
Theorem get_data_fetch_stores (config : config_t) (filename url : string)
    (only : bool) (r : response) (w : world) :
  path_exists (cache_file_of HOME filename) w = false ->
  up_to_last_sep filename = None ->
  is_dir (cache_dir HOME) w = true ->
  is_file (cache_dir HOME) w = false ->
  data_url config filename = Ok url ->
  remote (length (requests w)) url = Some r ->
  status_code r = 200 ->
  get_data HOME remote config filename only w
  = (Ok (if only then cache_file_of HOME filename else text r),
     mk_world (<[cache_file_of HOME filename := text r]> (files w)) (dirs w)
       (requests w ++ [url])%list).
Proof.
  intros He Hn Hd Hf Hu Hr Hs. rewrite get_data_miss by done.
  rewrite Hu. cbv zeta. rewrite Hr, Hs. simpl.
  unfold write_text. rewrite dirname_cache_file by done.
  apply orb_false_elim in He as [_ He'].
  unfold is_dir in *. simpl. rewrite He'. unfold is_file in *. simpl.
  rewrite Hf, Hd. by rewrite orb_true_r.
Qed.

(** X4. Whatever its outcome, [get_data] leaves the directories and every
    file other than its cache file as they are and makes at most one
    request; when it raises, no file at all has changed. *)
Theorem get_data_frame (config : config_t) (filename : string) (only : bool)
    (w w' : world) (res : result string) :
  get_data HOME remote config filename only w = (res, w') ->
  dirs w' = dirs w
  /\ (forall p, p <> cache_file_of HOME filename -> files w' !! p = files w !! p)
  /\ (is_ok res = false -> files w' = files w)
  /\ (requests w' = requests w \/ exists url, requests w' = (requests w ++ [url])%list).
Proof.
  destruct (path_exists (cache_file_of HOME filename) w) eqn:He.
  - unfold get_data. rewrite He. intros H.
    assert (Hw : w' = w).
    { destruct only; [by injection H as _ <-|]. unfold read_text in H.
      destruct (files w !! _); [by injection H as _ <-|].
      destruct (is_dir _ _); by injection H as _ <-. }
    rewrite Hw. eauto.
  - rewrite get_data_miss by done.
    destruct (data_url config filename) as [url|]; [|intros [= <- <-]; eauto].
    cbv zeta. destruct (remote _ url) as [r|]; [|intros [= <- <-]; simpl; eauto 6].
    destruct (status_code r =? 200); [|intros [= <- <-]; simpl; eauto 6].
    destruct (write_text _ _ _) as [rw w2] eqn:Hw.
    apply write_text_inv in Hw as (Hd & Hq & Hf). simpl in Hd, Hq.
    destruct Hf as [[-> Hf]|[Hk ->]].
    + intros [= <- <-]. split; [done|]. split.
      * intros p Hp. rewrite Hf. simpl. by rewrite lookup_insert_ne.
      * split; [done|]. right. exists url. done.
    + destruct rw as [[]|e]; [done|]. intros [= <- <-]. simpl. eauto 6.
Qed.

(** X5. The configuration is read only on a miss, and before any request:
    when a key of the URL is missing, an uncached name raises [KeyError]
    for a missing key and the state is untouched. *)
Theorem get_data_missing_key (config : config_t) (filename key : string)
    (only : bool) (w : world) :
  path_exists (cache_file_of HOME filename) w = false ->
  key ∈ ["server"; "organization"; "repository"; "branch"; "country"] ->
  assoc key config = None ->
  exists key', assoc key' config = None
    /\ get_data HOME remote config filename only w = (Raise (KeyError key'), w).
Proof.
  intros He Hk Hn. rewrite get_data_miss by done.
  assert (Hu : exists key', assoc key' config = None
                 /\ data_url config filename = Raise (KeyError key')).
  { unfold data_url, getitem.
    destruct (assoc "server" config) eqn:E1; [|by eexists].
    destruct (assoc "organization" config) eqn:E2; [|by eexists].
    destruct (assoc "repository" config) eqn:E3; [|by eexists].
    destruct (assoc "branch" config) eqn:E4; [|by eexists].
    destruct (assoc "country" config) eqn:E5; [|by eexists].
    exfalso. rewrite !elem_of_cons in Hk.
    destruct Hk as [->|[->|[->|[->|[->|Hk]]]]]; try congruence.
    by apply not_elem_of_nil in Hk. }
  destruct Hu as (key' & Hn' & ->). by exists key'.
Qed.
End CacheProperties.

Lemma get_data_fetch_stores_witness :
  get_data sample_home (remote_always (mk_response 200 crlf_text)) default_config
    ".index" false empty_cache
  = (Ok crlf_text,
     mk_world (<[cache_file_of sample_home ".index" := crlf_text]> ∅) sample_dirs
       ([] ++ [sample_url ".index"])%list).
Proof.
  apply (get_data_fetch_stores sample_home
           (remote_always (mk_response 200 crlf_text)) default_config ".index"
           (sample_url ".index") false (mk_response 200 crlf_text) empty_cache);
    vm_compute; reflexivity.
Defined.

Lemma get_data_frame_witness :
  dirs (mk_world ∅ sample_dirs [sample_url ".index"]) = dirs empty_cache
  /\ (forall p, p <> cache_file_of sample_home ".index" ->
        files (mk_world ∅ sample_dirs [sample_url ".index"]) !! p
        = files empty_cache !! p)
  /\ (is_ok (@Raise string (OSError 2 "file not found"
                              (cache_file_of sample_home ".index"))) = false ->
      files (mk_world ∅ sample_dirs [sample_url ".index"]) = files empty_cache)
  /\ (requests (mk_world ∅ sample_dirs [sample_url ".index"]) = requests empty_cache
      \/ exists url, requests (mk_world ∅ sample_dirs [sample_url ".index"])
                     = (requests empty_cache ++ [url])%list).
Proof.
  apply (get_data_frame sample_home (remote_always not_found) default_config
           ".index" false empty_cache).
  vm_compute. reflexivity.
Defined.

Lemma get_data_missing_key_witness :
  exists key', assoc key' (drop 3 default_config) = None
    /\ get_data sample_home (remote_always not_found) (drop 3 default_config)
         "AK-Adak_Nas.tmy3" true empty_cache
       = (Raise (KeyError key'), empty_cache).
Proof.
  apply (get_data_missing_key sample_home (remote_always not_found)
           (drop 3 default_config) "AK-Adak_Nas.tmy3" "server" true empty_cache).
  - vm_compute. reflexivity.
  - left.
  - reflexivity.
Defined.

(** ** Module level: the first run and the later ones *)

Lemma basename_app (p name : string) :
  up_to_last_sep name = None -> basename (p +:+ String "/" name) = name.
Proof.
  intros Hn. induction p as [|a p IH].
  - change (EmptyString +:+ String "/" name) with (String "/" name).
    simpl. by rewrite Hn.
  - change (String a p +:+ String "/" name)
      with (String a (p +:+ String "/" name)).
    cbn [basename]. by rewrite (up_to_last_sep_app p name Hn).
Qed.

Section ModuleInitProperties.
Variable HOME : option string.
Variable json_load : string -> result config_t.

Lemma dirname_in_config_dir (name : string) :
  up_to_last_sep name = None ->
  dirname (config_dir HOME +:+ String "/" name) = config_dir HOME.
Proof.
  intros Hn. unfold dirname. rewrite up_to_last_sep_app by done.
  rewrite rstrip_sep_slash. unfold config_dir.
  rewrite rstrip_sep_app by (vm_compute; congruence).
  change (rstrip_sep "/.gridlabd-weather") with "/.gridlabd-weather".
  by destruct (default "None" HOME).
Qed.

Lemma config_dir_nonempty : String.eqb (config_dir HOME) EmptyString = false.
Proof. unfold config_dir. by destruct (default "None" HOME). Qed.

Lemma cache_dir_nonempty : String.eqb (cache_dir HOME) EmptyString = false.
Proof. unfold cache_dir, config_dir. by destruct (default "None" HOME). Qed.

Lemma config_path_not_cache_dir : config_path HOME <> cache_dir HOME.
Proof.
  unfold config_path, cache_dir. intros H. by apply String.app_inj in H.
Qed.

Lemma bootstrap_saves (w : world) :
  bootstrap HOME json_load w
  = match save_config default_config (config_path HOME) w with
    | (Ok _, w') => (Ok default_config, w')
    | (Raise e, w') => (Raise e, w')
    end.
Proof.
  unfold bootstrap.
  change (load_config json_load (globals_at_import HOME) (config_path HOME) w)
    with (@Raise config_t (NameError "filename"), w).
  cbv beta iota. unfold mbind, io_mbind, io_bind.
  by destruct (save_config _ _ _) as [[[]|e] w'].
Qed.

(** X6. On a first run, when the configuration directory does not exist,
    the bootstrap fails: [save_config] cannot create the configuration
    file, its [OSError] for a missing file or directory leaves the handler,
    and the statement that would create the directories is never reached;
    nothing has been written. *)
Theorem first_run_fails (w : world) :
  is_dir (config_dir HOME) w = false ->
  is_file (config_dir HOME) w = false ->
  is_dir (config_path HOME) w = false ->
  bootstrap HOME json_load w
    = (Raise (OSError 2 "No such file or directory" (config_path HOME)), w)
  /\ module_init HOME json_load w
    = (Raise (OSError 2 "No such file or directory" (config_path HOME)), w).
Proof.
  intros Hd Hf Hp.
  assert (Hb : bootstrap HOME json_load w
    = (Raise (OSError 2 "No such file or directory" (config_path HOME)), w)).
  { rewrite bootstrap_saves. unfold save_config, write_text.
    rewrite Hp, (dirname_config_path HOME), Hf, config_dir_nonempty, Hd.
    reflexivity. }
  split; [done|]. unfold module_init, mbind, io_mbind, io_bind. by rewrite Hb.
Qed.

Lemma makedirs_from_head_exists (fuel : nat) (name : string) (exist_ok : bool)
    (w : world) :
  String.eqb (basename name) EmptyString = false ->
  path_exists (dirname name) w = true ->
  makedirs_from fuel name exist_ok w
  = match mkdir name w with
    | (Ok _, w2) => (Ok tt, w2)
    | (Raise e, w2) =>
        if negb exist_ok || negb (is_dir name w2) then (Raise e, w2)
        else (Ok tt, w2)
    end.
Proof.
  intros Hb Hh. destruct fuel; simpl; rewrite Hb, Hh; by rewrite !andb_false_r.
Qed.

(** X7. When the configuration directory exists, the module loads: the
    configuration is the default one, the configuration file holds its JSON
    text, the cache directory exists afterwards unless a file is in its
    place, and no other file or directory is touched and no request made. *)
Theorem module_init_succeeds (w : world) :
  is_dir (config_dir HOME) w = true ->
  is_file (config_dir HOME) w = false ->
  is_dir (config_path HOME) w = false ->
  module_init HOME json_load w
  = (Ok default_config,
     mk_world (<[config_path HOME := json_dump default_config]> (files w))
       (if path_exists (cache_dir HOME) w then dirs w
        else {[ cache_dir HOME ]} ∪ dirs w)
       (requests w)).
Proof.
  intros Hd Hf Hp. unfold module_init, mbind at 1, io_mbind at 1, io_bind at 1.
  rewrite bootstrap_saves, (save_config_writes HOME) by done.
  set (w1 := mk_world _ (dirs w) (requests w)).
  assert (He : path_exists (cache_dir HOME) w1 = path_exists (cache_dir HOME) w).
  { unfold path_exists, is_file, is_dir, w1. simpl.
    rewrite lookup_insert_ne by apply config_path_not_cache_dir. done. }
  rewrite He. destruct (path_exists (cache_dir HOME) w) eqn:Hc; [done|].
  simpl negb. cbv iota.
  unfold mbind, io_mbind, io_bind, makedirs.
  assert (Hdn : dirname (cache_dir HOME) = config_dir HOME)
    by (apply dirname_in_config_dir; reflexivity).
  rewrite makedirs_from_head_exists.
  2:{ unfold cache_dir. change (config_dir HOME +:+ "/data")
        with (config_dir HOME +:+ String "/" "data").
      by rewrite basename_app. }
  2:{ rewrite Hdn. unfold path_exists, is_dir, w1. simpl.
      unfold is_dir in Hd. rewrite Hd. apply orb_true_r. }
  unfold mkdir. rewrite He, cache_dir_nonempty, Hdn.
  assert (Hf1 : is_file (config_dir HOME) w1 = false).
  { unfold is_file, w1. simpl. rewrite lookup_insert_ne; [exact Hf|].
    intros H. unfold config_path in H.
    assert (H' : config_dir HOME +:+ "/config.json" = config_dir HOME +:+ EmptyString).
    { rewrite H. clear. induction (config_dir HOME) as [|a s IH];
        unfold String.app in *; simpl; [done|]. by rewrite <- IH. }
    by apply String.app_inj in H'. }
  assert (Hd1 : is_dir (config_dir HOME) w1 = true) by exact Hd.
  rewrite Hf1, Hd1, orb_true_r. reflexivity.
Qed.
End ModuleInitProperties.

Lemma first_run_fails_witness :
  bootstrap sample_home load_saved (mk_world ∅ {[ "/home/user" ]} [])
    = (Raise (OSError 2 "No such file or directory" (config_path sample_home)),
       mk_world ∅ {[ "/home/user" ]} [])
  /\ module_init sample_home load_saved (mk_world ∅ {[ "/home/user" ]} [])
    = (Raise (OSError 2 "No such file or directory" (config_path sample_home)),
       mk_world ∅ {[ "/home/user" ]} []).
Proof.
  apply (first_run_fails sample_home load_saved (mk_world ∅ {[ "/home/user" ]} []));
    vm_compute; reflexivity.
Defined.

Lemma module_init_succeeds_witness :
  let w := mk_world ∅ {[ "/home/user"; config_dir sample_home ]} [] in
  module_init sample_home load_saved w
  = (Ok default_config,
     mk_world (<[config_path sample_home := json_dump default_config]> (files w))
       (if path_exists (cache_dir sample_home) w then dirs w
        else {[ cache_dir sample_home ]} ∪ dirs w)
       (requests w)).
Proof.
  intros w. apply (module_init_succeeds sample_home load_saved w);
    vm_compute; reflexivity.
Defined.

(** ** The converters at their bounds *)

(** X8. For a two-digit hour label [HH] the time converter returns exactly
    when [HH] is in 1..24; the labels 00 and 25 to 99 raise [ValueError],
    the hour [HH - 1] being outside 0..23. *)
Theorem get_time_bounds (hh : Z) (mm : string) :
  0 <= hh <= 99 ->
  get_time (time_cell hh mm)
  = if (1 <=? hh) && (hh <=? 24) then Ok (mk_time (hh - 1) 0)
    else Raise (ValueError "hour must be in 0..23").
Proof.
  intros H. small_cases hh 0 100%nat; vm_compute; reflexivity.
Qed.

Lemma get_time_bounds_witness :
  get_time (time_cell 0 "00") = Raise (ValueError "hour must be in 0..23")
  /\ get_time (time_cell 25 "00") = Raise (ValueError "hour must be in 0..23").
Proof.
  split.
  - apply (get_time_bounds 0 "00"). lia.
  - apply (get_time_bounds 25 "00"). lia.
Defined.

Lemma split_on_head (c : ascii) (h r : string) :
  has_char c h = false -> hd EmptyString (split_on c (h +:+ String c r)) = h.
Proof.
  induction h as [|a h IH]; intros Hc.
  - change (EmptyString +:+ String c r) with (String c r). simpl.
    by rewrite Ascii.eqb_refl.
  - change (String a h +:+ String c r) with (String a (h +:+ String c r)).
    simpl in *. apply orb_false_elim in Hc as [Ha Hh]. rewrite Ha.
    specialize (IH Hh). destruct (split_on c (h +:+ String c r)); simpl in *;
      by rewrite IH.
Qed.

Lemma split_on_whole (c : ascii) (h : string) :
  has_char c h = false -> split_on c h = [h].
Proof.
  induction h as [|a h IH]; intros Hc; simpl in *; [done|].
  apply orb_false_elim in Hc as [Ha Hh]. by rewrite Ha, (IH Hh).
Qed.

(** X9. The time converter reads the text before the first colon and
    nothing else: what follows the colon, minutes or anything, never
    changes the result, and a text without colon is read whole.  Whenever
    it returns, the hour is in 0..23 and the minute is 0. *)
Theorem get_time_reads_hour_only (h rest : string) :
  has_char ":" h = false ->
  get_time (h +:+ String ":" rest) = get_time h
  /\ forall t, get_time h = Ok t -> 0 <= hour t <= 23 /\ minute t = 0.
Proof.
  intros Hc. split.
  - unfold get_time. by rewrite split_on_head, split_on_whole.
  - intros t Ht. destruct (get_time_checked _ _ Ht) as [Hh ->]. done.
Qed.

Lemma get_time_reads_hour_only_witness :
  get_time ("07" +:+ String ":" "59:59") = get_time "07"
  /\ forall t, get_time "07" = Ok t -> 0 <= hour t <= 23 /\ minute t = 0.
Proof. apply (get_time_reads_hour_only "07" "59:59"). reflexivity. Defined.

(** X10. Whatever the text of the cell, a date the date converter returns
    is a date of the calendar; with a coerced year other than 0 its year is
    the coerced year, and its month and day are those the cell decodes to
    without coercion; without a coerced year, or with 0, coercion changes
    nothing. *)
Theorem get_date_result (coerce_year : option Z) (s : string) (d : date) :
  get_date coerce_year s = Ok d ->
  check_date (year d) (month d) (day d) = Ok d
  /\ exists d0, get_date None s = Ok d0
       /\ month d = month d0 /\ day d = day d0
       /\ year d = effective_year coerce_year (year d0).
Proof.
  intros H. split; [by apply (get_date_checked coerce_year s)|].
  unfold get_date, effective_year in *. simpl truthy at 2.
  destruct (strptime_mdY s) as [dt|] eqn:E;
    [|by destruct (truthy coerce_year)].
  exists (dt_date dt). split; [done|].
  destruct (truthy coerce_year); simpl in H.
  - destruct (replace_year _ _) as [dt'|] eqn:E'; simpl in H; [|done].
    apply replace_year_inv in E' as (d1 & E1 & ->).
    injection H as <-. by apply check_date_inv in E1 as (-> & _).
  - by injection H as <-.
Qed.

Lemma get_date_result_witness :
  check_date (year (mk_date 2020 1 1)) (month (mk_date 2020 1 1))
    (day (mk_date 2020 1 1)) = Ok (mk_date 2020 1 1)
  /\ exists d0, get_date None "1/1/1996" = Ok d0
       /\ month (mk_date 2020 1 1) = month d0 /\ day (mk_date 2020 1 1) = day d0
       /\ year (mk_date 2020 1 1) = effective_year (Some 2020) (year d0).
Proof.
  apply (get_date_result (Some 2020) "1/1/1996" (mk_date 2020 1 1)).
  vm_compute. reflexivity.
Defined.

Lemma re_m_one_digit {A} (K : Z -> string -> option A) (m : Z) (rest : string) :
  1 <= m <= 9 ->
  re_m (fun v => re_lit "/" (K v)) (String (digit_char m) (String "/" rest))
  = K m rest.
Proof. intros H. small_cases m 1 9%nat; vm_compute; by destruct (K _ _). Qed.

Lemma re_d_one_digit {A} (K : Z -> string -> option A) (d : Z) (rest : string) :
  1 <= d <= 9 ->
  re_d (fun v => re_lit "/" (K v)) (String (digit_char d) (String "/" rest))
  = K d rest.
Proof. intros H. small_cases d 1 9%nat; vm_compute; by destruct (K _ _). Qed.

Lemma re_Y_four_digits_rest {A} (K : Z -> string -> option A) (y : Z)
    (rest : string) :
  0 <= y <= 9999 -> re_Y K (four_digits y +:+ rest) = K y rest.
Proof.
  intros H. unfold re_Y, four_digits, two_digits, re_digit.
  change (re_Y K) with (re_Y K).
  cbv [String.append String.app].
  rewrite !in_range_digit_char by (Z.to_euclidean_division_equations; lia).
  f_equal. Z.to_euclidean_division_equations; lia.
Qed.

Lemma match_mdY_date_cell_rest (m d y : Z) (rest : string) :
  1 <= m <= 12 -> 1 <= d <= 31 -> 0 <= y <= 9999 ->
  match_mdY (date_cell m d y +:+ rest) = Some (m, d, y, rest).
Proof.
  intros Hm Hd Hy. unfold match_mdY.
  assert (Hc : date_cell m d y +:+ rest
    = two_digits m +:+ String "/" (two_digits d +:+ String "/" (four_digits y +:+ rest))).
  { unfold date_cell, two_digits. cbv [String.append String.app]. reflexivity. }
  rewrite Hc.
  rewrite (re_m_two_digits
    (fun m => re_d (fun d => re_lit "/" (re_Y (fun y rest => Some (m, d, y, rest))))))
    by done.
  rewrite (re_d_two_digits (fun d => re_Y (fun y rest => Some (m, d, y, rest))))
    by done.
  by rewrite re_Y_four_digits_rest.
Qed.

Lemma match_mdY_short_date_cell (m d y : Z) :
  1 <= m <= 9 -> 1 <= d <= 9 -> 0 <= y <= 9999 ->
  match_mdY (short_date_cell m d y) = Some (m, d, y, EmptyString).
Proof.
  intros Hm Hd Hy. unfold match_mdY, short_date_cell.
  change ("/" +:+ String (digit_char d) ("/" +:+ four_digits y))
    with (String "/" (String (digit_char d) (String "/" (four_digits y)))).
  rewrite (re_m_one_digit
    (fun m => re_d (fun d => re_lit "/" (re_Y (fun y rest => Some (m, d, y, rest))))))
    by done.
  rewrite (re_d_one_digit (fun d => re_Y (fun y rest => Some (m, d, y, rest))))
    by done.
  by rewrite re_Y_four_digits.
Qed.

(** X11. The date converter is as lenient and as strict as [strptime]: a
    month and a day written with one digit decode like their two-digit
    forms, and a date [MM/DD/YYYY], whatever its month in 01..12, its day
    in 01..31 and its four-digit year, followed by anything at all is
    refused with [ValueError], with or without a coerced year. *)
Theorem get_date_accepts_and_rejects (coerce_year : option Z) :
  (forall m d y : Z,
     1 <= m <= 9 -> 1 <= d <= 9 -> 0 <= y <= 9999 ->
     get_date coerce_year (short_date_cell m d y)
     = get_date coerce_year (date_cell m d y))
  /\ (forall (m d y : Z) (a : ascii) (extra : string),
     1 <= m <= 12 -> 1 <= d <= 31 -> 0 <= y <= 9999 ->
     get_date coerce_year (date_cell m d y +:+ String a extra)
     = Raise (ValueError "unconverted data remains")).
Proof.
  split.
  - intros m d y Hm Hd Hy. unfold get_date, strptime_mdY.
    by rewrite match_mdY_short_date_cell, match_mdY_date_cell by lia.
  - intros m d y a extra Hm Hd Hy. unfold get_date, strptime_mdY.
    rewrite match_mdY_date_cell_rest by lia. simpl.
    by destruct (truthy coerce_year).
Qed.

Lemma get_date_accepts_and_rejects_witness :
  get_date (Some 2020) (short_date_cell 1 1 1996)
    = get_date (Some 2020) (date_cell 1 1 1996)
  /\ get_date (Some 2020) (date_cell 12 31 1996 +:+ String " " "01:00")
    = Raise (ValueError "unconverted data remains")
  /\ get_date None (date_cell 2 31 1996 +:+ String "x" EmptyString)
    = Raise (ValueError "unconverted data remains").
Proof.
  split; [|split].
  - apply (proj1 (get_date_accepts_and_rejects (Some 2020)) 1 1 1996); lia.
  - apply (proj2 (get_date_accepts_and_rejects (Some 2020)) 12 31 1996
             " "%char "01:00"); lia.
  - apply (proj2 (get_date_accepts_and_rejects None) 2 31 1996
             "x"%char EmptyString); lia.
Defined.

(** ** What a load examines, and what makes it fail *)

Lemma read_table_take (first labels : list string) (rows : list (list string))
    (n : nat) (convs : list (string * converter)) :
  read_table (first :: labels :: rows) 1 n (header_row 0) convs
  = read_table (first :: labels :: take n rows) 1 n (header_row 0) convs.
Proof.
  unfold read_table. cbv zeta. cbn [skipn mbind result_bind].
  by rewrite take_take, Nat.min_id.
Qed.

Lemma TMY3_init_take (first labels : list string) (rows : list (list string))
    (coerce_year : option Z) :
  TMY3_init (first :: labels :: rows) coerce_year
  = TMY3_init (first :: labels :: take nrows_year rows) coerce_year.
Proof.
  unfold TMY3_init, TMY3_dataframe. rewrite !TMY3_info_ok.
  by rewrite read_table_take.
Qed.

(** X12. The loader examines the station line, the header row and the first
    8760 data records, and nothing after them: whatever follows the 8760th
    data record, well formed or not, changes neither the outcome nor the
    data set. *)
Theorem records_after_8760_ignored (first labels : list string)
    (rows extra : list (list string)) (coerce_year : option Z) :
  (nrows_year <= length rows)%nat ->
  TMY3_init (first :: labels :: rows ++ extra) coerce_year
  = TMY3_init (first :: labels :: rows) coerce_year.
Proof.
  intros H. rewrite TMY3_init_take, (TMY3_init_take _ _ rows).
  by rewrite take_app_le.
Qed.

Lemma records_after_8760_ignored_witness :
  TMY3_init (sample_info :: tmy3_labels
             :: map (hour_row mixed_years) (seq 0 nrows_year) ++ [["junk"]]) None
  = TMY3_init (sample_info :: tmy3_labels
               :: map (hour_row mixed_years) (seq 0 nrows_year)) None.
Proof.
  apply (records_after_8760_ignored sample_info tmy3_labels
           (map (hour_row mixed_years) (seq 0 nrows_year)) [["junk"]] None).
  rewrite length_map, length_seq. lia.
Defined.

(** X13. A file with fewer than two records, that is without station line
    or without header row, does not load: [EmptyDataError]. *)
Theorem short_file_is_empty_data (recs : list (list string))
    (coerce_year : option Z) :
  (length recs < 2)%nat -> TMY3_init recs coerce_year = Raise EmptyDataError.
Proof.
  intros H. destruct recs as [|first [|labels rows]]; [done| |simpl in H; lia].
  unfold TMY3_init. by rewrite TMY3_info_ok.
Qed.

Lemma short_file_is_empty_data_witness :
  TMY3_init [sample_info] (Some 2020) = Raise EmptyDataError.
Proof. apply (short_file_is_empty_data [sample_info] (Some 2020)). simpl. lia. Defined.

(** ** Inversion of the loader *)

Lemma mapR_inv {A B} (f : A -> result B) (l : list A) (l' : list B) :
  mapR f l = Ok l' -> Forall2 (fun x y => f x = Ok y) l l'.
Proof.
  revert l'. induction l as [|x l IH]; intros l'; simpl.
  - intros [= <-]. constructor.
  - destruct (f x) as [y|] eqn:E; simpl; [|done].
    destruct (mapR f l) as [ys|]; simpl; [|done].
    intros [= <-]. constructor; [done|]. by apply IH.
Qed.

Lemma mapR_raise {A B} (f : A -> result B) (l : list A) (e : exn) :
  mapR f l = Raise e -> exists x, x ∈ l /\ f x = Raise e.
Proof.
  induction l as [|x l IH]; simpl; [done|].
  destruct (f x) as [y|e0] eqn:E; simpl.
  - destruct (mapR f l) as [ys|e1]; simpl; [done|]. intros [= ->].
    destruct (IH eq_refl) as (x' & Hx & Hf). exists x'. split; [by right|done].
  - intros [= ->]. exists x. split; [left|done].
Qed.

Lemma mapR_fails {A B} (f : A -> result B) (l : list A) (x : A) :
  x ∈ l -> is_ok (f x) = false -> is_ok (mapR f l) = false.
Proof.
  induction l as [|y l IH]; [by intros ?%elem_of_nil|].
  intros [->|Hx]%elem_of_cons Hf; simpl.
  - by destruct (f y).
  - destruct (f y); simpl; [|done]. specialize (IH Hx Hf).
    by destruct (mapR f l).
Qed.

Lemma assoc_elem {V} (k : string) (v : V) (l : list (string * V)) :
  assoc k l = Some v -> (k, v) ∈ l.
Proof.
  induction l as [|[k' v'] l IH]; simpl; [done|].
  destruct (String.eqb k k') eqn:E.
  - apply String.eqb_eq in E as ->. intros [= ->]. left.
  - intros H. right. by apply IH.
Qed.

(** The exceptions of the five converters. *)

Lemma check_date_raises (y m d : Z) (e : exn) :
  check_date y m d = Raise e -> exists msg, e = ValueError msg.
Proof.
  unfold check_date. repeat (destruct (negb _); [intros [= <-]; eauto|]). done.
Qed.

Lemma check_hour_raises (h : Z) (e : exn) :
  check_hour h = Raise e -> exists msg, e = ValueError msg.
Proof. unfold check_hour. destruct (_ && _); [done|]. intros [= <-]. eauto. Qed.

Lemma as_c_int_raises (n : Z) (e : exn) :
  as_c_int n = Raise e ->
  (exists msg, e = OverflowError msg) /\ ~ (- 2 ^ 31 <= n <= 2 ^ 31 - 1).
Proof.
  intros H. split.
  - revert H. unfold as_c_int.
    repeat (destruct (_ : bool); [intros [= <-]; eauto|]). done.
  - intros Hn. by rewrite as_c_int_ok in H.
Qed.

Lemma py_int_raises (s : string) (e : exn) :
  py_int s = Raise e -> exists msg, e = ValueError msg.
Proof.
  unfold py_int. destruct (scan_sign _) as [neg u].
  destruct (scan_digits 0 0 u) as [[v [|n]] [|a r]]; intros [= <-]; eauto.
Qed.

Lemma py_float_raises (s : string) (e : exn) :
  py_float s = Raise e -> exists msg, e = ValueError msg.
Proof.
  unfold py_float. destruct (scan_sign _) as [neg u].
  destruct (_ || _); [done|]. destruct (String.eqb _ _); [done|].
  destruct (scan_digits 0 0 u) as [[ip ni] r1].
  destruct (match r1 with String "." r => _ | _ => _ end) as [[m nf] r2].
  destruct (Nat.eqb _ _); [intros [= <-]; eauto|].
  destruct r2 as [|c r3]; [done|].
  destruct (is_exp_mark c); [|intros [= <-]; eauto].
  destruct (scan_sign r3) as [eneg r4].
  destruct (scan_digits 0 0 r4) as [[ev [|n]] [|a r]]; intros [= <-]; eauto.
Qed.

Lemma get_time_raises (s : string) (e : exn) :
  get_time s = Raise e -> conversion_error e.
Proof.
  unfold get_time, new_time.
  destruct (py_int _) as [h|e0] eqn:E; cbn [mbind result_bind].
  - destruct (as_c_int (h - 1)) as [h1|e1] eqn:E1; cbn [mbind result_bind].
    + destruct (check_hour h1) as [h2|e2] eqn:E2; cbn [mbind result_bind];
        [done|]. intros [= <-]. left. by apply check_hour_raises in E2.
    + intros [= <-]. right. by apply as_c_int_raises in E1 as [? _].
  - intros [= <-]. left. by apply py_int_raises in E.
Qed.

(** What the compiled format can match: a month in 1..12, a day in 1..31
    and a year of four digits. *)

Lemma re_digit_inv {A} (lo hi : Z) (k : Z -> string -> option A) (s : string)
    (r : A) :
  re_digit lo hi k s = Some r ->
  exists v s', lo <= v <= hi /\ k v s' = Some r.
Proof.
  destruct s as [|a s']; simpl; [done|]. unfold in_range.
  destruct (digit_of a) as [v|]; [|done].
  destruct (_ && _) eqn:E; [|done]. apply andb_prop in E.
  intros H. exists v, s'. split; [lia|done].
Qed.

Lemma re_lit_inv {A} (c : ascii) (k : string -> option A) (s : string) (r : A) :
  re_lit c k s = Some r -> exists s', k s' = Some r.
Proof.
  destruct s as [|a s']; simpl; [done|]. destruct (Ascii.eqb a c); [|done].
  intros H. by exists s'.
Qed.

Lemma orelse_inv {A} (x y : option A) (r : A) :
  orelse x y = Some r -> x = Some r \/ y = Some r.
Proof. destruct x; simpl; auto. Qed.

Lemma re_two_digits_inv {A} (lo1 hi1 lo2 hi2 : Z)
    (k : Z -> string -> option A) (s : string) (r : A) :
  re_digit lo1 hi1 (fun a => re_digit lo2 hi2 (fun b => k (10 * a + b))) s
  = Some r ->
  exists v s', 10 * lo1 + lo2 <= v <= 10 * hi1 + hi2 /\ k v s' = Some r.
Proof.
  intros (a & s1 & Ha & (b & s2 & Hb & H)%re_digit_inv)%re_digit_inv.
  exists (10 * a + b), s2. split; [lia|done].
Qed.

Lemma re_m_inv {A} (k : Z -> string -> option A) (s : string) (r : A) :
  re_m k s = Some r -> exists m s', 1 <= m <= 12 /\ k m s' = Some r.
Proof.
  unfold re_m.
  intros [H|[H|H]%orelse_inv]%orelse_inv.
  - apply re_two_digits_inv in H as (v & s' & Hv & H). exists v, s'.
    split; [lia|done].
  - apply re_two_digits_inv in H as (v & s' & Hv & H). exists v, s'.
    split; [lia|done].
  - apply re_digit_inv in H as (v & s' & Hv & H). exists v, s'.
    split; [lia|done].
Qed.

Lemma re_d_inv {A} (k : Z -> string -> option A) (s : string) (r : A) :
  re_d k s = Some r -> exists d s', 1 <= d <= 31 /\ k d s' = Some r.
Proof.
  unfold re_d.
  intros [H|[H|[H|[H|H]%orelse_inv]%orelse_inv]%orelse_inv]%orelse_inv.
  - apply re_two_digits_inv in H as (v & s' & Hv & H). exists v, s'.
    split; [lia|done].
  - apply re_two_digits_inv in H as (v & s' & Hv & H). exists v, s'.
    split; [lia|done].
  - apply re_two_digits_inv in H as (v & s' & Hv & H). exists v, s'.
    split; [lia|done].
  - apply re_digit_inv in H as (v & s' & Hv & H). exists v, s'.
    split; [lia|done].
  - apply re_lit_inv in H as (s1 & H).
    apply re_digit_inv in H as (v & s' & Hv & H). exists v, s'.
    split; [lia|done].
Qed.

Lemma re_Y_inv {A} (k : Z -> string -> option A) (s : string) (r : A) :
  re_Y k s = Some r -> exists y s', 0 <= y <= 9999 /\ k y s' = Some r.
Proof.
  unfold re_Y.
  intros (a & s1 & Ha & (b & s2 & Hb & (c & s3 & Hc
    & (d & s4 & Hd & H)%re_digit_inv)%re_digit_inv)%re_digit_inv)%re_digit_inv.
  exists (1000 * a + 100 * b + 10 * c + d), s4. split; [lia|done].
Qed.

Lemma match_mdY_bounds (s rest : string) (m d y : Z) :
  match_mdY s = Some (m, d, y, rest) ->
  1 <= m <= 12 /\ 1 <= d <= 31 /\ 0 <= y <= 9999.
Proof.
  unfold match_mdY.
  intros (m' & s1 & Hm & (s2 & (d' & s3 & Hd & (s4 & (y' & s5 & Hy & H)%re_Y_inv
    )%re_lit_inv)%re_d_inv)%re_lit_inv)%re_m_inv.
  injection H as -> -> -> _. done.
Qed.

Lemma strptime_mdY_raises (s : string) (e : exn) :
  strptime_mdY s = Raise e -> exists msg, e = ValueError msg.
Proof.
  unfold strptime_mdY.
  destruct (match_mdY s) as [[[[m d] y] rest]|] eqn:Em; [|intros [= <-]; eauto].
  destruct (String.eqb rest EmptyString); [|intros [= <-]; eauto].
  destruct (match_mdY_bounds _ _ _ _ _ Em) as (Hm & Hd & Hy).
  unfold new_datetime. rewrite !as_c_int_ok by lia. cbn [mbind result_bind].
  destruct (check_date y m d) eqn:E; cbn [mbind result_bind].
  - by rewrite check_hour_ok by lia.
  - intros [= <-]. by apply check_date_raises in E.
Qed.

Lemma get_date_raises (coerce_year : option Z) (s : string) (e : exn) :
  get_date coerce_year s = Raise e -> conversion_error e.
Proof.
  unfold get_date, replace_year.
  destruct (strptime_mdY s) as [dt|e0] eqn:E; cbn [mbind result_bind].
  - destruct (truthy coerce_year); cbn [mbind result_bind]; [|done].
    destruct (as_c_int _) as [y|e1] eqn:Ey; cbn [mbind result_bind].
    + destruct (check_date _ _ _) eqn:E1; cbn [mbind result_bind]; [done|].
      intros [= <-]. left. by apply check_date_raises in E1.
    + intros [= <-]. right. by apply as_c_int_raises in Ey as [? _].
  - destruct (truthy coerce_year); cbn [mbind result_bind]; intros [= <-];
      left; by apply strptime_mdY_raises in E.
Qed.

Lemma fmap_raises {A B} (f : A -> B) (r : result A) (e : exn) :
  f <$> r = Raise e -> r = Raise e.
Proof. destruct r; simpl; [done|]. by intros [= ->]. Qed.

Lemma converters_raise (coerce_year : option Z) (label s : string)
    (f : converter) (e : exn) :
  assoc label (converters coerce_year) = Some f -> f s = Raise e ->
  conversion_error e.
Proof.
  intros Ha Hf. apply assoc_elem in Ha.
  assert (Hall : Forall (fun lf : string * converter =>
            forall s e, lf.2 s = Raise e -> conversion_error e)
            (converters coerce_year)).
  { unfold converters.
    repeat (apply Forall_cons; split;
      [intros s' e' H'; simpl in H'; unfold conv_date, conv_time, conv_float,
         conv_int, conv_str in H';
       first [ discriminate H'
             | apply fmap_raises in H';
               first [ by apply get_date_raises in H'
                     | by apply get_time_raises in H'
                     | left; by apply py_float_raises in H'
                     | left; by apply py_int_raises in H' ] ] |]).
    apply Forall_nil. done. }
  rewrite Forall_forall in Hall. by apply (Hall _ Ha s e).
Qed.

Lemma zip_seq_lookup (labels : list string) (j : nat) (label : string) :
  labels !! j = Some label -> (j, label) ∈ zip (seq 0 (length labels)) labels.
Proof.
  intros Hj. apply list_elem_of_lookup. exists j.
  rewrite lookup_zip_with, lookup_seq_lt by (by eapply lookup_lt_Some).
  simpl. by rewrite Hj.
Qed.

(** What [read_table] does with the header row and the records when these
    have as many fields as there are labels. *)
Lemma read_table_rect_unfold (first labels : list string)
    (rows : list (list string)) (n : nat) (convs : list (string * converter)) :
  Forall (fun r => length r = length labels) (take n rows) ->
  read_table (first :: labels :: rows) 1 n (header_row 0) convs
  = cols ← mapR (fun '(j, label) =>
                   let raw := map (fun row => field row j) (take n rows) in
                   match assoc label convs with
                   | Some f => s ← mapR f raw; Ok (label, s)
                   | None => Ok (label, map infer raw)
                   end)
                (zip (seq 0 (length labels)) labels);
    Ok (mk_df None [] (length (take n rows)) cols).
Proof.
  intros Hrect. unfold read_table. simpl drop. cbv beta iota. simpl mbind.
  unfold mbind, result_bind.
  set (data := take n rows) in *. clearbody data.
  assert (Hw : match data with
               | [] => length labels
               | r :: _ => Nat.max (length r) (length labels)
               end = length labels).
  { destruct Hrect as [|r ? Hr _]; [done|]. rewrite Hr. apply Nat.max_id. }
  rewrite Hw. rewrite check_widths_ok.
  2:{ apply Forall_tail. eapply Forall_impl; [exact Hrect|].
      intros r Hr. simpl in Hr. rewrite Hr. apply Nat.le_refl. }
  rewrite Nat.sub_diag. reflexivity.
Qed.

Lemma read_table_rejects (first labels : list string)
    (rows : list (list string)) (n : nat) (convs : list (string * converter))
    (j : nat) (label : string) (r : list string) :
  Forall (fun r => length r = length labels) (take n rows) ->
  labels !! j = Some label -> r ∈ take n rows ->
  cell_ok convs label (field r j) = false ->
  exists e label' f s,
    read_table (first :: labels :: rows) 1 n (header_row 0) convs = Raise e
    /\ assoc label' convs = Some f /\ f s = Raise e.
Proof.
  intros Hrect Hj Hr Hc. rewrite read_table_rect_unfold by done.
  set (F := fun '(j, label) => _).
  destruct (mapR F (zip (seq 0 (length labels)) labels)) as [cols|e] eqn:E.
  - exfalso. assert (Hf : is_ok (mapR F (zip (seq 0 (length labels)) labels)) = false).
    { apply (mapR_fails _ _ (j, label)); [by apply zip_seq_lookup|].
      unfold F. unfold cell_ok in Hc.
      destruct (assoc label convs) as [f|]; [|done]. cbv zeta.
      assert (Hm : is_ok (mapR f (map (fun row => field row j) (take n rows))) = false).
      { apply (mapR_fails _ _ (field r j)); [|done].
        apply list_elem_of_fmap. by exists r. }
      by destruct (mapR f _). }
    by rewrite E in Hf.
  - apply mapR_raise in E as ([j' label'] & _ & HF). unfold F in HF.
    destruct (assoc label' convs) as [f|] eqn:Ea; [|done]. cbv zeta in HF.
    destruct (mapR f _) as [s|e'] eqn:Em; simpl in HF; [done|].
    injection HF as ->. apply mapR_raise in Em as (s & _ & Hs).
    exists e, label', f, s. by simpl.
Qed.

(** X14. No field is skipped or given a default: when the labels of the
    header row are distinct and the records have as many fields as the
    header row, one field among the first 8760 records that the converter
    of its column refuses makes the whole load fail, and the exception is
    that of a converter: [ValueError], or [OverflowError] where an hour or
    a coerced year does not fit a C [int]. *)
Theorem rejected_field_fails (first labels : list string)
    (rows : list (list string)) (coerce_year : option Z) (j : nat)
    (label : string) (r : list string) :
  NoDup labels ->
  Forall (fun r => length r = length labels) (take nrows_year rows) ->
  labels !! j = Some label -> r ∈ take nrows_year rows ->
  cell_ok (converters coerce_year) label (field r j) = false ->
  exists e,
    TMY3_init (first :: labels :: rows) coerce_year = Raise e
    /\ ((exists msg, e = ValueError msg) \/ (exists msg, e = OverflowError msg)).
Proof.
  intros _ Hrect Hj Hr Hc.
  destruct (read_table_rejects first labels rows nrows_year
              (converters coerce_year) j label r Hrect Hj Hr Hc)
    as (e & label' & f & s & Hrt & Ha & Hf).
  exists e. split; [|exact (converters_raise _ _ _ _ _ Ha Hf)].
  unfold TMY3_init, TMY3_dataframe.
  by rewrite TMY3_info_ok, Hrt.
Qed.

Lemma rejected_field_fails_witness :
  (exists e,
     TMY3_init [sample_info; tmy3_labels; <[31%nat := "n/a"]> sample_row] None
     = Raise e
     /\ ((exists msg, e = ValueError msg) \/ (exists msg, e = OverflowError msg)))
  /\ (exists e,
     TMY3_init [sample_info; tmy3_labels;
                <[1%nat := "99999999999999999999:00"]> sample_row] None
     = Raise e
     /\ ((exists msg, e = ValueError msg) \/ (exists msg, e = OverflowError msg))).
Proof.
  split.
  - apply (rejected_field_fails sample_info tmy3_labels
             [<[31%nat := "n/a"]> sample_row] None 31 "Dry-bulb (C)"
             (<[31%nat := "n/a"]> sample_row)).
    + apply (bool_decide_unpack _). vm_compute. exact I.
    + repeat constructor.
    + reflexivity.
    + vm_compute. left.
    + vm_compute. reflexivity.
  - apply (rejected_field_fails sample_info tmy3_labels
             [<[1%nat := "99999999999999999999:00"]> sample_row] None 1 TIME
             (<[1%nat := "99999999999999999999:00"]> sample_row)).
    + apply (bool_decide_unpack _). vm_compute. exact I.
    + repeat constructor.
    + reflexivity.
    + vm_compute. left.
    + vm_compute. reflexivity.
Defined.

Lemma fields_ok_inv (convs : list (string * converter)) (labels r : list string) :
  fields_ok convs labels r = true ->
  length r = length labels
  /\ forall j label, labels !! j = Some label ->
       cell_ok convs label (field r j) = true.
Proof.
  unfold fields_ok. intros [Hl Hf]%andb_prop. apply Nat.eqb_eq in Hl.
  split; [done|]. intros j label Hj. rewrite forallb_forall in Hf.
  destruct (lookup_lt_is_Some_2 r j) as [x Hx].
  { rewrite Hl. by eapply lookup_lt_Some. }
  assert (Hfx : field r j = x).
  { unfold field. by apply nth_lookup_Some with (d := EmptyString) in Hx. }
  rewrite Hfx. apply (Hf (label, x)). apply list_elem_of_In.
  apply list_elem_of_lookup. exists j. rewrite lookup_zip_with, Hj. simpl.
  by rewrite Hx.
Qed.

(** X15. A header row without the date column makes the load fail with
    [KeyError] for that column, even though every field of every record is
    accepted by its converter. *)
Theorem missing_date_column (first labels : list string)
    (rows : list (list string)) (coerce_year : option Z) :
  DATE ∉ labels ->
  Forall (fun r => fields_ok (converters coerce_year) labels r = true)
         (take nrows_year rows) ->
  TMY3_init (first :: labels :: rows) coerce_year = Raise (KeyError DATE).
Proof.
  intros Hd Hok. unfold TMY3_init, TMY3_dataframe.
  rewrite TMY3_info_ok. cbn [mbind result_bind].
  rewrite read_table_rectangular.
  - cbn [mbind result_bind]. unfold df_getitem, getitem, set_index_name.
    cbn [df_columns]. change "Date (MM/DD/YYYY)" with DATE.
    rewrite (table_columns_fresh _ _ _ DATE Hd). reflexivity.
  - eapply Forall_impl; [exact Hok|]. intros r Hr.
    by apply fields_ok_inv in Hr as [? _].
  - intros j label r Hj Hr. rewrite Forall_forall in Hok.
    by apply (fields_ok_inv _ _ _ (Hok r Hr)).
Qed.

Lemma missing_date_column_witness :
  TMY3_init [sample_info; drop 1 tmy3_labels; drop 1 sample_row] (Some 2020)
  = Raise (KeyError DATE).
Proof.
  apply (missing_date_column sample_info (drop 1 tmy3_labels)
           [drop 1 sample_row] (Some 2020)).
  - apply (bool_decide_unpack _). vm_compute. exact I.
  - repeat constructor.
Defined.

(** ** The shape of a loaded data set *)

Lemma mapR_length {A B} (f : A -> result B) (l : list A) (l' : list B) :
  mapR f l = Ok l' -> length l' = length l.
Proof. intros H%mapR_inv. symmetry. by eapply Forall2_length. Qed.

Lemma mapR_Forall {A B} (f : A -> result B) (P : B -> Prop) (l : list A)
    (l' : list B) :
  (forall x y, f x = Ok y -> P y) -> mapR f l = Ok l' -> Forall P l'.
Proof.
  intros HP H%mapR_inv. induction H; constructor; eauto.
Qed.

Lemma read_table_shape (recs : list (list string)) (n : nat)
    (convs : list (string * converter)) (df : DataFrame) :
  read_table recs 1 n (header_row 0) convs = Ok df ->
  df_len df = Nat.min n (length recs - 2)
  /\ Forall (fun c => length c.2 = df_len df) (df_columns df).
Proof.
  unfold read_table. destruct recs as [|first [|labels rows]]; [done..|].
  simpl drop. cbv beta iota. simpl mbind. unfold mbind, result_bind.
  set (data := take n rows).
  destruct (check_widths _ _); [|done].
  destruct (mapR _ _) as [cols|] eqn:E; [|done]. intros [= <-]. simpl.
  split; [unfold data; rewrite length_take; lia|].
  eapply mapR_Forall; [|exact E]. intros [j label] [l s] H. simpl.
  destruct (assoc label convs) as [f|].
  - destruct (mapR f _) as [s'|] eqn:Em; simpl in H; [|done].
    injection H as _ <-. apply mapR_length in Em. by rewrite Em, length_map.
  - injection H as _ <-. by rewrite !length_map.
Qed.

Lemma combine_inv (x y c : cell) :
  combine (x, y) = Ok c ->
  exists d t, x = CDate d /\ y = CTime t
    /\ c = CDateTime (mk_datetime d (mk_time (hour t) 0))
    /\ 0 <= hour t <= 23
    /\ check_date (year d) (month d) (day d) = Ok d.
Proof.
  unfold combine. destruct x as [| | | | |d| |]; try done.
  destruct y as [| | | | | |t|]; try done.
  destruct (new_datetime _ _ _ _) as [dt|] eqn:E; simpl; [|done].
  intros [= <-]. apply new_datetime_inv in E as (-> & Hh & Hc).
  exists d, t. destruct d. simpl in *. done.
Qed.

Lemma TMY3_dataframe_inv (recs : list (list string)) (coerce_year : option Z)
    (df : DataFrame) :
  TMY3_dataframe recs coerce_year = Ok df ->
  exists df0 dates times dts,
    read_table recs 1 nrows_year (header_row 0) (converters coerce_year) = Ok df0
    /\ assoc DATE (df_columns df0) = Some dates
    /\ assoc TIME (df_columns df0) = Some times
    /\ mapR combine (zip dates times) = Ok dts
    /\ length dts = df_len df0
    /\ df = mk_df (Some "Hour") (df_index df0) (df_len df0)
              (("DateTime", dts) :: df_columns df0).
Proof.
  unfold TMY3_dataframe.
  destruct (read_table _ _ _ _ _) as [df0|]; cbn [mbind result_bind]; [|done].
  unfold df_getitem, getitem, set_index_name. cbn [df_columns].
  change "Date (MM/DD/YYYY)" with DATE. change "Time (HH:MM)" with TIME.
  destruct (assoc DATE (df_columns df0)) as [dates|] eqn:Ed; simpl; [|done].
  destruct (assoc TIME (df_columns df0)) as [times|] eqn:Et; simpl; [|done].
  destruct (mapR combine _) as [dts|] eqn:E; simpl; [|done].
  unfold df_insert0. cbn [df_columns df_len df_index df_index_name].
  destruct (assoc "DateTime" _); [done|].
  destruct (Nat.eqb _ _) eqn:El; [|done]. intros [= <-].
  apply Nat.eqb_eq in El. by exists df0, dates, times, dts.
Qed.

Lemma TMY3_init_inv (recs : list (list string)) (coerce_year : option Z)
    (t : TMY3) :
  TMY3_init recs coerce_year = Ok t ->
  exists self0,
    TMY3_info recs = Ok self0
    /\ TMY3_dataframe recs coerce_year = Ok (dataframe t)
    /\ TMY3_series (dataframe t) self0 = Ok (attrs t)
    /\ units t = dict_of_items units_items.
Proof.
  unfold TMY3_init. destruct (TMY3_info recs) as [self0|]; simpl; [|done].
  destruct (TMY3_dataframe _ _) as [df|]; simpl; [|done].
  destruct (TMY3_series _ _) as [self|] eqn:E; simpl; [|done].
  intros [= <-]. by exists self0.
Qed.

Lemma TMY3_init_shape (recs : list (list string)) (coerce_year : option Z)
    (t : TMY3) :
  TMY3_init recs coerce_year = Ok t ->
  df_len (dataframe t) = Nat.min nrows_year (length recs - 2)
  /\ Forall (fun c => length c.2 = df_len (dataframe t))
            (df_columns (dataframe t)).
Proof.
  intros (self0 & _ & Hdf & _)%TMY3_init_inv.
  apply TMY3_dataframe_inv in Hdf as (df0 & dates & times & dts & Hrt & _ & _ & _ & Hl & ->).
  apply read_table_shape in Hrt as [Hn Hc]. cbn [df_len df_columns].
  split; [done|]. by constructor.
Qed.

(** X16. A loaded data set is rectangular and bounded: it has as many rows
    as the file has data records, but never more than 8760, and every
    column of the data frame, [DateTime] included, has exactly one cell per
    row. *)
Theorem loaded_frame_shape (recs : list (list string))
    (coerce_year : option Z) (t : TMY3) :
  TMY3_init recs coerce_year = Ok t ->
  (df_len (dataframe t) <= nrows_year)%nat
  /\ df_len (dataframe t) = Nat.min nrows_year (length recs - 2)
  /\ Forall (fun c => length c.2 = df_len (dataframe t))
            (df_columns (dataframe t)).
Proof.
  intros Ht. destruct (TMY3_init_shape _ _ _ Ht) as [Hn Hc].
  split; [lia|]. by split.
Qed.

Lemma foldR_setattr_inv (df : DataFrame) (names : list (string * string))
    (self self' : gmap string Series) :
  foldR (fun self cn => v ← df_getitem df cn.1; Ok (setattr self cn.2 v))
    self names = Ok self' ->
  (forall name, name ∉ map snd names -> self' !! name = self !! name)
  /\ (NoDup (map snd names) ->
      forall c n, (c, n) ∈ names ->
        exists s, df_getitem df c = Ok s /\ self' !! n = Some s).
Proof.
  revert self. induction names as [|[c0 n0] names IH]; intros self; simpl.
  - intros [= <-]. split; [done|]. by intros _ c n ?%elem_of_nil.
  - destruct (df_getitem df c0) as [v|] eqn:E; simpl; [|done].
    intros H. destruct (IH _ H) as [Hout Hin]. split.
    + intros name Hn. rewrite Hout by (intros ?; apply Hn; by right).
      unfold setattr. apply lookup_insert_ne. intros ->. apply Hn. left.
    + intros [Hn0 Hnd]%NoDup_cons c n [[= -> ->]|Hcn]%elem_of_cons.
      * exists v. split; [done|]. rewrite Hout by done.
        unfold setattr. apply lookup_insert_eq.
      * by apply Hin.
Qed.

Lemma series_names_distinct : NoDup (map snd series_names).
Proof. apply (bool_decide_unpack _). vm_compute. exact I. Qed.

Lemma info_names_apart (name : string) :
  name ∈ info_names -> name ∉ map snd series_names.
Proof.
  revert name. apply Forall_forall.
  apply (bool_decide_unpack _). vm_compute. exact I.
Qed.

Lemma TMY3_info_inv (recs : list (list string)) (self : gmap string Series) :
  TMY3_info recs = Ok self ->
  exists first rest, recs = first :: rest /\ self = info_attrs first.
Proof.
  destruct recs as [|first rest]; [done|]. rewrite TMY3_info_ok.
  intros [= <-]. by exists first, rest.
Qed.

(** X17. After a load every name of the column table is an attribute, and
    the attribute is the column of the data frame it names, one cell per
    row; the seven station names are still attributes, none overwritten by
    a series: each is the one-cell series of the field of the station line
    at its position, counted from the seventh field from the end (from the
    start when the line has fewer than seven fields, a field that is not
    there being a missing value). *)
Theorem attributes_are_columns (first : list string)
    (rest : list (list string)) (coerce_year : option Z) (t : TMY3) :
  TMY3_init (first :: rest) coerce_year = Ok t ->
  (forall column name, (column, name) ∈ series_names ->
     exists s, df_getitem (dataframe t) column = Ok s
       /\ attrs t !! name = Some s
       /\ length s = df_len (dataframe t))
  /\ (forall i name, info_names !! i = Some name ->
       attrs t !! name = Some [infer (field first (length first - 7 + i))]).
Proof.
  intros Ht. pose proof (TMY3_init_shape _ _ _ Ht) as [_ Hshape].
  destruct (TMY3_init_inv _ _ _ Ht) as (self0 & Hi & _ & Hs & _).
  apply foldR_setattr_inv in Hs as [Hout Hin]. split.
  - intros c n Hcn. destruct (Hin series_names_distinct c n Hcn) as (s & Hg & Ha).
    exists s. split; [done|]. split; [done|].
    unfold df_getitem, getitem in Hg.
    destruct (assoc c _) as [s'|] eqn:E; [|done]. injection Hg as ->.
    apply assoc_elem in E. rewrite Forall_forall in Hshape.
    apply (Hshape _ E).
  - intros i name Hn.
    rewrite Hout by (apply info_names_apart; by eapply list_elem_of_lookup_2).
    rewrite TMY3_info_ok in Hi. injection Hi as <-.
    by apply info_attrs_lookup.
Qed.

Lemma sample_years (coerce_year : option Z) :
  truthy coerce_year = false ->
  (forall i : nat, 1 <= (fun _ : nat => 1996) i <= 9999)
  /\ (forall i : nat,
        1 <= effective_year coerce_year ((fun _ : nat => 1996) i) <= 9999).
Proof. intros H. unfold effective_year. rewrite H. split; intros; lia. Qed.

Lemma loaded_frame_shape_witness :
  exists t,
    TMY3_init (station_file (fun _ => 1996) 2) None = Ok t
    /\ (df_len (dataframe t) <= nrows_year)%nat
    /\ df_len (dataframe t)
       = Nat.min nrows_year (length (station_file (fun _ => 1996) 2) - 2)
    /\ Forall (fun c => length c.2 = df_len (dataframe t))
              (df_columns (dataframe t)).
Proof.
  destruct (sample_years None eq_refl) as [Hy He].
  destruct (station_file_loads None (fun _ => 1996) 2 Hy He) as (t & Ht & _).
  exists t. split; [exact Ht|].
  exact (loaded_frame_shape (station_file (fun _ => 1996) 2) None t Ht).
Defined.

Lemma attributes_are_columns_witness :
  exists t,
    TMY3_init (station_file (fun _ => 1996) 2) None = Ok t
    /\ (forall column name, (column, name) ∈ series_names ->
         exists s, df_getitem (dataframe t) column = Ok s
           /\ attrs t !! name = Some s
           /\ length s = df_len (dataframe t))
    /\ (forall i name, info_names !! i = Some name ->
         attrs t !! name
         = Some [infer (field sample_info (length sample_info - 7 + i))]).
Proof.
  destruct (sample_years None eq_refl) as [Hy He].
  destruct (station_file_loads None (fun _ => 1996) 2 Hy He) as (t & Ht & _).
  exists t. split; [exact Ht|].
  exact (attributes_are_columns sample_info
           (tmy3_labels :: map (hour_row (fun _ => 1996)) (seq 0 2)) None t Ht).
Defined.

(** X18. In a loaded data set the [datetime] series is the [date] series
    taken at the hour of the [hour] series, row by row: the three have the
    same length, every date is a date of the calendar, every hour is in
    0..23, and every [DateTime] has the date of its row, the hour of its
    row and the minute 0. *)
Theorem datetime_combines_date_and_hour (recs : list (list string))
    (coerce_year : option Z) (t : TMY3) :
  TMY3_init recs coerce_year = Ok t ->
  exists dts dates times,
    attrs t !! "datetime" = Some dts
    /\ attrs t !! "date" = Some dates
    /\ attrs t !! "hour" = Some times
    /\ length dates = length dts /\ length times = length dts
    /\ forall i c, dts !! i = Some c ->
         exists d tm,
           dates !! i = Some (CDate d) /\ times !! i = Some (CTime tm)
           /\ c = CDateTime (mk_datetime d (mk_time (hour tm) 0))
           /\ 0 <= hour tm <= 23
           /\ check_date (year d) (month d) (day d) = Ok d.
Proof.
  intros Ht. destruct (TMY3_init_inv _ _ _ Ht) as (self0 & _ & Hdf & Hs & _).
  apply TMY3_dataframe_inv in Hdf
    as (df0 & dates & times & dts & Hrt & Hd & Htm & Hc & Hl & Hfr).
  apply read_table_shape in Hrt as [_ Hshape]. rewrite Forall_forall in Hshape.
  pose proof (Hshape _ (assoc_elem _ _ _ Hd)) as Hld.
  pose proof (Hshape _ (assoc_elem _ _ _ Htm)) as Hlt. simpl in Hld, Hlt.
  apply foldR_setattr_inv in Hs as [_ Hin].
  specialize (Hin series_names_distinct).
  exists dts, dates, times.
  destruct (Hin "DateTime" "datetime") as (s1 & Hg1 & Ha1);
    [apply (bool_decide_unpack _); vm_compute; exact I|].
  destruct (Hin DATE "date") as (s2 & Hg2 & Ha2);
    [apply (bool_decide_unpack _); vm_compute; exact I|].
  destruct (Hin TIME "hour") as (s3 & Hg3 & Ha3);
    [apply (bool_decide_unpack _); vm_compute; exact I|].
  rewrite Hfr in Hg1, Hg2, Hg3. unfold df_getitem, getitem in Hg1, Hg2, Hg3.
  cbn [df_columns] in Hg1, Hg2, Hg3.
  change (assoc "DateTime" (("DateTime", dts) :: df_columns df0))
    with (Some dts) in Hg1.
  change (assoc DATE (("DateTime", dts) :: df_columns df0))
    with (assoc DATE (df_columns df0)) in Hg2.
  change (assoc TIME (("DateTime", dts) :: df_columns df0))
    with (assoc TIME (df_columns df0)) in Hg3.
  rewrite Hd in Hg2. rewrite Htm in Hg3.
  injection Hg1 as <-. injection Hg2 as <-. injection Hg3 as <-.
  split; [done|]. split; [done|]. split; [done|].
  split; [lia|]. split; [lia|].
  intros i c Hi. apply mapR_inv in Hc.
  destruct (Forall2_lookup_r _ _ _ _ _ Hc Hi) as ([x y] & Hz & Hxy).
  apply lookup_zip_with_Some in Hz as (x' & y' & [= -> ->] & Ex & Ey).
  apply combine_inv in Hxy as (d & tm & -> & -> & -> & Hh & Hcd).
  by exists d, tm.
Qed.

Lemma datetime_combines_date_and_hour_witness :
  exists t dts dates times,
    TMY3_init (station_file (fun _ => 1996) 2) None = Ok t
    /\ attrs t !! "datetime" = Some dts
    /\ attrs t !! "date" = Some dates
    /\ attrs t !! "hour" = Some times
    /\ length dates = length dts /\ length times = length dts
    /\ forall i c, dts !! i = Some c ->
         exists d tm,
           dates !! i = Some (CDate d) /\ times !! i = Some (CTime tm)
           /\ c = CDateTime (mk_datetime d (mk_time (hour tm) 0))
           /\ 0 <= hour tm <= 23
           /\ check_date (year d) (month d) (day d) = Ok d.
Proof.
  destruct (sample_years None eq_refl) as [Hy He].
  destruct (station_file_loads None (fun _ => 1996) 2 Hy He) as (t & Ht & _).
  destruct (datetime_combines_date_and_hour
              (station_file (fun _ => 1996) 2) None t Ht)
    as (dts & dates & times & H).
  exists t, dts, dates, times. split; [exact Ht|exact H].
Defined.

(** ** Loading by name *)

Section NamedLoad.
Variable HOME : option string.
Variable remote : nat -> string -> option response.
Variable tokenize : string -> list (list string).

(** X19. [get_tmy3] goes through the cache.  For a cached station it makes
    no request and is [TMY3.__init__] on the records of the cache file; for
    an uncached one whose fetch answers with a status other than 200 the
    error of [get_data] comes out and no data set is built. *)
Theorem get_tmy3_through_cache (config : config_t) (tmy3_name : string)
    (coerce_year : option Z) (w : world) :
  (forall s, files w !! cache_file_of HOME tmy3_name = Some s ->
     get_tmy3 HOME remote tokenize config tmy3_name coerce_year w
     = (TMY3_init (tokenize s) coerce_year, w))
  /\ (forall url r,
        path_exists (cache_file_of HOME tmy3_name) w = false ->
        data_url config tmy3_name = Ok url ->
        remote (length (requests w)) url = Some r ->
        status_code r <> 200 ->
        get_tmy3 HOME remote tokenize config tmy3_name coerce_year w
        = (Raise (OSError 2 "file not found" (cache_file_of HOME tmy3_name)),
           mk_world (files w) (dirs w) (requests w ++ [url])%list)).
Proof.
  split; [intros s Hs; by apply get_tmy3_cached|].
  intros url r He Hu Hr Hs. unfold get_tmy3, mbind, io_mbind, io_bind.
  rewrite get_data_miss by done. rewrite Hu. cbv zeta. rewrite Hr.
  by rewrite (proj2 (Z.eqb_neq _ _) Hs).
Qed.
End NamedLoad.

Lemma get_tmy3_through_cache_witness :
  get_tmy3 sample_home (remote_always not_found) (fun _ => station_file (fun _ => 1996) 1)
    default_config "AK-Adak_Nas.tmy3" None (cached "AK-Adak_Nas.tmy3" lf_text)
  = (TMY3_init (station_file (fun _ => 1996) 1) None,
     cached "AK-Adak_Nas.tmy3" lf_text)
  /\ get_tmy3 sample_home (remote_always not_found)
       (fun _ => station_file (fun _ => 1996) 1)
       default_config "AK-Adak_Nas.tmy3" None empty_cache
     = (Raise (OSError 2 "file not found"
                 (cache_file_of sample_home "AK-Adak_Nas.tmy3")),
        mk_world (files empty_cache) (dirs empty_cache)
          (requests empty_cache ++ [sample_url "AK-Adak_Nas.tmy3"])%list).
Proof.
  split.
  - apply (proj1 (get_tmy3_through_cache sample_home (remote_always not_found)
             (fun _ => station_file (fun _ => 1996) 1) default_config
             "AK-Adak_Nas.tmy3" None (cached "AK-Adak_Nas.tmy3" lf_text)) lf_text).
    vm_compute. reflexivity.
  - apply (proj2 (get_tmy3_through_cache sample_home (remote_always not_found)
             (fun _ => station_file (fun _ => 1996) 1) default_config
             "AK-Adak_Nas.tmy3" None empty_cache)
             (sample_url "AK-Adak_Nas.tmy3") not_found);
      vm_compute; congruence.
Defined.
